(** * GenZ planner: the client-side synchronisation and derived-state layer

    A shallow embedding of the rule-bearing parts of [src/app.js] and of the
    second application variant ([src/unnamed/part_000]): the habit streak
    transition, the derived task lists, the collection hook with its
    subscription life cycle, the seeding effect and the reflection save flow.

    Conventions.
    - A JavaScript number that the program only uses as a counter or a
      time value is a [Z]; a string is a [string]; [null]/[undefined] is
      [None] of an [option].
    - A Firestore document, an object literal and an object spread are finite
      maps from field names to values ([gmap string JsVal]).
    - [console.error], the remote writes and the registered snapshot
      listeners are explicit components of the state that the functions
      thread through. *)

From Stdlib Require Import ZArith List Bool Ascii String Lia Permutation Sorted.
From stdpp Require Import base gmap strings list pretty.

Local Open Scope string_scope.
Local Open Scope Z_scope.

(* ===================================================================== *)
(** * Part I. The embedding                                               *)
(* ===================================================================== *)

(** ** JavaScript values and objects *)

(** The values that occur in the documents of this application. The only
    array is the [subtasks] of a task, whose entries are records
    [{id, text, completed}]. *)
Inductive JsVal : Type :=
| VUndefined
| VBool (b : bool)
| VNum (n : Z)
| VStr (s : string)
| VDate (ms : Z)
| VSubtasks (items : list (string * string * bool)).

Abbreviation Obj := (gmap string JsVal).

(** [ToBoolean]: the truthiness used by [!x], [x || y] and [x && y]. *)
Definition truthy (v : JsVal) : bool :=
  match v with
  | VUndefined => false
  | VBool b => b
  | VNum n => negb (n =? 0)
  | VStr s => negb (String.eqb s "")
  | VDate _ | VSubtasks _ => true
  end.

(** [o.f]: a missing property reads as [undefined]. *)
Definition get (o : Obj) (f : string) : JsVal := default VUndefined (o !! f).

(** [a || b]. *)
Definition js_or (a b : JsVal) : JsVal := if truthy a then a else b.

(** A value of [new Date()]: its time value and the text [toISOString()]
    gives for it (the UTC rendering, [YYYY-MM-DDTHH:mm:ss.sssZ]). *)
Record JsDate : Type := { getTime : Z; toISOString : string }.

(** [s.split('T')[0]]: the part of [s] before its first ['T']. *)
Fixpoint split_T_0 (s : string) : string :=
  match s with
  | EmptyString => EmptyString
  | String c rest =>
      if Ascii.eqb c "T"%char then EmptyString else String c (split_T_0 rest)
  end.

(** [d.toISOString().split('T')[0]], the day key used throughout. *)
Definition isoDay (d : JsDate) : string := split_T_0 (toISOString d).

(* --------------------------------------------------------------------- *)
(** ** Habits ([src/app.js], component [HabitTracker])                    *)
(* --------------------------------------------------------------------- *)

(** A habit as the habit collection delivers it. *)
Record Habit : Type := {
  habit_id : string;
  habit_name : string;
  habit_category : string;
  target : Z;
  streak : Z;
  lastChecked : string;
  checkedToday : bool
}.

(** The object [toggleHabit] hands to [updateHabit]. *)
Record HabitPatch : Type := {
  patch_checkedToday : bool;
  patch_streak : Z;
  patch_lastChecked : string
}.

(** [toggleHabit]: [today] is the constant of the enclosing component,
    [new Date().toISOString().split('T')[0]] at render time. The result is
    the call [updateHabit(habit.id, {checkedToday, streak, lastChecked})]. *)
Definition toggleHabit (today : string) (habit : Habit) : string * HabitPatch :=
  let isChecked := checkedToday habit in
  let newCheckedToday := negb isChecked in
  let newStreak :=
    if newCheckedToday then
      (* the user checks the habit *)
      if String.eqb (lastChecked habit) today then streak habit
      else streak habit + 1
    else
      (* the user unchecks the habit *)
      if String.eqb (lastChecked habit) today then
        (if 0 <? streak habit then streak habit - 1 else 0)
      else streak habit in
  (habit_id habit,
   {| patch_checkedToday := newCheckedToday;
      patch_streak := newStreak;
      patch_lastChecked := today |}).

(** [updateDoc] merges the named fields into the stored record; the next
    snapshot delivers the habit with exactly these three fields replaced. *)
Definition applyPatch (p : HabitPatch) (h : Habit) : Habit :=
  {| habit_id := habit_id h;
     habit_name := habit_name h;
     habit_category := habit_category h;
     target := target h;
     streak := patch_streak p;
     lastChecked := patch_lastChecked p;
     checkedToday := patch_checkedToday p |}.

(** One toggle, seen through the store: the habit before, the habit after. *)
Definition toggled (today : string) (h : Habit) : Habit :=
  applyPatch (snd (toggleHabit today h)) h.

(** A run of toggles, each at the date of the render it happens in; the
    result lists the habit after every step, oldest first. *)
Fixpoint toggleTrace (days : list string) (h : Habit) : list Habit :=
  match days with
  | [] => []
  | d :: rest => toggled d h :: toggleTrace rest (toggled d h)
  end.

(** The call a save handler makes on the collection hook. *)
Inductive StoreCall : Type :=
| CallAdd (item : Obj)
| CallUpdate (id : string) (fields : Obj).

(** [HabitTracker.handleSave]: [editingHabit] is [null] in the add flow. The
    object literal [{ ...data, streak: 0, lastChecked: today,
    checkedToday: false }] copies [data] and then sets the three keys. *)
Definition handleSave (editingHabit : option Habit) (today : string)
    (data : Obj) : StoreCall :=
  match editingHabit with
  | Some h => CallUpdate (habit_id h) data
  | None =>
      CallAdd (<["checkedToday" := VBool false]>
                 (<["lastChecked" := VStr today]>
                    (<["streak" := VNum 0]> data)))
  end.

(** [ActionForm.handleSubmit] for [type = "habit"]: the object the form
    submits, from its three inputs and the [initialData] it was opened
    with ([clock] is the [new Date()] of the submit). *)
Definition habitFormData (name category : string) (targetInput : JsVal)
    (initialData : Obj) (clock : JsDate) : Obj :=
  {[ "name" := VStr name;
     "category" := VStr category;
     "target" := targetInput;
     "streak" := js_or (get initialData "streak") (VNum 0);
     "lastChecked" := js_or (get initialData "lastChecked") (VStr (isoDay clock));
     "checkedToday" := js_or (get initialData "checkedToday") (VBool false) ]}.

(* --------------------------------------------------------------------- *)
(** ** The collection hook ([src/app.js], [useFirestoreCollection])       *)
(* --------------------------------------------------------------------- *)

(** A Firestore handle is opaque; the hook only tests it for [null] and
    compares it in a dependency array. *)
Record Firestore : Type := { instance : nat }.

#[global] Instance Firestore_eq_dec : EqDecision Firestore.
Proof. solve_decision. Defined.

(** [!userId] for a user id that is a string or [null]. *)
Definition userPresent (userId : option string) : bool :=
  match userId with
  | Some u => negb (String.eqb u "")
  | None => false
  end.

(** [!db]. *)
Definition dbPresent (db : option Firestore) : bool :=
  match db with Some _ => true | None => false end.

(** The dependency array [[db, userId, collectionName, sortField]]. *)
Record Deps : Type := {
  dep_db : option Firestore;
  dep_userId : option string;
  dep_collectionName : string;
  dep_sortField : option string
}.

#[global] Instance Deps_eq_dec : EqDecision Deps.
Proof. solve_decision. Defined.

(** [`artifacts/${appId}/users/${userId}/${collectionName}`]. *)
Definition collectionPath (appId userId collectionName : string) : string :=
  "artifacts/" +:+ appId +:+ "/users/" +:+ userId +:+ "/" +:+ collectionName.

(** A write request handed to the store. *)
Inductive RemoteWrite : Type :=
| RAdd (path : string) (item : Obj)
| RUpdate (path id : string) (fields : Obj)
| RDelete (path id : string).

(** How the store settles a write, and how an [async] function settles. *)
Inductive WriteResult : Type := WriteOk | WriteFail (msg : string).
Inductive Completion : Type := Fulfilled | Rejected (msg : string).

Inductive Level : Type := LogInfo | LogError.

(** What a registered snapshot listener closes over. *)
Record Subscription : Type := {
  sub_path : string;
  sub_collectionName : string;
  sub_sortField : option string
}.

(** One instance of the hook together with the part of the outside world
    it acts on.
    - [data], [loading], [error]: the three [useState] cells (the mirror);
    - [lastDeps], [cleanup]: what React keeps for the effect, the
      dependency array of its last run and the function that run returned
      ([() => unsubscribe()], identified by the listener it unregisters);
    - [listeners]: the [onSnapshot] registrations currently live in the
      store client; [nextListener] numbers them;
    - [console]: the lines written by [console.log] and [console.error];
    - [remote]: the write requests issued so far. *)
Record World : Type := {
  data : list Obj;
  loading : bool;
  error : option string;
  lastDeps : option Deps;
  cleanup : option nat;
  listeners : gmap nat Subscription;
  nextListener : nat;
  console : list (Level * string);
  remote : list RemoteWrite
}.

(** The hook before its first commit: [useState([])], [useState(true)],
    [useState(null)]. *)
Definition initWorld : World :=
  {| data := []; loading := true; error := None; lastDeps := None;
     cleanup := None; listeners := ∅; nextListener := 0%nat;
     console := []; remote := [] |}.

Definition setMirror (d : list Obj) (l : bool) (e : option string) (w : World) : World :=
  {| data := d; loading := l; error := e; lastDeps := lastDeps w;
     cleanup := cleanup w; listeners := listeners w;
     nextListener := nextListener w; console := console w; remote := remote w |}.

Definition setLoading (l : bool) (w : World) : World :=
  setMirror (data w) l (error w) w.

Definition setEffect (d : option Deps) (c : option nat)
    (ls : gmap nat Subscription) (n : nat) (w : World) : World :=
  {| data := data w; loading := loading w; error := error w; lastDeps := d;
     cleanup := c; listeners := ls; nextListener := n;
     console := console w; remote := remote w |}.

Definition logLine (lv : Level) (line : string) (w : World) : World :=
  {| data := data w; loading := loading w; error := error w;
     lastDeps := lastDeps w; cleanup := cleanup w; listeners := listeners w;
     nextListener := nextListener w; console := console w ++ [(lv, line)];
     remote := remote w |}.

Definition issue (r : RemoteWrite) (w : World) : World :=
  {| data := data w; loading := loading w; error := error w;
     lastDeps := lastDeps w; cleanup := cleanup w; listeners := listeners w;
     nextListener := nextListener w; console := console w;
     remote := remote w ++ [r] |}.

(** *** Array.prototype.sort

    [sort] is stable. It is modelled as a stable insertion sort that walks
    the array from the left and places each element (the comparator's first
    argument) before the first already placed element it compares below. *)
Fixpoint place {A : Type} (comparefn : A -> A -> Z) (pivot : A)
    (placed : list A) : list A :=
  match placed with
  | [] => [pivot]
  | y :: rest =>
      if comparefn pivot y <? 0 then pivot :: y :: rest
      else y :: place comparefn pivot rest
  end.

Definition js_sort {A : Type} (comparefn : A -> A -> Z) (l : list A) : list A :=
  fold_left (fun placed x => place comparefn x placed) l [].

(** [a < b] on the field values the hook may be asked to sort by: numbers,
    dates and strings of the same kind; any comparison with [undefined] is
    false. *)
Definition js_lt (a b : JsVal) : bool :=
  match a, b with
  | VNum x, VNum y => x <? y
  | VDate x, VDate y => x <? y
  | VStr x, VStr y => String.ltb x y
  | _, _ => false
  end.

(** The comparator of the client-side sort. *)
Definition bySortField (sortField : string) (a b : Obj) : Z :=
  if js_lt (get a sortField) (get b sortField) then -1
  else if js_lt (get b sortField) (get a sortField) then 1
  else 0.

(** [{ id: doc.id, ...doc.data() }]: the spread comes second, so a stored
    field named [id] wins over the document id. *)
Definition withId (doc : string * Obj) : Obj :=
  snd doc ∪ {[ "id" := VStr (fst doc) ]}.

(** The success callback of [onSnapshot], for a listener registered with
    [sub]. *)
Definition onNext (sub : Subscription) (docs : list (string * Obj)) (w : World) : World :=
  let list := map withId docs in
  let list := match sub_sortField sub with
              | Some f => if negb (String.eqb f "") then js_sort (bySortField f) list else list
              | None => list
              end in
  setMirror list false None w.

(** The error callback of [onSnapshot]. *)
Definition onError (collectionName msg : string) (w : World) : World :=
  setMirror (data w) false (Some msg)
    (logLine LogError ("Error fetching " +:+ collectionName +:+ ":") w).

(** The body of the hook's effect, run with the current dependencies. *)
Definition effectBody (appId : string) (d : Deps) (w : World) : World :=
  match dep_db d, dep_userId d with
  | Some _, Some u =>
      if userPresent (Some u) then
        let path := collectionPath appId u (dep_collectionName d) in
        let lid := nextListener w in
        setEffect (lastDeps w) (Some lid)
          (<[lid := {| sub_path := path;
                       sub_collectionName := dep_collectionName d;
                       sub_sortField := dep_sortField d |}]> (listeners w))
          (S lid) w
      else setEffect (lastDeps w) None (listeners w) (nextListener w) (setLoading false w)
  | _, _ => setEffect (lastDeps w) None (listeners w) (nextListener w) (setLoading false w)
  end.

(** Running the function the last effect run returned: [unsubscribe()]
    removes the listener from the store client. *)
Definition runCleanup (w : World) : World :=
  match cleanup w with
  | Some lid => setEffect (lastDeps w) None (delete lid (listeners w)) (nextListener w) w
  | None => w
  end.

(** A commit of the component with dependencies [d]. React skips the
    effect when the array is unchanged; otherwise it first runs the
    previous cleanup and then the effect body. The first commit of a
    (re)mounted component starts from fresh state cells. *)
Definition commit (appId : string) (d : Deps) (w : World) : World :=
  match lastDeps w with
  | None =>
      let w1 := effectBody appId d (setMirror [] true None w) in
      setEffect (Some d) (cleanup w1) (listeners w1) (nextListener w1) w1
  | Some d0 =>
      if decide (d0 = d) then w
      else
        let w1 := effectBody appId d (runCleanup w) in
        setEffect (Some d) (cleanup w1) (listeners w1) (nextListener w1) w1
  end.

(** Unmounting runs the pending cleanup. *)
Definition unmount (w : World) : World :=
  let w1 := runCleanup w in
  setEffect None (cleanup w1) (listeners w1) (nextListener w1) w1.

(** What can happen to a hook instance. The store client calls back only
    listeners that are registered at that moment. *)
Inductive Event : Type :=
| EvCommit (d : Deps)
| EvUnmount
| EvSnapshot (lid : nat) (docs : list (string * Obj))
| EvError (lid : nat) (msg : string).

Definition step (appId : string) (w : World) (e : Event) : World :=
  match e with
  | EvCommit d => commit appId d w
  | EvUnmount => unmount w
  | EvSnapshot lid docs =>
      match listeners w !! lid with
      | Some sub => onNext sub docs w
      | None => w
      end
  | EvError lid msg =>
      match listeners w !! lid with
      | Some sub => onError (sub_collectionName sub) msg w
      | None => w
      end
  end.

Definition run (appId : string) (es : list Event) (w : World) : World :=
  fold_left (step appId) es w.

(** [addData], [updateData] and [deleteData], the three callbacks of the
    hook for the current [db], [userId] and [collectionName]. [wr] is how
    the store settles the request; the result is how the returned promise
    settles. *)
Definition settle (wr : WriteResult) : Completion :=
  match wr with WriteOk => Fulfilled | WriteFail msg => Rejected msg end.

Definition addData (appId : string) (db : option Firestore)
    (userId : option string) (collectionName : string)
    (item : Obj) (wr : WriteResult) (w : World) : Completion * World :=
  match db, userId with
  | Some _, Some u =>
      if userPresent (Some u) then
        (settle wr, issue (RAdd (collectionPath appId u collectionName) item) w)
      else (Fulfilled, w)
  | _, _ => (Fulfilled, w)
  end.


Definition deleteData (appId : string) (db : option Firestore)
    (userId : option string) (collectionName : string)
    (id : string) (wr : WriteResult) (w : World) : Completion * World :=
  match db, userId with
  | Some _, Some u =>
      if userPresent (Some u) then
        (settle wr, issue (RDelete (collectionPath appId u collectionName) id) w)
      else (Fulfilled, w)
  | _, _ => (Fulfilled, w)
  end.

(* --------------------------------------------------------------------- *)
(** ** Seeding ([src/app.js], component [App])                            *)
(* --------------------------------------------------------------------- *)

(** The values the module-level constants take when the script is loaded:
    the day seven days ahead, a fresh UUID and the current day. *)
Record LoadTime : Type := {
  deadlineIn7Days : string;
  randomUUID : string;
  loadDay : string
}.

Definition initialTask (lt : LoadTime) : Obj :=
  {[ "name" := VStr "Tugas Skripsi Bab 1";
     "category" := VStr "Kuliah";
     "deadline" := VStr (deadlineIn7Days lt);
     "priority" := VStr "Penting - Mendesak";
     "subtasks" := VSubtasks [(randomUUID lt, "Cari 5 Jurnal", false)];
     "completed" := VBool false ]}.

Definition initialHabit (lt : LoadTime) : Obj :=
  {[ "name" := VStr "Minum 2 liter air";
     "streak" := VNum 5;
     "lastChecked" := VStr (loadDay lt);
     "target" := VNum 7;
     "checkedToday" := VBool false ]}.

(** What [App] reads from [useFirebase] and from its two collection
    hooks. *)
Record AppState : Type := {
  app_db : option Firestore;
  app_userId : option string;
  isAuthReady : bool;
  tasks : list Obj;
  tasksLoading : bool;
  habits : list Obj;
  habitsLoading : bool
}.

(** The body of the seeding effect. [addTask] and [addHabit] are the
    [addData] callbacks of the two hooks; their promises are not awaited.
    [wrT] and [wrH] are how the store settles the two requests. *)
Definition seedingEffect (appId : string) (lt : LoadTime) (st : AppState)
    (wrT wrH : WriteResult) (w : World) : World :=
  let w1 :=
    if isAuthReady st && negb (tasksLoading st)
       && (length (tasks st) =? 0)%nat && userPresent (app_userId st)
    then snd (addData appId (app_db st) (app_userId st) "tasks"
                (initialTask lt) wrT
                (logLine LogInfo "Adding initial mock task..." w))
    else w in
  if isAuthReady st && negb (habitsLoading st)
     && (length (habits st) =? 0)%nat && userPresent (app_userId st)
  then snd (addData appId (app_db st) (app_userId st) "habits"
              (initialHabit lt) wrH
              (logLine LogInfo "Adding initial mock habit..." w1))
  else w1.

(** The two seeded collections, to state their properties once. *)
Inductive Coll : Type := CTasks | CHabits.

Definition coll_name (c : Coll) : string :=
  match c with CTasks => "tasks" | CHabits => "habits" end.

Definition coll_items (st : AppState) (c : Coll) : list Obj :=
  match c with CTasks => tasks st | CHabits => habits st end.

Definition coll_loading (st : AppState) (c : Coll) : bool :=
  match c with CTasks => tasksLoading st | CHabits => habitsLoading st end.

Definition coll_default (lt : LoadTime) (c : Coll) : Obj :=
  match c with CTasks => initialTask lt | CHabits => initialHabit lt end.

(** The records added under [path] by a list of write requests. *)
Fixpoint addedTo (path : string) (ws : list RemoteWrite) : list Obj :=
  match ws with
  | [] => []
  | RAdd p item :: rest =>
      if String.eqb p path then item :: addedTo path rest else addedTo path rest
  | _ :: rest => addedTo path rest
  end.

(** The session of [useFirebase] is authenticated and ready: the handle
    of the store exists, a user id has arrived and [isAuthReady] is set. *)
Definition sessionReady (st : AppState) : bool :=
  dbPresent (app_db st) && userPresent (app_userId st) && isAuthReady st.

(* --------------------------------------------------------------------- *)
(** ** Derived task lists                                                  *)
(* --------------------------------------------------------------------- *)

(** A task as the views read it. [createdAt] is the time value of the
    [Date] the snapshot mapper of [part_000] always stores
    ([createdAt?.toDate ? createdAt.toDate() : new Date()]); a [Date]
    object is truthy, so [(t.createdAt || 0)] is that date. *)
Record Task : Type := {
  task_id : string;
  title : string;
  priority : string;
  completed : bool;
  createdAt : Z
}.

(** [(a, b) => (b.createdAt || 0) - (a.createdAt || 0)]. *)
Definition byCreatedDesc (a b : Task) : Z := createdAt b - createdAt a.

(** [TaskManagerView] ([part_000]). *)
Definition pendingTasks (ts : list Task) : list Task :=
  js_sort byCreatedDesc (List.filter (fun t => negb (completed t)) ts).

Definition completedTasks (ts : list Task) : list Task :=
  js_sort byCreatedDesc (List.filter (fun t => completed t) ts).

(** [a.priority === 'Penting - Mendesak']. *)
Definition isUrgent (t : Task) : bool :=
  String.eqb (priority t) "Penting - Mendesak".

(** [(a, b) => a.priority === 'Penting - Mendesak' ? -1 : 1]. *)
Definition urgentFirst (a b : Task) : Z := if isUrgent a then -1 else 1.

(** [Dashboard] ([app.js]): [filter], [sort], [slice(0, 3)]. *)
Definition top3Priorities (ts : list Task) : list Task :=
  take 3 (js_sort urgentFirst (List.filter (fun t => negb (completed t)) ts)).

(* --------------------------------------------------------------------- *)
(** ** Saving the daily reflection ([part_000], [handleSaveReflection])   *)
(* --------------------------------------------------------------------- *)

(** The documents of the store, by collection path and document id. *)
Abbreviation Store := (gmap (string * string) (gmap string JsVal)).

(** [setDoc(ref, fields, { merge: true })]: the given fields replace the
    fields of the same name; a missing document is created. *)
Definition setDocMerge (path id : string) (fields : Obj) (s : Store) : Store :=
  <[(path, id) := fields ∪ default ∅ (s !! (path, id))]> s.

(** A field of a document; [None] when the document or the field is
    missing. *)
Definition fieldOf (s : Store) (path id f : string) : option JsVal :=
  s !! (path, id) ≫= (fun doc => doc !! f).

(** What [App] of [part_000] holds: the store handle, the user id (a
    string from the start: ["Authenticating..."], a uid or ["Anonymous"]),
    the configured project id, and the [error] state cell; with it the
    documents of the store and the console. *)
Record PlannerState : Type := {
  dbInstance : option Firestore;
  userId : string;
  projectId : option string;
  appError : option string;
  store : Store;
  errorLog : list string
}.

(** [getAppId]: [firebaseConfig.projectId || 'genz-planner-default']. *)
Definition getAppId (st : PlannerState) : string :=
  match projectId st with
  | Some p => if String.eqb p "" then "genz-planner-default" else p
  | None => "genz-planner-default"
  end.

(** [getUserCollectionRef]: [undefined] while there is no store handle. *)
Definition getUserCollectionRef (st : PlannerState) (uid collectionName : string)
    : option string :=
  match dbInstance st with
  | None => None
  | Some _ => Some (collectionPath (getAppId st) uid collectionName)
  end.

Definition withStore (s : Store) (st : PlannerState) : PlannerState :=
  {| dbInstance := dbInstance st; userId := userId st; projectId := projectId st;
     appError := appError st; store := s; errorLog := errorLog st |}.

Definition withFailure (line msg : string) (st : PlannerState) : PlannerState :=
  {| dbInstance := dbInstance st; userId := userId st; projectId := projectId st;
     appError := Some msg; store := store st; errorLog := errorLog st ++ [line] |}.

(** [handleSaveReflection(content)]. [clockDay] and [clockStamp] are the
    two [new Date()] the function evaluates, for the document id and for
    [updatedAt]; [wr] is how the store settles the [setDoc]. *)
Definition handleSaveReflection (content : string) (clockDay clockStamp : JsDate)
    (wr : WriteResult) (st : PlannerState) : PlannerState :=
  match getUserCollectionRef st (userId st) "reflections" with
  | None => st
  | Some reflectionsRef =>
      if String.eqb (userId st) "" || String.eqb content "" then st
      else
        let today := isoDay clockDay in
        match wr with
        | WriteOk =>
            withStore
              (setDocMerge reflectionsRef today
                 {[ "content" := VStr content;
                    "updatedAt" := VDate (getTime clockStamp) ]}
                 (store st)) st
        | WriteFail _ =>
            withFailure "Error saving reflection:" "Gagal menyimpan refleksi." st
        end
  end.

(* --------------------------------------------------------------------- *)
(** ** Vocabulary of the properties                                        *)
(* --------------------------------------------------------------------- *)


(** Newest first. *)
Definition newestFirst (a b : Task) : Prop := createdAt b <= createdAt a.

Definition notUrgent (t : Task) : bool := negb (isUrgent t).

(** The one request [addData] may issue. *)
Definition addRequest (appId : string) (db : option Firestore)
    (uid : option string) (collectionName : string) (item : Obj)
    : list RemoteWrite :=
  match db, uid with
  | Some _, Some u =>
      if userPresent (Some u)
      then [RAdd (collectionPath appId u collectionName) item] else []
  | _, _ => []
  end.

(** The guard of the seeding effect for one collection. *)
Definition seedGuard (st : AppState) (c : Coll) : bool :=
  isAuthReady st && negb (coll_loading st c)
  && (length (coll_items st c) =? 0)%nat && userPresent (app_userId st).

Definition seedRequests (appId : string) (lt : LoadTime) (st : AppState)
    (c : Coll) : list RemoteWrite :=
  if seedGuard st c
  then addRequest appId (app_db st) (app_userId st) (coll_name c) (coll_default lt c)
  else [].

(** The worlds a hook instance can be in. *)
Inductive reachable (appId : string) : World -> Prop :=
| reach_init : reachable appId initWorld
| reach_step (w : World) (e : Event) :
    reachable appId w -> reachable appId (step appId w e).

(** The live listeners are exactly the one the pending cleanup will
    unregister; listener numbers handed out are below [nextListener]; an
    unmounted hook has no pending cleanup. *)
Record Inv (w : World) : Prop := {
  inv_live :
    match cleanup w with
    | None => listeners w = ∅
    | Some lid => exists sub, listeners w = {[ lid := sub ]}
    end;
  inv_fresh : forall lid, is_Some (listeners w !! lid) -> (lid < nextListener w)%nat;
  inv_unmounted : lastDeps w = None -> cleanup w = None
}.

(** A listener number that was handed out and is not registered. *)
Definition released (lid : nat) (w : World) : Prop :=
  (lid < nextListener w)%nat /\ listeners w !! lid = None.

(* --------------------------------------------------------------------- *)
(** ** Sample values                                                       *)
(* --------------------------------------------------------------------- *)

Definition habitAt (s : Z) (last : string) (checked : bool) : Habit :=
  {| habit_id := "h1"; habit_name := "Minum 2 liter air";
     habit_category := "Kesehatan"; target := 7;
     streak := s; lastChecked := last; checkedToday := checked |}.

Definition taskAt (id : string) (done : bool) (created : Z) : Task :=
  {| task_id := id; title := "Buy milk"; priority := "Penting - Mendesak";
     completed := done; createdAt := created |}.

Definition taskWith (id pr : string) (done : bool) : Task :=
  {| task_id := id; title := "Tugas " +:+ id; priority := pr;
     completed := done; createdAt := 0 |}.

Definition sampleTasks : list Task :=
  [ taskWith "a" "Non-penting - Non-mendesak" false;
    taskWith "b" "Penting - Mendesak" false;
    taskWith "c" "Penting - Mendesak" true;
    taskWith "d" "Penting - Non-mendesak" false ].

Definition sampleLoadTime : LoadTime :=
  {| deadlineIn7Days := "2026-03-09"; randomUUID := "uuid-1";
     loadDay := "2026-03-02" |}.

(** A signed-in session whose task mirror is loaded and empty and whose
    habit mirror already holds a record. *)
Definition sampleAppState : AppState :=
  {| app_db := Some {| instance := 0 |}; app_userId := Some "u1";
     isAuthReady := true; tasks := []; tasksLoading := false;
     habits := [initialHabit sampleLoadTime]; habitsLoading := false |}.

Definition depsFor (uid : option string) : Deps :=
  {| dep_db := Some {| instance := 0 |}; dep_userId := uid;
     dep_collectionName := "tasks"; dep_sortField := None |}.

Definition plannerAt (s : Store) : PlannerState :=
  {| dbInstance := Some {| instance := 0 |}; userId := "u1";
     projectId := Some "genz-planner"; appError := None;
     store := s; errorLog := [] |}.

Definition clockAt (ms : Z) (iso : string) : JsDate :=
  {| getTime := ms; toISOString := iso |}.

(* --------------------------------------------------------------------- *)
(** ** Retrying ([src/app.js], [withRetry])                               *)
(* --------------------------------------------------------------------- *)

(** What one call of [fn] comes to when awaited. *)
Inductive Attempt (V : Type) : Type :=
| Resolves (v : V)
| Throws (err : string).
Arguments Resolves {V} v.
Arguments Throws {V} err.

(** How the promise of [withRetry] settles: with a value of [fn], with
    [undefined] (the loop ran out without a [return]), or rejected. *)
Inductive RetryOutcome (V : Type) : Type :=
| RetryReturns (v : V)
| RetryUndefined
| RetryThrows (err : string).
Arguments RetryReturns {V} v.
Arguments RetryUndefined {V}.
Arguments RetryThrows {V} err.

(** A run of [withRetry]: the outcome, how often [fn] was called, the
    delays slept through (milliseconds, in order) and the lines of
    [console.warn]. *)
Record RetryRun (V : Type) : Type := {
  retryOutcome : RetryOutcome V;
  retryCalls : nat;
  retryWaits : list Z;
  retryWarnings : list string
}.
Arguments retryOutcome {V} _.
Arguments retryCalls {V} _.
Arguments retryWaits {V} _.
Arguments retryWarnings {V} _.

(** The loop [for (let i = 0; i < maxRetries; i++)] from index [i] on, with
    [remaining = maxRetries - i] iterations left. [fn k] is the outcome of
    the call of [fn] made in iteration [k]. *)
Fixpoint withRetryFrom {V : Type} (fn : nat -> Attempt V) (maxRetries : nat)
    (remaining i : nat) : RetryRun V :=
  match remaining with
  | O => {| retryOutcome := RetryUndefined; retryCalls := 0;
            retryWaits := []; retryWarnings := [] |}
  | S remaining' =>
      match fn i with
      | Resolves v =>
          {| retryOutcome := RetryReturns v; retryCalls := 1;
             retryWaits := []; retryWarnings := [] |}
      | Throws err =>
          if (i =? maxRetries - 1)%nat then
            {| retryOutcome := RetryThrows err; retryCalls := 1;
               retryWaits := []; retryWarnings := [] |}
          else
            let delay := 2 ^ Z.of_nat i * 1000 in
            let rest := withRetryFrom fn maxRetries remaining' (S i) in
            {| retryOutcome := retryOutcome rest;
               retryCalls := S (retryCalls rest);
               retryWaits := delay :: retryWaits rest;
               retryWarnings :=
                 ("Attempt " +:+ pretty (i + 1)%nat +:+ " failed. Retrying in "
                  +:+ pretty (delay / 1000) +:+ "s...") :: retryWarnings rest |}
      end
  end.

Definition withRetry {V : Type} (fn : nat -> Attempt V) (maxRetries : nat)
    : RetryRun V :=
  withRetryFrom fn maxRetries maxRetries 0.

(* --------------------------------------------------------------------- *)
(** ** The routine checklist ([src/app.js], [DailyRoutine])               *)
(* --------------------------------------------------------------------- *)

(** The template: per block its category, its time span and the ids of its
    activities (the texts and icons play no part in the check state). *)
Definition dailyRoutines : list (string * string * list string) :=
  [ ("PAGI", "05:00 - 09:00", ["p1"; "p2"; "p3"; "p4"; "p5"; "p6"; "p7"; "p8"]);
    ("SIANG", "09:00 - 13:00", ["s1"; "s2"; "s3"; "s4"; "s5"]);
    ("SORE", "13:00 - 17:00", ["r1"; "r2"; "r3"; "r4"]);
    ("MALAM", "19:00 - 22:00", ["n1"; "n2"; "n3"; "n4"]);
    ("TIDUR", "22:00 - 23:00", ["bt1"; "bt2"; "bt3"]) ].

(** The check state is an array of arrays. The inner arrays are objects
    of their own: the state holds references into a heap of arrays, and
    [push] and [splice] change the array a reference points to. *)
Abbreviation ArrayHeap := (gmap nat (list string)).

(** [routines.map(r => r.activities.map(a => a.id))]: one fresh inner
    array per block, allocated from address [next] on. *)
Fixpoint allocBlocks (blocks : list (list string)) (next : nat)
    : ArrayHeap * list nat :=
  match blocks with
  | [] => (∅, [])
  | b :: rest =>
      let r := allocBlocks rest (S next) in
      (<[next := b]> (fst r), next :: snd r)
  end.

(** The initial [checkedState] for a template. *)
Definition initialCheckedState (routines : list (string * string * list string))
    : ArrayHeap * list nat :=
  allocBlocks (map snd routines) 0.

(** [arr.indexOf(x)]; [None] is [-1]. *)
Fixpoint indexOf (x : string) (arr : list string) : option nat :=
  match arr with
  | [] => None
  | y :: rest => if String.eqb y x then Some 0%nat else S <$> indexOf x rest
  end.

(** The updater of [handleCheck]. [newState = [...prev]] holds the same
    inner arrays as [prev]; the branch then changes the inner array at
    [routineIndex] in place. [None] is the [TypeError] of
    [newState[routineIndex].indexOf] on a missing block. *)
Definition handleCheck (routineIndex : nat) (activityId : string)
    (heap : ArrayHeap) (prev : list nat) : option (ArrayHeap * list nat) :=
  let newState := prev in
  match newState !! routineIndex with
  | None => None
  | Some ref =>
      match heap !! ref with
      | None => None
      | Some block =>
          match indexOf activityId block with
          | Some activityIndex =>
              Some (<[ref := delete activityIndex block]> heap, newState)
          | None =>
              Some (<[ref := (block ++ [activityId])%list]> heap, newState)
          end
      end
  end.

(** [checkedState[rIndex].includes(activity.id)], as the list item reads
    it. *)
Definition isChecked (heap : ArrayHeap) (checkedState : list nat)
    (rIndex : nat) (activityId : string) : option bool :=
  ref ← checkedState !! rIndex;
  block ← heap !! ref;
  Some (existsb (String.eqb activityId) block).

(* --------------------------------------------------------------------- *)
(** ** The focus timer ([src/app.js], [FocusMode])                        *)
(* --------------------------------------------------------------------- *)

(** The three state cells, whether the effect's [setInterval] is
    currently registered, the dependency array of the last effect run and
    the lines of [console.log]. *)
Record Focus : Type := {
  isPomodoro : bool;
  time : Z;
  isActive : bool;
  interval : bool;
  focusDeps : option (bool * Z * bool);
  focusLog : list string
}.

Definition initFocus : Focus :=
  {| isPomodoro := true; time := 25 * 60; isActive := false;
     interval := false; focusDeps := None; focusLog := [] |}.

Definition setCells (p : bool) (t : Z) (a : bool) (s : Focus) : Focus :=
  {| isPomodoro := p; time := t; isActive := a; interval := interval s;
     focusDeps := focusDeps s; focusLog := focusLog s |}.

(** [toggleMode], [resetTimer] and the click on the start/pause button. *)
Definition toggleMode (s : Focus) : Focus :=
  setCells (negb (isPomodoro s)) (if isPomodoro s then 5 * 60 else 25 * 60) false s.

Definition resetTimer (s : Focus) : Focus :=
  setCells (isPomodoro s) (if isPomodoro s then 25 * 60 else 5 * 60) false s.

Definition startPause (s : Focus) : Focus :=
  setCells (isPomodoro s) (time s) (negb (isActive s)) s.

(** The interval callback [setTime(time => time - 1)]; it runs only while
    the interval is registered. *)
Definition tick (s : Focus) : Focus :=
  if interval s then setCells (isPomodoro s) (time s - 1) (isActive s) s else s.

(** One run of the effect for the rendered cells: the cleanup of the
    previous run clears its interval, then the body runs. *)
Definition focusEffect (s : Focus) : Focus :=
  let deps := Some (isActive s, time s, isPomodoro s) in
  if isActive s && (0 <? time s) then
    {| isPomodoro := isPomodoro s; time := time s; isActive := isActive s;
       interval := true; focusDeps := deps; focusLog := focusLog s |}
  else if time s =? 0 then
    {| isPomodoro := isPomodoro s; time := time s; isActive := false;
       interval := false; focusDeps := deps;
       focusLog := focusLog s ++ ["Sesi selesai! Ambil istirahat."] |}
  else
    {| isPomodoro := isPomodoro s; time := time s; isActive := isActive s;
       interval := false; focusDeps := deps; focusLog := focusLog s |}.

(** A commit: the effect runs when [[isActive, time, isPomodoro]] differs
    from the array of its last run. *)
Definition commitFocusOnce (s : Focus) : Focus :=
  if decide (focusDeps s = Some (isActive s, time s, isPomodoro s)) then s
  else focusEffect s.

(** The effect may set [isActive], which renders and commits once more;
    after that nothing changes. *)
Definition commitFocus (s : Focus) : Focus :=
  commitFocusOnce (commitFocusOnce s).

Inductive FocusEvent : Type :=
| ClickStartPause
| ClickReset
| ClickSwitchMode
| IntervalFires.

Definition focusStep (s : Focus) (e : FocusEvent) : Focus :=
  commitFocus
    match e with
    | ClickStartPause => startPause s
    | ClickReset => resetTimer s
    | ClickSwitchMode => toggleMode s
    | IntervalFires => tick s
    end.

(** The mounted component and what the user and the clock do to it. *)
Definition focusRun (es : list FocusEvent) : Focus :=
  fold_left focusStep es (commitFocus initFocus).

(** [n.toString().padStart(2, '0')] for an integer [n]. *)
Definition padStart2 (n : Z) : string :=
  let digits := pretty n in
  match String.length digits with
  | 0%nat => "00" +:+ digits
  | 1%nat => "0" +:+ digits
  | _ => digits
  end.

(** [formatTime] for a whole number of seconds: [Math.floor(seconds / 60)]
    and [seconds % 60], whose sign follows [seconds]. *)
Definition formatTime (seconds : Z) : string :=
  let minutes := seconds / 60 in
  let secs := Z.rem seconds 60 in
  padStart2 minutes +:+ ":" +:+ padStart2 secs.

(* --------------------------------------------------------------------- *)
(** ** The dashboard and the badge ([src/app.js])                         *)
(* --------------------------------------------------------------------- *)

(** [Dashboard]: the counters over the two mirrors. *)
Definition dashCompletedTasks (ts : list Task) : nat :=
  length (List.filter (fun t => completed t) ts).

Definition dashTotalTasks (ts : list Task) : nat := length ts.

Definition todayHabits (hs : list Habit) : nat :=
  length (List.filter (fun h => checkedToday h) hs).

Definition totalHabits (hs : list Habit) : nat := length hs.

(** [habits.reduce((max, habit) => Math.max(max, habit.streak), 0)]. *)
Definition longestStreak (hs : list Habit) : Z :=
  fold_left (fun max habit => Z.max max (streak habit)) hs 0.

(** [getBadge]: crown, star, fire, seedling. *)
Inductive Badge : Type := BadgeCrown | BadgeStar | BadgeFire | BadgeSeedling.

Definition getBadge (streak : Z) : Badge :=
  if 30 <=? streak then BadgeCrown
  else if 7 <=? streak then BadgeStar
  else if 3 <=? streak then BadgeFire
  else BadgeSeedling.

(* --------------------------------------------------------------------- *)
(** ** The task form and its save handler ([src/app.js])                  *)
(* --------------------------------------------------------------------- *)

(** [ActionForm.handleSubmit] for [type = "task"]. *)
Definition taskFormData (name category deadline priority : string)
    (initialData : Obj) : Obj :=
  {[ "name" := VStr name;
     "category" := VStr category;
     "deadline" := VStr deadline;
     "priority" := VStr priority;
     "subtasks" := js_or (get initialData "subtasks") (VSubtasks []);
     "completed" := js_or (get initialData "completed") (VBool false) ]}.

(** The initial values of the form's inputs: [initialData.name || ''],
    [initialData.category || (isTask ? 'Kuliah' : 'Kesehatan')],
    [initialData.deadline || today], [initialData.priority || 'Penting -
    Mendesak'] and [initialData.target || 7]. *)
Record FormInputs : Type := {
  in_name : JsVal;
  in_category : JsVal;
  in_deadline : JsVal;
  in_priority : JsVal;
  in_target : JsVal
}.

Definition formInputs (isTask : bool) (initialData : Obj) (clock : JsDate)
    : FormInputs :=
  {| in_name := js_or (get initialData "name") (VStr "");
     in_category := js_or (get initialData "category")
                      (VStr (if isTask then "Kuliah" else "Kesehatan"));
     in_deadline := js_or (get initialData "deadline") (VStr (isoDay clock));
     in_priority := js_or (get initialData "priority") (VStr "Penting - Mendesak");
     in_target := js_or (get initialData "target") (VNum 7) |}.

(* --------------------------------------------------------------------- *)
(** ** The task handlers and the screen ([part_000], [App])               *)
(* --------------------------------------------------------------------- *)

(** [setDoc(ref, fields)] without [merge]: the document is replaced. *)
Definition setDocPlain (path id : string) (fields : Obj) (s : Store) : Store :=
  <[(path, id) := fields]> s.

(** [updateDoc(ref, fields)]: the fields are merged into the document;
    the store rejects the update of a document that does not exist. *)
Definition updateDocStore (path id : string) (fields : Obj) (s : Store)
    : option Store :=
  match s !! (path, id) with
  | Some doc => Some (<[(path, id) := fields ∪ doc]> s)
  | None => None
  end.

(** [handleAddTask(title)]. [doc(tasksRef)] draws the id of the new
    document, [newId]; [clock] is the [new Date()] of [createdAt]; [wr] is
    how the store settles the [setDoc]. *)
Definition handleAddTask (title : string) (clock : JsDate) (newId : string)
    (wr : WriteResult) (st : PlannerState) : PlannerState :=
  match getUserCollectionRef st (userId st) "tasks" with
  | None => st
  | Some tasksRef =>
      if String.eqb (userId st) "" || String.eqb title "" then st
      else
        match wr with
        | WriteOk =>
            withStore
              (setDocPlain tasksRef newId
                 {[ "title" := VStr title;
                    "completed" := VBool false;
                    "createdAt" := VDate (getTime clock);
                    "category" := VStr "Uncategorized" ]}
                 (store st)) st
        | WriteFail _ =>
            withFailure "Error adding task:" "Gagal menambah tugas." st
        end
  end.

(** [handleToggleTask(id, currentStatus)]. The update is rejected when
    the store settles it so ([wr]) or when the document is not there. *)
Definition handleToggleTask (id : string) (currentStatus : bool)
    (wr : WriteResult) (st : PlannerState) : PlannerState :=
  match getUserCollectionRef st (userId st) "tasks" with
  | None => st
  | Some tasksRef =>
      if String.eqb (userId st) "" || String.eqb id "" then st
      else
        match wr, updateDocStore tasksRef id
                    {[ "completed" := VBool (negb currentStatus) ]} (store st) with
        | WriteOk, Some s' => withStore s' st
        | _, _ =>
            withFailure "Error toggling task:" "Gagal mengubah status tugas." st
        end
  end.

(** What [renderContent] puts on the screen. *)
Inductive Screen : Type :=
| ScreenError (msg : string)
| ScreenLoading
| ScreenDashboard
| ScreenTaskManager
| ScreenReflection
| ScreenUnderConstruction (name : string).

(** [renderContent]: the error panel first, then the loading spinner,
    then the view chosen in the sidebar. *)
Definition renderContent (st : PlannerState) (authReady : bool)
    (loadingMessage : option string) (currentView : string) : Screen :=
  match appError st with
  | Some msg => ScreenError msg
  | None =>
      if negb authReady
         || match loadingMessage with
            | Some m => negb (String.eqb m "")
            | None => false
            end
         || negb (dbPresent (dbInstance st))
      then ScreenLoading
      else if String.eqb currentView "Dashboard" then ScreenDashboard
      else if String.eqb currentView "TaskManager" then ScreenTaskManager
      else if String.eqb currentView "Reflection" then ScreenReflection
      else ScreenUnderConstruction currentView
  end.

(** The calls the views make on the three handlers. *)
Inductive PlannerCall : Type :=
| DoAddTask (title : string) (clock : JsDate) (newId : string) (wr : WriteResult)
| DoToggleTask (id : string) (currentStatus : bool) (wr : WriteResult)
| DoSaveReflection (content : string) (clockDay clockStamp : JsDate)
    (wr : WriteResult).

Definition plannerStep (st : PlannerState) (c : PlannerCall) : PlannerState :=
  match c with
  | DoAddTask title clock newId wr => handleAddTask title clock newId wr st
  | DoToggleTask id currentStatus wr => handleToggleTask id currentStatus wr st
  | DoSaveReflection content clockDay clockStamp wr =>
      handleSaveReflection content clockDay clockStamp wr st
  end.

Definition plannerRun (calls : list PlannerCall) (st : PlannerState) : PlannerState :=
  fold_left plannerStep calls st.

(** The task listener's mapper, read as a [Task]: the fields of the
    document, and for [createdAt] the date of the stored timestamp or, when
    there is none, the [new Date()] of the callback ([now]). A [Date]
    written by [setDoc] is stored as a timestamp. *)
Definition taskOfDoc (now : Z) (doc : string * Obj) : Task :=
  {| task_id := match snd doc !! "id" with
                | Some (VStr s) => s
                | _ => fst doc
                end;
     title := match get (snd doc) "title" with VStr s => s | _ => "" end;
     priority := match get (snd doc) "priority" with VStr s => s | _ => "" end;
     completed := truthy (get (snd doc) "completed");
     createdAt := match snd doc !! "createdAt" with
                  | Some (VDate ms) => ms
                  | _ => now
                  end |}.

(** The documents of the user's task collection, as a snapshot lists
    them (in the order of the store's table; the views sort). *)
Definition tasksDocs (st : PlannerState) : list (string * Obj) :=
  match getUserCollectionRef st (userId st) "tasks" with
  | None => []
  | Some tasksRef =>
      (fun kd : string * string * Obj => (snd (fst kd), snd kd)) <$>
      filter (fun kd : string * string * Obj => fst (fst kd) = tasksRef)
             (map_to_list (store st))
  end.

Definition fetchedTasks (now : Z) (st : PlannerState) : list Task :=
  map (taskOfDoc now) (tasksDocs st).

(* --------------------------------------------------------------------- *)
(** ** The theme ([part_000], [toggleTheme])                              *)
(* --------------------------------------------------------------------- *)

(** The [theme] cell and the [theme] key of [localStorage]. *)
Record ThemeState : Type := { theme : string; storedTheme : option string }.

(** The part of the mount effect that sets the theme:
    [localStorage.getItem('theme')], else the [prefers-color-scheme: light]
    media query. *)
Definition initTheme (stored : option string) (prefersLight : bool) : ThemeState :=
  {| theme := match stored with
              | Some t => if String.eqb t "" then (if prefersLight then "light" else "dark") else t
              | None => if prefersLight then "light" else "dark"
              end;
     storedTheme := stored |}.

Definition toggleTheme (s : ThemeState) : ThemeState :=
  let newTheme := if String.eqb (theme s) "dark" then "light" else "dark" in
  {| theme := newTheme; storedTheme := Some newTheme |}.

(* --------------------------------------------------------------------- *)
(** ** The session hook ([src/app.js], [useFirebase])                     *)
(* --------------------------------------------------------------------- *)

(** The sign-in promises the hook starts: with the custom token, the
    anonymous one of the mount effect, the anonymous one of the auth
    callback, and the anonymous one in the [catch] of the token sign-in
    (to which nothing is chained). *)
Inductive SignIn : Type :=
| TokenSignIn
| MountAnonSignIn
| CallbackAnonSignIn
| FallbackAnonSignIn.

#[global] Instance SignIn_eq_dec : EqDecision SignIn.
Proof. solve_decision. Defined.

(** The four state cells, whether the [onAuthStateChanged] listener is
    registered, the promises not yet settled, and the console. *)
Record FirebaseHook : Type := {
  fb_db : option Firestore;
  fb_auth : bool;
  fb_userId : option string;
  fb_isAuthReady : bool;
  fb_listening : bool;
  fb_pending : list SignIn;
  fb_console : list (Level * string)
}.

Definition initFirebase : FirebaseHook :=
  {| fb_db := None; fb_auth := false; fb_userId := None;
     fb_isAuthReady := false; fb_listening := false; fb_pending := [];
     fb_console := [] |}.

(** The mount effect. [configEmpty] is
    [Object.keys(firebaseConfig).length === 0]; [init] is the store handle
    [initializeApp], [getAuth] and [getFirestore] give, [None] when one of
    them throws; [token] is [initialAuthToken]; [currentUser] tells whether
    [authInstance.currentUser] is set. *)
Definition mountFirebase (configEmpty : bool) (init : option Firestore)
    (token : option string) (currentUser : bool) : FirebaseHook :=
  if configEmpty then
    {| fb_db := None; fb_auth := false; fb_userId := None;
       fb_isAuthReady := false; fb_listening := false; fb_pending := [];
       fb_console := [(LogError, "Firebase config is missing.")] |}
  else
    match init with
    | None =>
        {| fb_db := None; fb_auth := false; fb_userId := None;
           fb_isAuthReady := false; fb_listening := false; fb_pending := [];
           fb_console := [(LogError, "Firebase initialization failed:")] |}
    | Some dbInstance =>
        {| fb_db := Some dbInstance; fb_auth := true; fb_userId := None;
           fb_isAuthReady := false; fb_listening := true;
           fb_pending :=
             match token with
             | Some t =>
                 if negb (String.eqb t "") then [TokenSignIn]
                 else if negb currentUser then [MountAnonSignIn] else []
             | None => if negb currentUser then [MountAnonSignIn] else []
             end;
           fb_console := [] |}
    end.

(** What happens to the mounted hook: the auth listener is called with
    the signed-in user's id or with [null], or a pending sign-in settles
    with a user id ([inl]) or an error ([inr]). *)
Inductive FirebaseEvent : Type :=
| AuthChanged (user : option string)
| Settled (p : SignIn) (result : string + string).

(** Removes one occurrence of a settled promise. *)
Fixpoint removeOne (p : SignIn) (l : list SignIn) : list SignIn :=
  match l with
  | [] => []
  | q :: rest => if decide (q = p) then rest else q :: removeOne p rest
  end.

Definition firebaseStep (s : FirebaseHook) (e : FirebaseEvent) : FirebaseHook :=
  match e with
  | AuthChanged user =>
      if negb (fb_listening s) then s
      else
        match user with
        | Some uid =>
            {| fb_db := fb_db s; fb_auth := fb_auth s; fb_userId := Some uid;
               fb_isAuthReady := fb_isAuthReady s; fb_listening := fb_listening s;
               fb_pending := fb_pending s; fb_console := fb_console s |}
        | None =>
            {| fb_db := fb_db s; fb_auth := fb_auth s; fb_userId := fb_userId s;
               fb_isAuthReady := fb_isAuthReady s; fb_listening := fb_listening s;
               fb_pending := (fb_pending s ++ [CallbackAnonSignIn])%list;
               fb_console := fb_console s |}
        end
  | Settled p result =>
      if negb (bool_decide (p ∈ fb_pending s)) then s
      else
        let pending := removeOne p (fb_pending s) in
        match p, result with
        | CallbackAnonSignIn, inl uid =>
            {| fb_db := fb_db s; fb_auth := fb_auth s; fb_userId := Some uid;
               fb_isAuthReady := true; fb_listening := fb_listening s;
               fb_pending := pending; fb_console := fb_console s |}
        | CallbackAnonSignIn, inr _ =>
            {| fb_db := fb_db s; fb_auth := fb_auth s; fb_userId := fb_userId s;
               fb_isAuthReady := true; fb_listening := fb_listening s;
               fb_pending := pending;
               fb_console := (fb_console s
                              ++ [(LogError, "Anonymous sign-in failed:")])%list |}
        | TokenSignIn, inl uid =>
            {| fb_db := fb_db s; fb_auth := fb_auth s; fb_userId := Some uid;
               fb_isAuthReady := true; fb_listening := fb_listening s;
               fb_pending := pending;
               fb_console := (fb_console s
                              ++ [(LogInfo, "Signed in with custom token.")])%list |}
        | TokenSignIn, inr _ =>
            {| fb_db := fb_db s; fb_auth := fb_auth s; fb_userId := fb_userId s;
               fb_isAuthReady := true; fb_listening := fb_listening s;
               fb_pending := (pending ++ [FallbackAnonSignIn])%list;
               fb_console :=
                 (fb_console s
                  ++ [(LogError, "Custom token sign-in failed, trying anonymous:")])%list |}
        | MountAnonSignIn, _ =>
            {| fb_db := fb_db s; fb_auth := fb_auth s; fb_userId := fb_userId s;
               fb_isAuthReady := true; fb_listening := fb_listening s;
               fb_pending := pending; fb_console := fb_console s |}
        | FallbackAnonSignIn, _ =>
            {| fb_db := fb_db s; fb_auth := fb_auth s; fb_userId := fb_userId s;
               fb_isAuthReady := fb_isAuthReady s; fb_listening := fb_listening s;
               fb_pending := pending; fb_console := fb_console s |}
        end
  end.

Definition firebaseRun (es : list FirebaseEvent) (s : FirebaseHook) : FirebaseHook :=
  fold_left firebaseStep es s.

(** [App.renderContent] of [src/app.js] shows the spinner until
    [isAuthReady]. *)
Definition showsSpinner (s : FirebaseHook) : bool := negb (fb_isAuthReady s).

(* --------------------------------------------------------------------- *)
(** ** The start of [App] ([src/app.js])                                  *)
(* --------------------------------------------------------------------- *)

(** The dependency array of the hook [App] calls for collection [c]:
    [useFirestoreCollection(db, userId, 'tasks')] and the same for
    ['habits'], both with the default [sortField = null]. *)
Definition collDeps (db : option Firestore) (uid : option string) (c : Coll) : Deps :=
  {| dep_db := db; dep_userId := uid; dep_collectionName := coll_name c;
     dep_sortField := None |}.

(** The commits of one collection hook while [App] starts: the first
    render, where [useFirebase] still returns [null] for [db] and [userId];
    the render after [setDb]; the render after [setUserId]. *)
Definition startupCommits (db : Firestore) (u : string) (c : Coll) : list Event :=
  [ EvCommit (collDeps None None c);
    EvCommit (collDeps (Some db) None c);
    EvCommit (collDeps (Some db) (Some u) c) ].

(** The hook after these commits, before the store has delivered
    anything. *)
Definition hookAtSignIn (appId : string) (db : Firestore) (u : string) (c : Coll)
    : World :=
  run appId (startupCommits db u c) initWorld.

(** What [App] reads in a render: [db], [userId] and [isAuthReady] from
    the session hook, [data] and [loading] from the two collection hooks. *)
Definition appStateOf (s : FirebaseHook) (tasksHook habitsHook : World) : AppState :=
  {| app_db := fb_db s; app_userId := fb_userId s;
     isAuthReady := fb_isAuthReady s;
     tasks := data tasksHook; tasksLoading := loading tasksHook;
     habits := data habitsHook; habitsLoading := loading habitsHook |}.

(* --------------------------------------------------------------------- *)
(** ** Vocabulary of the further properties                                *)
(* --------------------------------------------------------------------- *)

(** The delay before retry number [i + 1]: [Math.pow(2, i) * 1000]. *)
Definition backoff (i : nat) : Z := 2 ^ Z.of_nat i * 1000.


(** What [handleCheck] leaves in the inner array. *)
Definition toggledBlock (activityId : string) (block : list string) : list string :=
  match indexOf activityId block with
  | Some activityIndex => delete activityIndex block
  | None => (block ++ [activityId])%list
  end.

(** A check state whose blocks are distinct arrays without repeated ids. *)
Definition RoutineWf (heap : ArrayHeap) (checkedState : list nat) : Prop :=
  NoDup checkedState /\
  forall ref, ref ∈ checkedState ->
    exists block, heap !! ref = Some block /\ NoDup block.

(** The length of a session in the current mode, in seconds. *)
Definition sessionLength (s : Focus) : Z :=
  if isPomodoro s then 25 * 60 else 5 * 60.

(** A settled timer: the time is within the session, the interval is
    registered exactly while the timer is active with time left, a timer at
    zero is not active, and the effect has run for the current cells. *)
Record FocusInv (s : Focus) : Prop := {
  focus_bounds : 0 <= time s <= sessionLength s;
  focus_interval : interval s = isActive s && (0 <? time s);
  focus_zero : time s = 0 -> isActive s = false;
  focus_settled : focusDeps s = Some (isActive s, time s, isPomodoro s)
}.

(** The character of a decimal digit. *)
Definition digitChar (d : Z) : ascii := pretty_N_char (Z.to_N d).

(** Two decimal digits. *)
Definition twoDigits (n : Z) : string :=
  String (digitChar (n / 10)) (String (digitChar (n mod 10)) EmptyString).

(** The tiers of the badge, lowest first. *)
Definition badgeRank (b : Badge) : Z :=
  match b with
  | BadgeSeedling => 0
  | BadgeFire => 1
  | BadgeStar => 2
  | BadgeCrown => 3
  end.

(** A habit as the object the mirror holds for it. *)
Definition habitObj (h : Habit) : Obj :=
  {[ "id" := VStr (habit_id h);
     "name" := VStr (habit_name h);
     "category" := VStr (habit_category h);
     "target" := VNum (target h);
     "streak" := VNum (streak h);
     "lastChecked" := VStr (lastChecked h);
     "checkedToday" := VBool (checkedToday h) ]}.

(** Fails twice, then resolves; fails always. *)
Definition flakyFn (k : nat) : Attempt string :=
  match k with
  | 0%nat => Throws "timeout"
  | 1%nat => Throws "reset"
  | _ => Resolves "ok"
  end.

Definition failingFn (k : nat) : Attempt string :=
  Throws ("error " +:+ pretty k).

(** An auth event that reports a signed-in user. *)
Definition reportsUser (e : FirebaseEvent) : Prop :=
  match e with
  | AuthChanged (Some _) => True
  | AuthChanged None => False
  | Settled _ _ => True
  end.

(* ===================================================================== *)
(** * Part II. Properties                                                 *)
(* ===================================================================== *)

(* --------------------------------------------------------------------- *)
(** ** The streak transition                                              *)
(* --------------------------------------------------------------------- *)

Section HabitStreak.

Variable today : string.

Lemma toggled_checkedToday (h : Habit) :
  checkedToday (toggled today h) = negb (checkedToday h).
Proof. reflexivity. Qed.

Lemma toggled_lastChecked (h : Habit) :
  lastChecked (toggled today h) = today.
Proof. reflexivity. Qed.

Lemma toggled_streak_check (h : Habit) :
  checkedToday h = false ->
  streak (toggled today h) =
    if String.eqb (lastChecked h) today then streak h else streak h + 1.
Proof. intros Hc. unfold toggled, toggleHabit; simpl. now rewrite Hc. Qed.

Lemma toggled_streak_uncheck (h : Habit) :
  checkedToday h = true ->
  streak (toggled today h) =
    if String.eqb (lastChecked h) today then Z.max 0 (streak h - 1)
    else streak h.
Proof.
  intros Hc. unfold toggled, toggleHabit; simpl. rewrite Hc; simpl.
  destruct (String.eqb _ _); [| reflexivity].
  destruct (Z.ltb_spec 0 (streak h)); lia.
Qed.

End HabitStreak.

Lemma toggled_streak_nonneg (d : string) (h : Habit) :
  0 <= streak h -> 0 <= streak (toggled d h).
Proof.
  intros Hs. destruct (checkedToday h) eqn:Hc.
  - rewrite toggled_streak_uncheck by assumption.
    destruct (String.eqb _ _); lia.
  - rewrite toggled_streak_check by assumption.
    destruct (String.eqb _ _); lia.
Qed.

(** C1. Checking an unchecked habit sets [checkedToday], keeps the streak
    when [lastChecked] is already today and adds one otherwise; unchecking a
    checked habit clears [checkedToday], takes one off the streak (not below
    zero) when [lastChecked] is today and keeps it otherwise. [lastChecked]
    becomes today in every case. *)
Theorem toggleHabit_transition (today : string) (h : Habit) :
  (checkedToday h = false ->
     checkedToday (toggled today h) = true /\
     (lastChecked h = today -> streak (toggled today h) = streak h) /\
     (lastChecked h <> today -> streak (toggled today h) = streak h + 1) /\
     lastChecked (toggled today h) = today) /\
  (checkedToday h = true ->
     checkedToday (toggled today h) = false /\
     (lastChecked h = today ->
        streak (toggled today h) = Z.max 0 (streak h - 1)) /\
     (lastChecked h <> today -> streak (toggled today h) = streak h) /\
     lastChecked (toggled today h) = today).
Proof.
  split; intros Hc.
  - rewrite toggled_checkedToday, toggled_lastChecked, Hc.
    rewrite (toggled_streak_check today h Hc).
    repeat split.
    + intros ->. now rewrite String.eqb_refl.
    + intros Hne. apply String.eqb_neq in Hne. now rewrite Hne.
  - rewrite toggled_checkedToday, toggled_lastChecked, Hc.
    rewrite (toggled_streak_uncheck today h Hc).
    repeat split.
    + intros ->. now rewrite String.eqb_refl.
    + intros Hne. apply String.eqb_neq in Hne. now rewrite Hne.
Qed.

Lemma toggleHabit_transition_witness :
  streak (toggled "2026-03-02" (habitAt 5 "2026-03-01" false)) = 6 /\
  streak (toggled "2026-03-02" (habitAt 5 "2026-03-02" true)) = 4.
Proof.
  split.
  - destruct (toggleHabit_transition "2026-03-02" (habitAt 5 "2026-03-01" false))
      as [Hcheck _].
    destruct (Hcheck eq_refl) as (_ & _ & Hinc & _).
    apply Hinc. discriminate.
  - destruct (toggleHabit_transition "2026-03-02" (habitAt 5 "2026-03-02" true))
      as [_ Huncheck].
    destruct (Huncheck eq_refl) as (_ & Hdec & _ & _).
    apply Hdec. reflexivity.
Defined.

(** C2 as stated fails: a habit checked today with streak 5 comes back from
    unchecking and re-checking with streak 4, and a third toggle leaves 3. *)
Lemma same_day_round_trip_counterexample :
  let h := habitAt 5 "2026-03-02" true in
  let d := "2026-03-02" in
  checkedToday h = true /\ lastChecked h = d /\ streak h = 5 /\
  streak (toggled d (toggled d h)) = 4 /\
  streak (toggled d (toggled d h)) <> streak h /\
  streak (toggled d (toggled d (toggled d h))) = 3 /\
  streak (toggled d (toggled d (toggled d h))) <> streak h.
Proof. cbv. repeat split; discriminate. Qed.

(** C2, amended. For a habit checked today, unchecking and re-checking on
    the same day leaves it checked with [lastChecked] today and the streak
    one lower (not below zero): the re-check finds [lastChecked] equal to
    today and adds nothing. The streak is back at its initial value exactly
    when that value was zero. A third toggle lowers it once more. *)
Theorem same_day_round_trip (today : string) (h : Habit) :
  checkedToday h = true ->
  lastChecked h = today ->
  let h2 := toggled today (toggled today h) in
  checkedToday h2 = true /\
  lastChecked h2 = today /\
  streak h2 = Z.max 0 (streak h - 1) /\
  (streak h2 = streak h <-> streak h = 0) /\
  streak (toggled today h2) = Z.max 0 (streak h - 2).
Proof.
  intros Hc Hl h2.
  assert (Hs1 : streak (toggled today h) = Z.max 0 (streak h - 1)).
  { rewrite toggled_streak_uncheck by assumption.
    rewrite Hl. now rewrite String.eqb_refl. }
  assert (Hs2 : streak h2 = Z.max 0 (streak h - 1)).
  { unfold h2. rewrite toggled_streak_check.
    - rewrite toggled_lastChecked, String.eqb_refl. exact Hs1.
    - rewrite toggled_checkedToday, Hc. reflexivity. }
  assert (Hc2 : checkedToday h2 = true).
  { unfold h2. rewrite !toggled_checkedToday, Hc. reflexivity. }
  repeat split; try assumption; try lia.
  rewrite toggled_streak_uncheck by assumption.
  unfold h2 at 1. rewrite toggled_lastChecked, String.eqb_refl. lia.
Qed.

Lemma same_day_round_trip_witness :
  streak (toggled "2026-03-02"
            (toggled "2026-03-02" (habitAt 5 "2026-03-02" true))) = 4.
Proof.
  destruct (same_day_round_trip "2026-03-02" (habitAt 5 "2026-03-02" true)
              eq_refl eq_refl) as (_ & _ & Hs & _).
  exact Hs.
Defined.

(** C3. From a habit whose streak is not negative, no run of toggles, on
    whatever days, makes the streak negative at any step. *)
Theorem streak_never_negative (days : list string) (h : Habit) :
  0 <= streak h ->
  Forall (fun h' => 0 <= streak h') (toggleTrace days h).
Proof.
  revert h. induction days as [| d days IH]; intros h Hs; simpl.
  - constructor.
  - pose proof (toggled_streak_nonneg d h Hs) as Hd.
    constructor; [exact Hd | apply IH; exact Hd].
Qed.

Lemma streak_never_negative_witness :
  Forall (fun h' => 0 <= streak h')
    (toggleTrace ["2026-03-02"; "2026-03-02"; "2026-03-03"; "2026-03-03"]
       (habitAt 0 "2026-03-02" true)).
Proof.
  apply (streak_never_negative _ (habitAt 0 "2026-03-02" true)).
  simpl. lia.
Defined.

(* --------------------------------------------------------------------- *)
(** ** Creating a habit                                                   *)
(* --------------------------------------------------------------------- *)




(* --------------------------------------------------------------------- *)
(** ** The add callback without a user or a store handle                  *)
(* --------------------------------------------------------------------- *)

(** C8 as stated fails in one point: with no store handle the call leaves
    the console as it was; no error line is written. *)
Lemma addData_unbound_logs_nothing :
  let r := addData "default-app-id" None (Some "u1") "tasks"
             {[ "name" := VStr "Buy milk" ]} WriteOk initWorld in
  console r.2 = console initWorld /\
  console r.2 = [] /\
  ~ (exists line, In (LogError, line) (console r.2)).
Proof.
  cbn. repeat split. intros [line []].
Qed.

(** C8, amended. Without a user id or without a store handle, [addData]
    returns at once: its promise is fulfilled (nothing is raised), no write
    request is issued, the mirror is not touched, and nothing is written to
    the console either; the world is exactly as before. *)
Theorem addData_unbound_is_silent_noop (appId : string)
    (db : option Firestore) (uid : option string) (collectionName : string)
    (item : Obj) (wr : WriteResult) (w : World) :
  dbPresent db = false \/ userPresent uid = false ->
  addData appId db uid collectionName item wr w = (Fulfilled, w) /\
  (addData appId db uid collectionName item wr w).2.(remote) = remote w /\
  (addData appId db uid collectionName item wr w).2.(data) = data w /\
  (addData appId db uid collectionName item wr w).2.(console) = console w.
Proof.
  intros Hguard.
  assert (Heq : addData appId db uid collectionName item wr w = (Fulfilled, w)).
  { unfold addData. destruct db as [d |]; [| reflexivity].
    destruct uid as [u |]; [| reflexivity].
    destruct Hguard as [Hdb | Hu]; [discriminate Hdb |].
    now rewrite Hu. }
  rewrite Heq. repeat split.
Qed.

Lemma addData_unbound_is_silent_noop_witness :
  addData "default-app-id" (Some {| instance := 0 |}) None "habits"
    {[ "name" := VStr "Minum 2 liter air" ]} (WriteFail "offline") initWorld
  = (Fulfilled, initWorld).
Proof.
  apply (addData_unbound_is_silent_noop "default-app-id"
           (Some {| instance := 0 |}) None "habits"
           {[ "name" := VStr "Minum 2 liter air" ]} (WriteFail "offline")
           initWorld).
  right. reflexivity.
Defined.

(* --------------------------------------------------------------------- *)
(** ** Sorting                                                             *)
(* --------------------------------------------------------------------- *)

Section Sorting.

Context {A : Type}.
Variable comparefn : A -> A -> Z.

Lemma place_Permutation (x : A) (l : list A) :
  Permutation (place comparefn x l) (x :: l).
Proof.
  induction l as [| y l IH]; simpl.
  - reflexivity.
  - destruct (comparefn x y <? 0).
    + reflexivity.
    + rewrite IH. apply perm_swap.
Qed.

Lemma fold_place_Permutation (l placed : list A) :
  Permutation (fold_left (fun p x => place comparefn x p) l placed)
              (placed ++ l)%list.
Proof.
  revert placed. induction l as [| x l IH]; intros placed; simpl.
  - now rewrite app_nil_r.
  - rewrite IH, place_Permutation. simpl.
    apply Permutation_middle.
Qed.

Lemma js_sort_Permutation (l : list A) : Permutation (js_sort comparefn l) l.
Proof. unfold js_sort. now rewrite fold_place_Permutation. Qed.

(** A comparator that orders by a rank: negative exactly when the first
    argument ranks strictly lower. *)
Variable rank : A -> Z.
Hypothesis comparefn_rank : forall a b, comparefn a b < 0 <-> rank a < rank b.

Let rank_le (a b : A) : Prop := rank a <= rank b.

Lemma place_sorted (x : A) (l : list A) :
  StronglySorted rank_le l -> StronglySorted rank_le (place comparefn x l).
Proof.
  induction 1 as [| y l Hl IH Hy]; simpl.
  - repeat constructor.
  - destruct (Z.ltb_spec (comparefn x y) 0) as [Hlt | Hge].
    + apply comparefn_rank in Hlt.
      constructor; [now constructor |].
      constructor; [unfold rank_le; lia |].
      eapply Forall_impl; [exact Hy |].
      unfold rank_le. intros z Hz. lia.
    + assert (Hxy : rank y <= rank x).
      { destruct (Z.lt_ge_cases (rank x) (rank y)) as [Hc | Hc]; [| exact Hc].
        apply comparefn_rank in Hc. lia. }
      constructor; [exact IH |].
      rewrite (place_Permutation x l). now constructor.
Qed.

Lemma fold_place_sorted (l placed : list A) :
  StronglySorted rank_le placed ->
  StronglySorted rank_le (fold_left (fun p x => place comparefn x p) l placed).
Proof.
  revert placed. induction l as [| x l IH]; intros placed Hp; simpl.
  - exact Hp.
  - apply IH, place_sorted, Hp.
Qed.

Lemma js_sort_sorted (l : list A) :
  StronglySorted (fun a b => rank a <= rank b) (js_sort comparefn l).
Proof. apply fold_place_sorted. constructor. Qed.

End Sorting.

(** Positions in a strongly sorted list respect the order. *)
Lemma StronglySorted_lookup {A : Type} (R : A -> A -> Prop) (l : list A) :
  StronglySorted R l ->
  forall (i j : nat) (a b : A),
    l !! i = Some a -> l !! j = Some b -> (i < j)%nat -> R a b.
Proof.
  induction 1 as [| x l Hl IH Hx]; intros i j a b Hi Hj Hlt.
  - discriminate Hi.
  - destruct j as [| j]; [lia |]. simpl in Hj.
    destruct i as [| i]; simpl in Hi.
    + inversion Hi; subst a.
      rewrite Forall_forall in Hx. apply Hx.
      eapply list_elem_of_lookup_2; eassumption.
    + eapply IH; eauto. lia.
Qed.

Lemma StronglySorted_weaken {A : Type} (R S : A -> A -> Prop) (l : list A) :
  (forall a b, R a b -> S a b) -> StronglySorted R l -> StronglySorted S l.
Proof.
  intros HRS. induction 1 as [| x l Hl IH Hx]; constructor.
  - exact IH.
  - eapply Forall_impl; [exact Hx |]. intros y. apply HRS.
Qed.

(* --------------------------------------------------------------------- *)
(** ** The derived task lists                                              *)
(* --------------------------------------------------------------------- *)

Lemma byCreatedDesc_sorted (l : list Task) :
  StronglySorted newestFirst (js_sort byCreatedDesc l).
Proof.
  apply StronglySorted_weaken with (R := fun a b => - createdAt a <= - createdAt b).
  - unfold newestFirst. intros a b. lia.
  - apply js_sort_sorted. unfold byCreatedDesc. intros a b. lia.
Qed.

Lemma newestFirst_positions (l : list Task) :
  StronglySorted newestFirst l ->
  forall (i j : nat) (a b : Task),
    l !! i = Some a -> l !! j = Some b ->
    createdAt b < createdAt a -> (i < j)%nat.
Proof.
  intros Hs i j a b Hi Hj Hlt.
  destruct (Nat.lt_trichotomy i j) as [Hij | [Hij | Hij]].
  - exact Hij.
  - subst j. rewrite Hi in Hj. inversion Hj; subst b. lia.
  - pose proof (StronglySorted_lookup _ _ Hs j i b a Hj Hi Hij) as Hba.
    unfold newestFirst in Hba. lia.
Qed.

Lemma elem_of_js_sort_filter (comparefn : Task -> Task -> Z)
    (keep : Task -> bool) (ts : list Task) (t : Task) :
  t ∈ js_sort comparefn (List.filter keep ts) <-> t ∈ ts /\ keep t = true.
Proof.
  rewrite (js_sort_Permutation comparefn (List.filter keep ts)).
  rewrite !list_elem_of_In. apply filter_In.
Qed.

(** C5. The pending list holds exactly the tasks that are not completed
    and the completed list exactly the others (as multisets, so nothing is
    lost or repeated); both are ordered by [createdAt], newest first: of
    two tasks with different creation times the later one stands first. *)
Theorem derived_task_lists (ts : list Task) :
  Permutation (pendingTasks ts) (List.filter (fun t => negb (completed t)) ts) /\
  Permutation (completedTasks ts) (List.filter (fun t => completed t) ts) /\
  Permutation (pendingTasks ts ++ completedTasks ts)%list ts /\
  (forall t : Task,
      (t ∈ pendingTasks ts <-> t ∈ ts /\ completed t = false) /\
      (t ∈ completedTasks ts <-> t ∈ ts /\ completed t = true)) /\
  StronglySorted newestFirst (pendingTasks ts) /\
  StronglySorted newestFirst (completedTasks ts) /\
  (forall (i j : nat) (a b : Task),
      pendingTasks ts !! i = Some a -> pendingTasks ts !! j = Some b ->
      createdAt b < createdAt a -> (i < j)%nat) /\
  (forall (i j : nat) (a b : Task),
      completedTasks ts !! i = Some a -> completedTasks ts !! j = Some b ->
      createdAt b < createdAt a -> (i < j)%nat).
Proof.
  assert (Hp : Permutation (pendingTasks ts)
                 (List.filter (fun t => negb (completed t)) ts))
    by apply js_sort_Permutation.
  assert (Hc : Permutation (completedTasks ts)
                 (List.filter (fun t => completed t) ts))
    by apply js_sort_Permutation.
  split; [exact Hp |]. split; [exact Hc |]. split.
  { rewrite Hp, Hc. clear Hp Hc.
    induction ts as [| t ts IH]; simpl; [reflexivity |].
    destruct (completed t); simpl.
    - rewrite <- Permutation_middle. now constructor.
    - now constructor. }
  split.
  { intros t. unfold pendingTasks, completedTasks.
    rewrite !elem_of_js_sort_filter. rewrite negb_true_iff. tauto. }
  split; [apply byCreatedDesc_sorted |].
  split; [apply byCreatedDesc_sorted |].
  split; apply newestFirst_positions, byCreatedDesc_sorted.
Qed.

Lemma derived_task_lists_witness :
  pendingTasks [taskAt "1" false 1000; taskAt "2" false 2000]
    = [taskAt "2" false 2000; taskAt "1" false 1000] /\
  (0 < 1)%nat.
Proof.
  split; [reflexivity |].
  destruct (derived_task_lists [taskAt "1" false 1000; taskAt "2" false 2000])
    as (_ & _ & _ & _ & _ & _ & Hpos & _).
  apply (Hpos 0%nat 1%nat (taskAt "2" false 2000) (taskAt "1" false 1000)).
  - reflexivity.
  - reflexivity.
  - simpl. lia.
Defined.

(* --------------------------------------------------------------------- *)
(** ** The top three priorities                                            *)
(* --------------------------------------------------------------------- *)

(** Under [urgentFirst] an urgent element goes to the front and any other
    element to the back, whatever is already placed. *)
Lemma place_urgentFirst (x : Task) (l : list Task) :
  place urgentFirst x l = if isUrgent x then x :: l else (l ++ [x])%list.
Proof.
  unfold urgentFirst.
  destruct (isUrgent x) eqn:Hx.
  - destruct l as [| y l]; simpl; [reflexivity |]. now rewrite Hx.
  - induction l as [| y l IH]; simpl; [reflexivity |].
    rewrite Hx. simpl. now rewrite IH.
Qed.

Lemma fold_place_urgentFirst (l placed : list Task) :
  fold_left (fun p x => place urgentFirst x p) l placed =
    (rev (List.filter isUrgent l) ++ placed ++ List.filter notUrgent l)%list.
Proof.
  revert placed. induction l as [| x l IH]; intros placed; simpl.
  - now rewrite app_nil_r.
  - rewrite IH, place_urgentFirst. unfold notUrgent at 2.
    destruct (isUrgent x); simpl.
    + now rewrite <- app_assoc.
    + now rewrite <- app_assoc.
Qed.

Lemma js_sort_urgentFirst (l : list Task) :
  js_sort urgentFirst l =
    (rev (List.filter isUrgent l) ++ List.filter notUrgent l)%list.
Proof. unfold js_sort. now rewrite fold_place_urgentFirst. Qed.

Lemma filter_relabel (keep : Task -> bool) (relabel : Task -> Task)
    (l : list Task) :
  (forall t, keep (relabel t) = keep t) ->
  List.filter keep (map relabel l) = map relabel (List.filter keep l).
Proof.
  intros Hk. induction l as [| t l IH]; simpl; [reflexivity |].
  rewrite Hk. destruct (keep t); simpl; now rewrite IH.
Qed.

(** In a list made of urgent tasks followed by other tasks, and in every
    prefix of it, an urgent task stands before any other task. *)
Lemma urgent_block_positions (us ns : list Task) (n : nat) :
  Forall (fun t => isUrgent t = true) us ->
  Forall (fun t => isUrgent t = false) ns ->
  forall (i j : nat) (a b : Task),
    take n (us ++ ns) !! i = Some a -> take n (us ++ ns) !! j = Some b ->
    isUrgent a = true -> isUrgent b = false -> (i < j)%nat.
Proof.
  intros Hus Hns i j a b Hi Hj Ha Hb.
  apply lookup_take_Some in Hi as [Hi _].
  apply lookup_take_Some in Hj as [Hj _].
  rewrite Forall_forall in Hus, Hns.
  assert (Hil : (i < length us)%nat).
  { destruct (Nat.lt_ge_cases i (length us)) as [Hlt | Hge]; [exact Hlt |].
    rewrite lookup_app_r in Hi by exact Hge.
    apply list_elem_of_lookup_2 in Hi. apply Hns in Hi. congruence. }
  assert (Hjl : (length us <= j)%nat).
  { destruct (Nat.lt_ge_cases j (length us)) as [Hlt | Hge]; [| exact Hge].
    rewrite lookup_app_l in Hj by exact Hlt.
    apply list_elem_of_lookup_2 in Hj. apply Hus in Hj. congruence. }
  lia.
Qed.

Lemma Forall_filter_true (keep : Task -> bool) (l : list Task) :
  Forall (fun t => keep t = true) (List.filter keep l).
Proof.
  apply Forall_forall. intros t Ht.
  apply list_elem_of_In, filter_In in Ht. tauto.
Qed.

(** C6. The top-priorities list has at most three entries, all of them
    tasks of the input that are not completed; in it every task whose
    priority is "Penting - Mendesak" stands before every task of another
    priority; and the other priorities are not ranked against each other:
    the comparator gives the same answer for any two tasks that are not
    urgent, and changing the priorities of tasks without changing which of
    them are urgent changes nothing in the selection or its order. *)
Theorem top3_priorities (ts : list Task) :
  (length (top3Priorities ts) <= 3)%nat /\
  (forall t : Task, t ∈ top3Priorities ts -> t ∈ ts /\ completed t = false) /\
  (forall (i j : nat) (a b : Task),
      top3Priorities ts !! i = Some a -> top3Priorities ts !! j = Some b ->
      isUrgent a = true -> isUrgent b = false -> (i < j)%nat) /\
  (forall a b a' b' : Task,
      isUrgent a = false -> isUrgent a' = false ->
      urgentFirst a b = urgentFirst a' b') /\
  (forall relabel : Task -> Task,
      (forall t, isUrgent (relabel t) = isUrgent t) ->
      (forall t, completed (relabel t) = completed t) ->
      top3Priorities (map relabel ts) = map relabel (top3Priorities ts)).
Proof.
  unfold top3Priorities. split; [| split; [| split; [| split]]].
  - rewrite length_take. lia.
  - intros t Ht. apply elem_of_take in Ht as (i & Hi & _).
    apply list_elem_of_lookup_2 in Hi.
    apply elem_of_js_sort_filter in Hi as [Hin Hpending].
    split; [exact Hin | now apply negb_true_iff in Hpending].
  - intros i j a b. rewrite js_sort_urgentFirst.
    apply urgent_block_positions.
    + apply Forall_rev, Forall_filter_true.
    + eapply Forall_impl; [apply (Forall_filter_true notUrgent) |].
      intros t Ht. now apply negb_true_iff in Ht.
  - intros a b a' b' Ha Ha'. unfold urgentFirst. now rewrite Ha, Ha'.
  - intros relabel Hu Hc.
    rewrite filter_relabel by (intros t; now rewrite Hc).
    rewrite !js_sort_urgentFirst.
    rewrite !filter_relabel
      by (intros t; unfold notUrgent; now rewrite ?Hu).
    now rewrite <- map_rev, <- map_app, firstn_map.
Qed.

Lemma top3_priorities_witness :
  top3Priorities sampleTasks =
    [ taskWith "b" "Penting - Mendesak" false;
      taskWith "a" "Non-penting - Non-mendesak" false;
      taskWith "d" "Penting - Non-mendesak" false ] /\
  (0 < 1)%nat.
Proof.
  split; [reflexivity |].
  destruct (top3_priorities sampleTasks) as (_ & _ & Hpos & _).
  eapply (Hpos 0%nat 1%nat); reflexivity.
Defined.

(* --------------------------------------------------------------------- *)
(** ** Paths                                                               *)
(* --------------------------------------------------------------------- *)

Local Arguments String.append : simpl nomatch.

Lemma append_assoc (x y z : string) : (x +:+ y) +:+ z = x +:+ (y +:+ z).
Proof. induction x as [| c x IH]; simpl; [reflexivity | now f_equal]. Qed.

Lemma length_append (x y : string) :
  String.length (x +:+ y) = (String.length x + String.length y)%nat.
Proof. induction x as [| c x IH]; simpl; [reflexivity | now f_equal]. Qed.

(** Of two equal concatenations, the shorter tail is a suffix of the
    longer one. *)
Lemma append_eq_suffix (s1 s2 t1 t2 : string) :
  s1 +:+ t1 = s2 +:+ t2 ->
  (String.length t1 <= String.length t2)%nat ->
  exists k, t2 = k +:+ t1.
Proof.
  revert s2. induction s1 as [| c s1 IH]; intros s2 Heq Hlen; simpl in Heq.
  - destruct s2 as [| c2 s2]; simpl in Heq.
    + exists "". now subst.
    + apply (f_equal String.length) in Heq. simpl in Heq.
      rewrite length_append in Heq. lia.
  - destruct s2 as [| c2 s2]; simpl in Heq.
    + exists (String c s1). now subst.
    + injection Heq as _ Heq. now apply (IH s2).
Qed.

Lemma collectionPath_split (appId u name : string) :
  collectionPath appId u name =
    ("artifacts/" +:+ appId +:+ "/users/" +:+ u) +:+ ("/" +:+ name).
Proof.
  unfold collectionPath. now rewrite !append_assoc.
Qed.

(** No path of a [tasks] collection is a path of a [habits] collection. *)
Lemma tasks_path_not_habits_path (appId u u' : string) :
  collectionPath appId u "tasks" <> collectionPath appId u' "habits".
Proof.
  rewrite !collectionPath_split. intros Heq.
  apply append_eq_suffix in Heq as [k Hk]; [| simpl; lia].
  destruct k as [| c [| c' k]]; simpl in Hk.
  - discriminate Hk.
  - injection Hk as _ Hk. discriminate Hk.
  - apply (f_equal String.length) in Hk. simpl in Hk.
    rewrite length_append in Hk. simpl in Hk. lia.
Qed.

Lemma collectionPath_coll_inj (appId u u' : string) (c c' : Coll) :
  collectionPath appId u (coll_name c) = collectionPath appId u' (coll_name c') ->
  c = c'.
Proof.
  destruct c, c'; simpl; intros Heq; try reflexivity.
  - now apply tasks_path_not_habits_path in Heq.
  - symmetry in Heq. now apply tasks_path_not_habits_path in Heq.
Qed.

(* --------------------------------------------------------------------- *)
(** ** Seeding                                                             *)
(* --------------------------------------------------------------------- *)

Local Arguments collectionPath : simpl never.

Lemma addedTo_app (path : string) (ws ws' : list RemoteWrite) :
  addedTo path (ws ++ ws') = (addedTo path ws ++ addedTo path ws')%list.
Proof.
  induction ws as [| r ws IH]; simpl; [reflexivity |].
  destruct r as [p item | |]; try exact IH.
  destruct (String.eqb p path); simpl; now rewrite IH.
Qed.

Lemma remote_addData (appId : string) (db : option Firestore)
    (uid : option string) (collectionName : string) (item : Obj)
    (wr : WriteResult) (w : World) :
  remote (addData appId db uid collectionName item wr w).2 =
    (remote w ++ addRequest appId db uid collectionName item)%list.
Proof.
  unfold addData, addRequest.
  destruct db as [d |], uid as [u |]; simpl; rewrite ?app_nil_r; try reflexivity.
  destruct (negb (String.eqb u "")); simpl; now rewrite ?app_nil_r.
Qed.

Lemma remote_seedingEffect (appId : string) (lt : LoadTime) (st : AppState)
    (wrT wrH : WriteResult) (w : World) :
  remote (seedingEffect appId lt st wrT wrH w) =
    (remote w ++ seedRequests appId lt st CTasks
              ++ seedRequests appId lt st CHabits)%list.
Proof.
  unfold seedingEffect, seedRequests, seedGuard; simpl.
  destruct (isAuthReady st && negb (tasksLoading st)
            && (length (tasks st) =? 0)%nat && userPresent (app_userId st));
  destruct (isAuthReady st && negb (habitsLoading st)
            && (length (habits st) =? 0)%nat && userPresent (app_userId st));
  rewrite ?remote_addData; simpl; rewrite ?remote_addData; simpl;
  rewrite ?app_nil_r, <- ?app_assoc; reflexivity.
Qed.

Lemma addedTo_seedRequests_other (appId : string) (lt : LoadTime)
    (st : AppState) (u : string) (c c' : Coll) :
  c <> c' ->
  addedTo (collectionPath appId u (coll_name c)) (seedRequests appId lt st c') = [].
Proof.
  intros Hne. unfold seedRequests, addRequest.
  destruct (seedGuard st c'); [| reflexivity].
  destruct (app_db st) as [d |], (app_userId st) as [u' |]; try reflexivity.
  destruct (userPresent (Some u')); [| reflexivity].
  cbn [addedTo].
  destruct (String.eqb_spec (collectionPath appId u' (coll_name c'))
              (collectionPath appId u (coll_name c))) as [Heq | _];
    [| reflexivity].
  apply collectionPath_coll_inj in Heq. congruence.
Qed.

Lemma seedRequests_fires (appId : string) (lt : LoadTime) (st : AppState)
    (u : string) (c : Coll) :
  app_userId st = Some u -> sessionReady st = true ->
  coll_loading st c = false -> coll_items st c = [] ->
  seedRequests appId lt st c =
    [RAdd (collectionPath appId u (coll_name c)) (coll_default lt c)].
Proof.
  unfold sessionReady, seedRequests, seedGuard, addRequest.
  intros Hu Hready Hload Hitems.
  rewrite Hu in *. rewrite Hload, Hitems.
  apply andb_true_iff in Hready as [Hready Hauth].
  apply andb_true_iff in Hready as [Hdb Hpresent].
  rewrite Hauth, Hpresent. simpl.
  destruct (app_db st); [reflexivity | discriminate Hdb].
Qed.

Lemma seedRequests_quiet (appId : string) (lt : LoadTime) (st : AppState)
    (c : Coll) :
  coll_items st c <> [] \/ coll_loading st c = true ->
  seedRequests appId lt st c = [].
Proof.
  unfold seedRequests, seedGuard. intros [Hitems | Hload].
  - destruct (coll_items st c) as [| x l]; [congruence |].
    simpl. now rewrite andb_false_r.
  - rewrite Hload. simpl. now rewrite andb_false_r.
Qed.

Lemma addedTo_seedingEffect (appId : string) (lt : LoadTime) (st : AppState)
    (wrT wrH : WriteResult) (w : World) (u : string) (c : Coll) :
  addedTo (collectionPath appId u (coll_name c))
    (remote (seedingEffect appId lt st wrT wrH w)) =
  (addedTo (collectionPath appId u (coll_name c)) (remote w) ++
   addedTo (collectionPath appId u (coll_name c)) (seedRequests appId lt st c))%list.
Proof.
  rewrite remote_seedingEffect, !addedTo_app.
  destruct c.
  - rewrite (addedTo_seedRequests_other appId lt st u CTasks CHabits)
      by discriminate.
    now rewrite app_nil_r.
  - rewrite (addedTo_seedRequests_other appId lt st u CHabits CTasks)
      by discriminate.
    reflexivity.
Qed.

(** One run of the seeding effect, for either collection, as a function
    of what [App] reads in that render. With the session authenticated and
    ready, the loading flag false and the item list empty, it adds exactly
    one record to the collection of the user, the default one. With a
    non-empty item list it adds none, and while the loading flag is true it
    adds none. What the loading flag and the item list say about the
    collection at that moment is another matter. *)
Theorem seeding_policy (appId : string) (lt : LoadTime) (st : AppState)
    (wrT wrH : WriteResult) (w : World) (c : Coll) :
  let w' := seedingEffect appId lt st wrT wrH w in
  let added (u : string) (x : World) :=
    addedTo (collectionPath appId u (coll_name c)) (remote x) in
  (forall u : string,
      app_userId st = Some u -> sessionReady st = true ->
      coll_loading st c = false -> coll_items st c = [] ->
      added u w' = (added u w ++ [coll_default lt c])%list) /\
  (coll_items st c <> [] -> forall u : string, added u w' = added u w) /\
  (coll_loading st c = true -> forall u : string, added u w' = added u w).
Proof.
  intros w' added. unfold added, w'. repeat split.
  - intros u Hu Hready Hload Hitems.
    rewrite addedTo_seedingEffect.
    rewrite (seedRequests_fires appId lt st u c) by assumption.
    simpl. now rewrite String.eqb_refl.
  - intros Hitems u. rewrite addedTo_seedingEffect.
    rewrite seedRequests_quiet by (now left).
    now rewrite app_nil_r.
  - intros Hload u. rewrite addedTo_seedingEffect.
    rewrite seedRequests_quiet by (now right).
    now rewrite app_nil_r.
Qed.

Lemma seeding_policy_witness :
  addedTo "artifacts/default-app-id/users/u1/tasks"
    (remote (seedingEffect "default-app-id" sampleLoadTime sampleAppState
               WriteOk WriteOk initWorld))
  = [initialTask sampleLoadTime].
Proof.
  destruct (seeding_policy "default-app-id" sampleLoadTime sampleAppState
              WriteOk WriteOk initWorld CTasks) as [Hfire _].
  exact (Hfire "u1" eq_refl eq_refl eq_refl eq_refl).
Defined.

(** The collection hook when the user id has arrived: it has registered
    its listener, and its loading flag, cleared by the early return of the
    renders without a user, has stayed cleared. *)
Lemma hookAtSignIn_state (appId u : string) (db : Firestore) (c : Coll) :
  u <> "" ->
  hookAtSignIn appId db u c =
    {| data := []; loading := false; error := None;
       lastDeps := Some (collDeps (Some db) (Some u) c);
       cleanup := Some 0%nat;
       listeners := {[ 0%nat := {| sub_path := collectionPath appId u (coll_name c);
                                   sub_collectionName := coll_name c;
                                   sub_sortField := None |} ]};
       nextListener := 1%nat; console := []; remote := [] |}.
Proof.
  intros Hu. apply String.eqb_neq in Hu.
  unfold hookAtSignIn, startupCommits, run. cbn [fold_left].
  unfold step.
  replace (commit appId (collDeps None None c) initWorld)
    with (setEffect (Some (collDeps None None c)) None ∅ 0%nat
            (setMirror [] false None initWorld)) by reflexivity.
  unfold commit at 2. cbn [lastDeps setEffect setMirror].
  destruct (decide (collDeps None None c = collDeps (Some db) None c))
    as [Heq | _]; [discriminate Heq |].
  cbn.
  unfold commit. cbn [lastDeps setEffect].
  destruct (decide (collDeps (Some db) None c = collDeps (Some db) (Some u) c))
    as [Heq | _]; [discriminate Heq |].
  cbn. rewrite Hu. cbn. rewrite insert_empty. reflexivity.
Qed.

(** C4. The seeding effect does not wait for the initial load, although
    its guard tests the loading flag. At the start of a session without a
    token the collection hooks are rendered first without a user, where the
    effect of the hook clears [loading] and returns, and the run that
    subscribes once the user id has arrived does not set it again. So in
    the render where the session is ready, for either collection: the
    listener is registered and no snapshot has been delivered, yet [loading]
    is false and the item list is empty, and the seeding effect adds the
    default record. The snapshot that arrives afterwards shows what the
    collection held all along, which may be any number of records. *)
Theorem seeding_races_initial_load (appId u : string) (db : Firestore)
    (lt : LoadTime) (wrT wrH : WriteResult) (w : World) (c : Coll) :
  u <> "" ->
  let s := firebaseRun [AuthChanged (Some u); Settled MountAnonSignIn (inl u)]
             (mountFirebase false (Some db) None false) in
  let hook (c' : Coll) := hookAtSignIn appId db u c' in
  let st := appStateOf s (hook CTasks) (hook CHabits) in
  let path := collectionPath appId u (coll_name c) in
  sessionReady st = true /\
  (exists sub, listeners (hook c) = {[ 0%nat := sub ]} /\ sub_path sub = path) /\
  coll_loading st c = false /\ coll_items st c = [] /\
  addedTo path (remote (seedingEffect appId lt st wrT wrH w))
    = (addedTo path (remote w) ++ [coll_default lt c])%list /\
  forall docs : list (string * Obj),
    data (step appId (hook c) (EvSnapshot 0%nat docs)) = map withId docs.
Proof.
  intros Hu s hook st path.
  assert (Hs : fb_db s = Some db /\ fb_userId s = Some u /\ fb_isAuthReady s = true)
    by (repeat split; reflexivity).
  destruct Hs as (Hdb & Huid & Hready).
  assert (Hst : sessionReady st = true).
  { unfold sessionReady, st, appStateOf. cbn [app_db app_userId isAuthReady].
    rewrite Hdb, Huid, Hready. cbn.
    apply String.eqb_neq in Hu. now rewrite Hu. }
  assert (Hload : coll_loading st c = false).
  { unfold st, appStateOf, hook. destruct c; cbn [coll_loading tasksLoading habitsLoading];
      now rewrite hookAtSignIn_state. }
  assert (Hitems : coll_items st c = []).
  { unfold st, appStateOf, hook. destruct c; cbn [coll_items tasks habits];
      now rewrite hookAtSignIn_state. }
  split; [exact Hst |]. split; [| split; [exact Hload | split; [exact Hitems | split]]].
  - unfold hook. rewrite hookAtSignIn_state by exact Hu. cbn [listeners].
    eexists. split; reflexivity.
  - unfold path. rewrite addedTo_seedingEffect.
    rewrite (seedRequests_fires appId lt st u c Huid Hst Hload Hitems).
    cbn [addedTo]. now rewrite String.eqb_refl.
  - intros docs. unfold hook. rewrite hookAtSignIn_state by exact Hu.
    cbn [step listeners]. rewrite lookup_singleton_eq. reflexivity.
Qed.

Lemma seeding_races_initial_load_witness :
  let hook := hookAtSignIn "default-app-id" {| instance := 0 |} "u1" CTasks in
  loading hook = false /\ data hook = [] /\
  addedTo "artifacts/default-app-id/users/u1/tasks"
    (remote (seedingEffect "default-app-id" sampleLoadTime
               (appStateOf
                  (firebaseRun [AuthChanged (Some "u1");
                                Settled MountAnonSignIn (inl "u1")]
                     (mountFirebase false (Some {| instance := 0 |}) None false))
                  hook
                  (hookAtSignIn "default-app-id" {| instance := 0 |} "u1" CHabits))
               WriteOk WriteOk initWorld))
  = [initialTask sampleLoadTime] /\
  length (data (step "default-app-id" hook
                  (EvSnapshot 0%nat
                     [("t1", {[ "name" := VStr "Laporan" ]});
                      ("t2", {[ "name" := VStr "Revisi" ]})]))) = 2%nat.
Proof.
  intros hook.
  destruct (seeding_races_initial_load "default-app-id" "u1" {| instance := 0 |}
              sampleLoadTime WriteOk WriteOk initWorld CTasks)
    as (_ & _ & Hload & Hitems & Hseed & Hsnap).
  - discriminate.
  - split; [exact Hload |]. split; [exact Hitems |]. split; [exact Hseed |].
    unfold hook. rewrite Hsnap. reflexivity.
Defined.

(* --------------------------------------------------------------------- *)
(** ** The subscription life cycle                                         *)
(* --------------------------------------------------------------------- *)

Lemma reachable_run (appId : string) (es : list Event) (w : World) :
  reachable appId w -> reachable appId (run appId es w).
Proof.
  revert w. induction es as [| e es IH]; intros w Hw; simpl.
  - exact Hw.
  - apply IH. now constructor.
Qed.

Lemma Inv_init : Inv initWorld.
Proof.
  split; simpl.
  - reflexivity.
  - intros lid [sub Hsub]. rewrite lookup_empty in Hsub. discriminate.
  - reflexivity.
Qed.

Lemma runCleanup_released (w : World) :
  Inv w ->
  listeners (runCleanup w) = ∅ /\ cleanup (runCleanup w) = None /\
  nextListener (runCleanup w) = nextListener w.
Proof.
  intros [Hlive _ _]. unfold runCleanup.
  destruct (cleanup w) as [lid |] eqn:Hc; simpl.
  - destruct Hlive as [sub ->]. now rewrite delete_singleton_eq.
  - now rewrite Hc.
Qed.

(** The effect body, started with no listener registered, ends with none
    or with exactly the one it registered under the next number. *)
Lemma effectBody_registers (appId : string) (d : Deps) (w : World) :
  listeners w = ∅ ->
  (cleanup (effectBody appId d w) = None /\
   listeners (effectBody appId d w) = ∅ /\
   nextListener (effectBody appId d w) = nextListener w) \/
  (exists sub,
      cleanup (effectBody appId d w) = Some (nextListener w) /\
      listeners (effectBody appId d w) = {[ nextListener w := sub ]} /\
      nextListener (effectBody appId d w) = S (nextListener w)).
Proof.
  intros Hempty. unfold effectBody.
  destruct (dep_db d) as [db |], (dep_userId d) as [u |]; simpl; auto.
  destruct (negb (String.eqb u "")); simpl; auto.
  right. eexists. rewrite Hempty, insert_empty. repeat split.
Qed.

Lemma Inv_after_effect (appId : string) (d : Deps) (w : World) :
  listeners w = ∅ ->
  let w1 := effectBody appId d w in
  Inv (setEffect (Some d) (cleanup w1) (listeners w1) (nextListener w1) w1).
Proof.
  intros Hempty w1. unfold w1.
  destruct (effectBody_registers appId d w Hempty)
    as [(Hc & Hl & Hn) | (sub & Hc & Hl & Hn)];
    rewrite Hc, Hl, Hn; split; simpl.
  - reflexivity.
  - intros lid [s Hs]. rewrite lookup_empty in Hs. discriminate.
  - discriminate.
  - now exists sub.
  - intros lid [s Hs]. apply lookup_singleton_Some in Hs as [<- _]. lia.
  - discriminate.
Qed.

Lemma Inv_step (appId : string) (w : World) (e : Event) :
  Inv w -> Inv (step appId w e).
Proof.
  intros HI. destruct e as [d | | lid docs | lid msg]; simpl.
  - unfold commit. destruct (lastDeps w) as [d0 |] eqn:Hd.
    + destruct (decide (d0 = d)); [exact HI |].
      apply Inv_after_effect. now apply runCleanup_released.
    + apply Inv_after_effect. simpl.
      destruct HI as [Hlive _ Hun]. now rewrite (Hun Hd) in Hlive.
  - unfold unmount.
    destruct (runCleanup_released w HI) as (Hl & Hc & Hn).
    rewrite Hl, Hc, Hn. split; simpl.
    + reflexivity.
    + intros lid [s Hs]. rewrite lookup_empty in Hs. discriminate.
    + reflexivity.
  - destruct (listeners w !! lid); [| exact HI].
    destruct HI as [H1 H2 H3]. now split.
  - destruct (listeners w !! lid); [| exact HI].
    destruct HI as [H1 H2 H3]. now split.
Qed.

Lemma reachable_Inv (appId : string) (w : World) :
  reachable appId w -> Inv w.
Proof.
  induction 1 as [| w e Hw IH]; [apply Inv_init | now apply Inv_step].
Qed.

(** The loading flag says less than its name: once the effect body has
    returned early for a missing user it is false, and the commit that
    subscribes for the user who then arrives does not set it again, so it is
    false with an empty mirror before the first snapshot. *)
Remark loading_cleared_before_first_snapshot :
  let w := run "default-app-id"
             [EvCommit (depsFor None); EvCommit (depsFor (Some "u1"))]
             initWorld in
  loading w = false /\ data w = [] /\ size (listeners w) = 1%nat.
Proof. vm_compute. repeat split. Qed.

Lemma released_effectBody (appId : string) (d : Deps) (lid : nat) (w : World) :
  released lid w -> released lid (effectBody appId d w).
Proof.
  intros [Hlt Hnone]. unfold effectBody, released.
  destruct (dep_db d) as [db |], (dep_userId d) as [u |]; simpl; auto.
  destruct (negb (String.eqb u "")); simpl; auto.
  split; [lia |]. rewrite lookup_insert_ne by lia. exact Hnone.
Qed.

Lemma released_runCleanup (lid : nat) (w : World) :
  released lid w -> released lid (runCleanup w).
Proof.
  intros [Hlt Hnone]. unfold runCleanup, released.
  destruct (cleanup w) as [lid' |]; simpl; auto.
  split; [exact Hlt |].
  apply lookup_delete_None. now right.
Qed.

Lemma released_step (appId : string) (lid : nat) (w : World) (e : Event) :
  released lid w -> released lid (step appId w e).
Proof.
  intros Hr. destruct e as [d | | lid' docs | lid' msg]; simpl.
  - unfold commit. destruct (lastDeps w) as [d0 |].
    + destruct (decide (d0 = d)); [exact Hr |].
      apply released_runCleanup, (released_effectBody appId d) in Hr.
      exact Hr.
    + exact (released_effectBody appId d lid (setMirror [] true None w) Hr).
  - unfold unmount. apply released_runCleanup in Hr. exact Hr.
  - now destruct (listeners w !! lid').
  - now destruct (listeners w !! lid').
Qed.

Lemma released_run (appId : string) (lid : nat) (es : list Event) (w : World) :
  released lid w -> released lid (run appId es w).
Proof.
  revert w. induction es as [| e es IH]; intros w Hr; simpl.
  - exact Hr.
  - apply IH, released_step, Hr.
Qed.

(** The store client has nothing to call for a released listener. *)
Lemma released_silent (appId : string) (lid : nat) (w : World) :
  released lid w ->
  (forall docs, step appId w (EvSnapshot lid docs) = w) /\
  (forall msg, step appId w (EvError lid msg) = w).
Proof.
  intros [_ Hnone]. split; intros x; simpl; now rewrite Hnone.
Qed.

Lemma live_is_pending (w : World) (lid : nat) :
  Inv w -> is_Some (listeners w !! lid) ->
  cleanup w = Some lid /\ (lid < nextListener w)%nat.
Proof.
  intros HI Hlive. split; [| now apply (inv_fresh w HI)].
  pose proof (inv_live w HI) as Hl.
  destruct (cleanup w) as [lid' |].
  - destruct Hl as [sub Hl]. rewrite Hl in Hlive.
    apply lookup_singleton_is_Some in Hlive. now subst.
  - rewrite Hl, lookup_empty in Hlive. now destruct Hlive.
Qed.

Lemma released_after_cleanup (w : World) (lid : nat) :
  Inv w -> is_Some (listeners w !! lid) -> released lid (runCleanup w).
Proof.
  intros HI Hlive.
  destruct (live_is_pending w lid HI Hlive) as [_ Hlt].
  destruct (runCleanup_released w HI) as (Hl & _ & Hn).
  split; [now rewrite Hn | now rewrite Hl, lookup_empty].
Qed.

(** C9. In every world a hook instance can reach, at most one listener
    is registered. The cleanup of the previous effect run leaves none, and
    a commit with changed dependencies runs it before the effect body
    subscribes again; unmounting runs it too. From then on the listener that
    was registered before is never registered again, and neither a
    snapshot nor an error addressed to it changes anything. *)
Theorem rebind_releases_listener (appId : string) (w : World) :
  reachable appId w ->
  (size (listeners w) <= 1)%nat /\
  listeners (runCleanup w) = ∅ /\
  (forall (d : Deps) (lid : nat),
      lastDeps w <> Some d -> is_Some (listeners w !! lid) ->
      listeners (commit appId d w) =
        listeners (effectBody appId d (runCleanup w)) /\
      forall future : list Event,
        let w2 := run appId future (commit appId d w) in
        listeners w2 !! lid = None /\
        (forall docs, step appId w2 (EvSnapshot lid docs) = w2) /\
        (forall msg, step appId w2 (EvError lid msg) = w2)) /\
  (forall lid : nat,
      is_Some (listeners w !! lid) ->
      listeners (unmount w) = ∅ /\
      forall future : list Event,
        let w2 := run appId future (unmount w) in
        listeners w2 !! lid = None /\
        (forall docs, step appId w2 (EvSnapshot lid docs) = w2) /\
        (forall msg, step appId w2 (EvError lid msg) = w2)).
Proof.
  intros Hreach. pose proof (reachable_Inv appId w Hreach) as HI.
  split; [| split; [| split]].
  - pose proof (inv_live w HI) as Hl.
    destruct (cleanup w) as [lid |].
    + destruct Hl as [sub ->]. now rewrite map_size_singleton.
    + rewrite Hl, map_size_empty. lia.
  - apply (runCleanup_released w HI).
  - intros d lid Hchanged Hlive.
    destruct (live_is_pending w lid HI Hlive) as [Hpending _].
    assert (Hcommit : commit appId d w =
              let w1 := effectBody appId d (runCleanup w) in
              setEffect (Some d) (cleanup w1) (listeners w1) (nextListener w1) w1).
    { unfold commit. destruct (lastDeps w) as [d0 |] eqn:Hd.
      - destruct (decide (d0 = d)); [congruence | reflexivity].
      - rewrite (inv_unmounted w HI Hd) in Hpending. discriminate. }
    split; [now rewrite Hcommit |].
    intros future w2.
    assert (Hrel : released lid (commit appId d w)).
    { rewrite Hcommit.
      exact (released_effectBody appId d lid _
               (released_after_cleanup w lid HI Hlive)). }
    apply (released_run appId lid future) in Hrel.
    split; [apply Hrel | now apply released_silent].
  - intros lid Hlive. split; [apply (runCleanup_released w HI) |].
    intros future w2.
    assert (Hrel : released lid (unmount w))
      by apply (released_after_cleanup w lid HI Hlive).
    apply (released_run appId lid future) in Hrel.
    split; [apply Hrel | now apply released_silent].
Qed.

Lemma rebind_releases_listener_witness :
  let w := step "default-app-id" initWorld (EvCommit (depsFor (Some "u1"))) in
  listeners
    (run "default-app-id"
       [EvSnapshot 0%nat [("t1", {[ "name" := VStr "Buy milk" ]})]]
       (commit "default-app-id" (depsFor (Some "u2")) w)) !! 0%nat = None.
Proof.
  intros w.
  destruct (rebind_releases_listener "default-app-id" w
              (reach_step _ _ (EvCommit (depsFor (Some "u1"))) (reach_init _)))
    as (_ & _ & Hrebind & _).
  assert (Hchanged : lastDeps w <> Some (depsFor (Some "u2")))
    by (intros H; discriminate H).
  assert (Hlive : is_Some (listeners w !! 0%nat)) by (eexists; reflexivity).
  destruct (Hrebind (depsFor (Some "u2")) 0%nat Hchanged Hlive) as [_ Hfuture].
  destruct (Hfuture [EvSnapshot 0%nat [("t1", {[ "name" := VStr "Buy milk" ]})]])
    as [Hgone _].
  exact Hgone.
Defined.

(* --------------------------------------------------------------------- *)
(** ** Saving the reflection                                               *)
(* --------------------------------------------------------------------- *)

Lemma fieldOf_setDocMerge_other_doc (path id : string) (fields : Obj)
    (s : Store) (path' id' f : string) :
  (path, id) <> (path', id') ->
  fieldOf (setDocMerge path id fields s) path' id' f = fieldOf s path' id' f.
Proof.
  intros Hne. unfold fieldOf, setDocMerge. now rewrite lookup_insert_ne.
Qed.

Lemma fieldOf_setDocMerge_kept (path id : string) (fields : Obj)
    (s : Store) (f : string) :
  fields !! f = None ->
  fieldOf (setDocMerge path id fields s) path id f = fieldOf s path id f.
Proof.
  intros Hf. unfold fieldOf, setDocMerge. rewrite lookup_insert_eq. simpl.
  rewrite lookup_union_r by exact Hf.
  destruct (s !! (path, id)); simpl; [reflexivity | apply lookup_empty].
Qed.

Lemma fieldOf_setDocMerge_written (path id : string) (fields : Obj)
    (s : Store) (f : string) (v : JsVal) :
  fields !! f = Some v ->
  fieldOf (setDocMerge path id fields s) path id f = Some v.
Proof.
  intros Hf. unfold fieldOf, setDocMerge. rewrite lookup_insert_eq. simpl.
  now apply lookup_union_Some_l.
Qed.

(** Whatever happens in a save, the fields other than [content] and
    [updatedAt] of every document read as before. *)
Lemma handleSaveReflection_frame (content : string)
    (clockDay clockStamp : JsDate) (wr : WriteResult) (st : PlannerState)
    (path id f : string) :
  f <> "content" -> f <> "updatedAt" ->
  fieldOf (store (handleSaveReflection content clockDay clockStamp wr st)) path id f
    = fieldOf (store st) path id f.
Proof.
  intros Hc Hu. unfold handleSaveReflection.
  destruct (getUserCollectionRef st (userId st) "reflections") as [ref |];
    [| reflexivity].
  destruct (String.eqb (userId st) "" || String.eqb content ""); [reflexivity |].
  destruct wr as [| msg]; [| reflexivity].
  simpl.
  destruct (decide ((ref, isoDay clockDay) = (path, id))) as [Heq | Hne].
  - inversion Heq; subst. apply fieldOf_setDocMerge_kept.
    rewrite lookup_insert_ne by congruence.
    now apply lookup_singleton_ne.
  - now apply fieldOf_setDocMerge_other_doc.
Qed.

(** A save that gets past the guard and is committed. *)
Lemma handleSaveReflection_committed (content : string)
    (clockDay clockStamp : JsDate) (st : PlannerState) (ref : string) :
  getUserCollectionRef st (userId st) "reflections" = Some ref ->
  userId st <> "" -> content <> "" ->
  store (handleSaveReflection content clockDay clockStamp WriteOk st) =
    setDocMerge ref (isoDay clockDay)
      {[ "content" := VStr content; "updatedAt" := VDate (getTime clockStamp) ]}
      (store st).
Proof.
  intros Href Hu Hc. unfold handleSaveReflection. rewrite Href.
  apply String.eqb_neq in Hu, Hc. rewrite Hu, Hc. reflexivity.
Qed.

Lemma handleSaveReflection_env (content : string)
    (clockDay clockStamp : JsDate) (wr : WriteResult) (st : PlannerState) :
  let st' := handleSaveReflection content clockDay clockStamp wr st in
  dbInstance st' = dbInstance st /\ userId st' = userId st /\
  projectId st' = projectId st.
Proof.
  unfold handleSaveReflection.
  destruct (getUserCollectionRef st (userId st) "reflections"); [| easy].
  destruct (String.eqb (userId st) "" || String.eqb content ""); [easy |].
  now destruct wr.
Qed.

Lemma getUserCollectionRef_env (st st' : PlannerState) (uid name : string) :
  dbInstance st' = dbInstance st -> projectId st' = projectId st ->
  getUserCollectionRef st' uid name = getUserCollectionRef st uid name.
Proof.
  intros Hdb Hp. unfold getUserCollectionRef, getAppId. now rewrite Hdb, Hp.
Qed.

Lemma handleSaveReflection_empty (clockDay clockStamp : JsDate)
    (wr : WriteResult) (st : PlannerState) :
  handleSaveReflection "" clockDay clockStamp wr st = st.
Proof.
  unfold handleSaveReflection.
  destruct (getUserCollectionRef st (userId st) "reflections"); [| reflexivity].
  simpl. now rewrite orb_true_r.
Qed.

(** A save touches no document but the one of its day in the user's
    reflections. *)
Lemma handleSaveReflection_other_doc (content : string)
    (clockDay clockStamp : JsDate) (wr : WriteResult) (st : PlannerState)
    (path id : string) :
  getUserCollectionRef st (userId st) "reflections" <> Some path
    \/ id <> isoDay clockDay ->
  store (handleSaveReflection content clockDay clockStamp wr st) !! (path, id)
    = store st !! (path, id).
Proof.
  intros Hother. unfold handleSaveReflection.
  destruct (getUserCollectionRef st (userId st) "reflections") as [ref |];
    [| reflexivity].
  destruct (String.eqb (userId st) "" || String.eqb content ""); [reflexivity |].
  destruct wr as [| msg]; [| reflexivity].
  cbn [store withStore]. unfold setDocMerge.
  apply lookup_insert_ne. intros Heq. inversion Heq; subst.
  destruct Hother as [Hp | Hi]; congruence.
Qed.

(** A rejected write leaves the store as it was. *)
Lemma handleSaveReflection_rejected (content : string)
    (clockDay clockStamp : JsDate) (msg : string) (st : PlannerState) :
  store (handleSaveReflection content clockDay clockStamp (WriteFail msg) st)
    = store st.
Proof.
  unfold handleSaveReflection.
  destruct (getUserCollectionRef st (userId st) "reflections"); [| reflexivity].
  now destruct (String.eqb (userId st) "" || String.eqb content "").
Qed.

(** C7 as stated fails for the second of two saves when its content is
    empty: the guard returns before any write, and the document keeps the
    content and the timestamp of the first save. *)
Lemma save_twice_counterexample :
  let path := "artifacts/genz-planner/users/u1/reflections" in
  let st1 := handleSaveReflection "X"
               (clockAt 1000 "2026-03-02T08:00:00.000Z")
               (clockAt 1000 "2026-03-02T08:00:00.000Z") WriteOk (plannerAt ∅) in
  let st2 := handleSaveReflection ""
               (clockAt 2000 "2026-03-02T09:00:00.000Z")
               (clockAt 2000 "2026-03-02T09:00:00.000Z") WriteOk st1 in
  "X" <> "" /\
  fieldOf (store st2) path "2026-03-02" "content" = Some (VStr "X") /\
  fieldOf (store st2) path "2026-03-02" "content" <> Some (VStr "") /\
  fieldOf (store st2) path "2026-03-02" "updatedAt" = Some (VDate 1000).
Proof.
  vm_compute. repeat split; discriminate.
Qed.

(** C7, amended. A save writes at most the fields [content] and
    [updatedAt] of the day's document in the user's reflections: every other
    document of the store, in that collection or in any other, is exactly as
    before with all its fields, [content] and [updatedAt] included; and in
    the day's document every other field reads as before, whatever the
    content and however the write settles. A rejected write changes no
    document, and a save with empty content changes nothing at all. After
    two saves, if the second has non-empty content and is committed (user
    and store handle present), the document of its day holds the second
    content and the second timestamp, its other fields are those from before
    both saves, and every document other than those of the two days is as
    before both saves. *)
Theorem reflection_save_merges (content : string)
    (clockDay clockStamp : JsDate) (wr : WriteResult) (st : PlannerState) :
  let st1 := handleSaveReflection content clockDay clockStamp wr st in
  (forall path id : string,
      getUserCollectionRef st (userId st) "reflections" <> Some path
        \/ id <> isoDay clockDay ->
      store st1 !! (path, id) = store st !! (path, id)) /\
  (forall path id f : string,
      f <> "content" -> f <> "updatedAt" ->
      fieldOf (store st1) path id f = fieldOf (store st) path id f) /\
  (forall msg : string, wr = WriteFail msg -> store st1 = store st) /\
  (content = "" -> st1 = st) /\
  (forall (content2 : string) (clockDay2 clockStamp2 : JsDate) (ref : string),
      getUserCollectionRef st (userId st) "reflections" = Some ref ->
      userId st <> "" -> content2 <> "" ->
      let st2 := handleSaveReflection content2 clockDay2 clockStamp2 WriteOk st1 in
      fieldOf (store st2) ref (isoDay clockDay2) "content" = Some (VStr content2) /\
      fieldOf (store st2) ref (isoDay clockDay2) "updatedAt"
        = Some (VDate (getTime clockStamp2)) /\
      (forall f : string,
          f <> "content" -> f <> "updatedAt" ->
          fieldOf (store st2) ref (isoDay clockDay2) f
            = fieldOf (store st) ref (isoDay clockDay2) f) /\
      (forall path id : string,
          path <> ref \/ (id <> isoDay clockDay /\ id <> isoDay clockDay2) ->
          store st2 !! (path, id) = store st !! (path, id))).
Proof.
  intros st1. split; [| split; [| split; [| split]]].
  - intros path id. apply handleSaveReflection_other_doc.
  - intros path id f. apply handleSaveReflection_frame.
  - intros msg ->. apply handleSaveReflection_rejected.
  - intros ->. apply handleSaveReflection_empty.
  - intros content2 clockDay2 clockStamp2 ref Href Hu Hc2 st2.
    destruct (handleSaveReflection_env content clockDay clockStamp wr st)
      as (Hdb & Huid & Hp).
    fold st1 in Hdb, Huid, Hp.
    assert (Href1 : getUserCollectionRef st1 (userId st1) "reflections" = Some ref).
    { rewrite Huid, (getUserCollectionRef_env st st1) by assumption. exact Href. }
    assert (Hstore : store st2 =
              setDocMerge ref (isoDay clockDay2)
                {[ "content" := VStr content2;
                   "updatedAt" := VDate (getTime clockStamp2) ]} (store st1)).
    { apply handleSaveReflection_committed;
        [exact Href1 | rewrite Huid; exact Hu | exact Hc2]. }
    split; [| split; [| split]].
    + rewrite Hstore. apply fieldOf_setDocMerge_written.
      apply lookup_insert_eq.
    + rewrite Hstore. apply fieldOf_setDocMerge_written.
      rewrite lookup_insert_ne by discriminate. apply lookup_singleton_eq.
    + intros f Hf1 Hf2. unfold st2.
      rewrite handleSaveReflection_frame by assumption.
      apply handleSaveReflection_frame; assumption.
    + intros path id Hother. unfold st2.
      rewrite handleSaveReflection_other_doc.
      * apply handleSaveReflection_other_doc.
        rewrite Href. destruct Hother as [Hpath | [Hid _]];
          [left; congruence | now right].
      * rewrite Href1. destruct Hother as [Hpath | [_ Hid]];
          [left; congruence | now right].
Qed.

Lemma reflection_save_merges_witness :
  let path := "artifacts/genz-planner/users/u1/reflections" in
  let st0 := plannerAt {[ (path, "2026-03-02") := {[ "mood" := VStr "ok" ]};
                          (path, "2026-03-01") := {[ "content" := VStr "kemarin";
                                                     "updatedAt" := VDate 500 ]} ]} in
  let st2 := handleSaveReflection "Y"
               (clockAt 2000 "2026-03-02T09:00:00.000Z")
               (clockAt 2001 "2026-03-02T09:00:00.001Z") WriteOk
               (handleSaveReflection "X"
                  (clockAt 1000 "2026-03-02T08:00:00.000Z")
                  (clockAt 1001 "2026-03-02T08:00:00.001Z") WriteOk st0) in
  fieldOf (store st2) path "2026-03-02" "content" = Some (VStr "Y") /\
  fieldOf (store st2) path "2026-03-02" "updatedAt" = Some (VDate 2001) /\
  fieldOf (store st2) path "2026-03-02" "mood" = Some (VStr "ok") /\
  store st2 !! (path, "2026-03-01")
    = Some {[ "content" := VStr "kemarin"; "updatedAt" := VDate 500 ]}.
Proof.
  intros path st0 st2.
  destruct (reflection_save_merges "X"
              (clockAt 1000 "2026-03-02T08:00:00.000Z")
              (clockAt 1001 "2026-03-02T08:00:00.001Z") WriteOk st0)
    as (_ & _ & _ & _ & Htwice).
  destruct (Htwice "Y" (clockAt 2000 "2026-03-02T09:00:00.000Z")
              (clockAt 2001 "2026-03-02T09:00:00.001Z") path)
    as (Hcontent & Hstamp & Hframe & Hdocs).
  - reflexivity.
  - discriminate.
  - discriminate.
  - split; [exact Hcontent |]. split; [exact Hstamp |]. split.
    + etransitivity; [apply (Hframe "mood"); discriminate | reflexivity].
    + etransitivity.
      * apply (Hdocs path "2026-03-01"). right. split; discriminate.
      * reflexivity.
Defined.

(* ===================================================================== *)
(** * Part III. Further properties of the code                            *)
(* ===================================================================== *)

(* --------------------------------------------------------------------- *)
(** ** Retrying                                                            *)
(* --------------------------------------------------------------------- *)

Lemma withRetryFrom_succeeds {V : Type} (fn : nat -> Attempt V)
    (maxRetries k : nat) (v : V) :
  (k < maxRetries)%nat ->
  fn k = Resolves v ->
  forall (d i remaining : nat),
    (i + d = k)%nat -> (i + remaining = maxRetries)%nat ->
    (forall j, (i <= j < k)%nat -> exists e, fn j = Throws e) ->
    let r := withRetryFrom fn maxRetries remaining i in
    retryOutcome r = RetryReturns v /\
    retryCalls r = S d /\
    retryWaits r = map backoff (seq i d).
Proof.
  intros Hk Hv. induction d as [| d IH]; intros i remaining Hd Hrem Hfail r.
  - assert (i = k) by lia. subst i.
    destruct remaining as [| remaining']; [lia |].
    unfold r. simpl. rewrite Hv. simpl. auto.
  - destruct remaining as [| remaining']; [lia |].
    destruct (Hfail i) as [e He]; [lia |].
    unfold r. simpl. rewrite He.
    destruct (Nat.eqb_spec i (maxRetries - 1)) as [Hlast | _]; [lia |].
    destruct (IH (S i) remaining') as (Ho & Hc & Hw); try lia.
    { intros j Hj. apply Hfail. lia. }
    simpl. rewrite Ho, Hc, Hw. auto.
Qed.

(** X1. When the first [k] calls of [fn] throw and call [k] (counted from
    0, [k < maxRetries]) resolves, [withRetry] returns that value after
    exactly [k + 1] calls, having slept 1000, 2000, ..., [2^(k-1) * 1000]
    milliseconds in between. *)
Theorem withRetry_first_success {V : Type} (fn : nat -> Attempt V)
    (maxRetries k : nat) (v : V) :
  (k < maxRetries)%nat ->
  (forall j, (j < k)%nat -> exists e, fn j = Throws e) ->
  fn k = Resolves v ->
  retryOutcome (withRetry fn maxRetries) = RetryReturns v /\
  retryCalls (withRetry fn maxRetries) = S k /\
  retryWaits (withRetry fn maxRetries) = map backoff (seq 0 k).
Proof.
  intros Hk Hfail Hv.
  apply (withRetryFrom_succeeds fn maxRetries k v Hk Hv k 0%nat maxRetries);
    try lia.
  intros j Hj. apply Hfail. lia.
Qed.

Lemma withRetry_first_success_witness :
  retryOutcome (withRetry flakyFn 3) = RetryReturns "ok" /\
  retryCalls (withRetry flakyFn 3) = 3%nat /\
  retryWaits (withRetry flakyFn 3) = [1000; 2000].
Proof.
  apply (withRetry_first_success flakyFn 3 2 "ok").
  - lia.
  - intros [| [| j]] Hj; [now exists "timeout" | now exists "reset" | lia].
  - reflexivity.
Defined.

Lemma withRetryFrom_exhausts {V : Type} (fn : nat -> Attempt V)
    (maxRetries : nat) (last : string) :
  (0 < maxRetries)%nat ->
  (forall j, (j < maxRetries)%nat -> exists e, fn j = Throws e) ->
  fn (maxRetries - 1)%nat = Throws last ->
  forall (remaining i : nat),
    (0 < remaining)%nat -> (i + remaining = maxRetries)%nat ->
    let r := withRetryFrom fn maxRetries remaining i in
    retryOutcome r = RetryThrows last /\
    retryCalls r = remaining /\
    retryWaits r = map backoff (seq i (remaining - 1)).
Proof.
  intros Hpos Hfail Hlast. induction remaining as [| remaining' IH];
    intros i Hr Hrem r; [lia |].
  destruct (Hfail i) as [e He]; [lia |].
  unfold r. simpl. rewrite He.
  destruct (Nat.eqb_spec i (maxRetries - 1)) as [Hi | Hi].
  - assert (remaining' = 0%nat) by lia. subst remaining'.
    rewrite Hi, Hlast in He. inversion He; subst e. simpl. auto.
  - destruct (IH (S i)) as (Ho & Hc & Hw); try lia.
    simpl. rewrite Ho, Hc, Hw.
    destruct remaining' as [| n]; [lia |].
    simpl. rewrite Nat.sub_0_r. auto.
Qed.

(** X2. When all [maxRetries] calls throw, [withRetry] rejects with the
    error of the last call, after exactly [maxRetries] calls; it sleeps
    between the calls but not after the last one. *)
Theorem withRetry_exhausted {V : Type} (fn : nat -> Attempt V)
    (maxRetries : nat) (last : string) :
  (0 < maxRetries)%nat ->
  (forall j, (j < maxRetries)%nat -> exists e, fn j = Throws e) ->
  fn (maxRetries - 1)%nat = Throws last ->
  retryOutcome (withRetry fn maxRetries) = RetryThrows (V := V) last /\
  retryCalls (withRetry fn maxRetries) = maxRetries /\
  retryWaits (withRetry fn maxRetries) = map backoff (seq 0 (maxRetries - 1)).
Proof.
  intros Hpos Hfail Hlast.
  apply (withRetryFrom_exhausts fn maxRetries last Hpos Hfail Hlast maxRetries 0%nat);
    lia.
Qed.

Lemma withRetry_exhausted_witness :
  retryOutcome (withRetry failingFn 3) = RetryThrows "error 2" /\
  retryCalls (withRetry failingFn 3) = 3%nat /\
  retryWaits (withRetry failingFn 3) = [1000; 2000].
Proof.
  apply (withRetry_exhausted failingFn 3 "error 2").
  - lia.
  - intros j _. eexists. reflexivity.
  - reflexivity.
Defined.





(* --------------------------------------------------------------------- *)
(** ** The routine checklist                                               *)
(* --------------------------------------------------------------------- *)

Lemma existsb_eqb_elem_of (x : string) (l : list string) :
  existsb (String.eqb x) l = bool_decide (x ∈ l).
Proof.
  induction l as [| y l IH].
  - cbn [existsb]. case_bool_decide as Hin; [| reflexivity].
    now apply not_elem_of_nil in Hin.
  - cbn [existsb]. rewrite IH.
    destruct (String.eqb_spec x y) as [-> | Hne]; cbn [orb].
    + symmetry. apply bool_decide_eq_true. left.
    + apply bool_decide_ext. rewrite elem_of_cons. tauto.
Qed.

Lemma indexOf_None (id : string) (l : list string) :
  indexOf id l = None <-> id ∉ l.
Proof.
  induction l as [| y l IH]; simpl.
  - split; [intros _; apply not_elem_of_nil | reflexivity].
  - rewrite not_elem_of_cons.
    destruct (String.eqb_spec y id) as [-> | Hne].
    + split; [discriminate | tauto].
    + destruct (indexOf id l); simpl.
      * split; [discriminate |]. intros [_ Hnot]. now apply IH in Hnot.
      * split; [| reflexivity]. intros _. split; [congruence | now apply IH].
Qed.

Lemma indexOf_Some (id : string) (l : list string) (k : nat) :
  indexOf id l = Some k -> l !! k = Some id.
Proof.
  revert k. induction l as [| y l IH]; intros k; simpl; [discriminate |].
  destruct (String.eqb_spec y id) as [-> | Hne].
  - intros [= <-]. reflexivity.
  - destruct (indexOf id l) as [k' |]; simpl; [| discriminate].
    intros [= <-]. now apply IH.
Qed.

Lemma delete_NoDup_spec (id : string) (l : list string) (k : nat) :
  NoDup l -> l !! k = Some id ->
  NoDup (delete k l) /\ forall x, x ∈ delete k l <-> x <> id /\ x ∈ l.
Proof.
  intros Hnd Hk.
  rewrite delete_take_drop.
  rewrite <- (take_drop_middle l k id Hk) in Hnd.
  apply NoDup_app in Hnd as (Hnd1 & Hdisj & Hnd2).
  apply NoDup_cons in Hnd2 as [Hid Hnd2].
  split.
  - apply NoDup_app. repeat split; try assumption.
    intros x Hx Hx'. apply (Hdisj x Hx). now right.
  - intros x.
    rewrite <- (take_drop_middle l k id Hk) at 3.
    rewrite !elem_of_app, elem_of_cons. split.
    + intros [Hx | Hx].
      * split; [| now left]. intros ->. apply (Hdisj id Hx). now left.
      * split; [| now right; right]. intros ->. contradiction.
    + intros [Hne [Hx | [-> | Hx]]]; [now left | contradiction | now right].
Qed.

(** In an array without repeated ids the toggle removes the id if it is
    there and appends it if it is not, and touches no other id. *)
Lemma toggledBlock_spec (id : string) (block : list string) :
  NoDup block ->
  NoDup (toggledBlock id block) /\
  forall x, x ∈ toggledBlock id block <->
            (x = id /\ id ∉ block) \/ (x <> id /\ x ∈ block).
Proof.
  intros Hnd. unfold toggledBlock.
  destruct (indexOf id block) as [k |] eqn:Hidx.
  - apply indexOf_Some in Hidx.
    destruct (delete_NoDup_spec id block k Hnd Hidx) as [Hnd' Hmem].
    split; [exact Hnd' |]. intros x. rewrite Hmem.
    assert (Hin : id ∈ block) by (eapply list_elem_of_lookup_2; eassumption).
    tauto.
  - apply indexOf_None in Hidx. split.
    + apply NoDup_app. repeat split; [exact Hnd | | apply NoDup_singleton].
      intros x Hx ->%list_elem_of_singleton. contradiction.
    + intros x. rewrite elem_of_app, list_elem_of_singleton.
      destruct (decide (x = id)) as [-> | Hne]; tauto.
Qed.

Lemma isChecked_at (heap : ArrayHeap) (st : list nat) (j ref : nat)
    (block : list string) (x : string) :
  st !! j = Some ref -> heap !! ref = Some block ->
  isChecked heap st j x = Some (bool_decide (x ∈ block)).
Proof.
  intros Hj Hr. unfold isChecked. rewrite Hj. simpl. rewrite Hr. simpl.
  now rewrite existsb_eqb_elem_of.
Qed.

(** One call of the updater on a well-formed state. *)
Lemma handleCheck_step (i : nat) (id : string) (heap : ArrayHeap)
    (st : list nat) (ref : nat) :
  RoutineWf heap st -> st !! i = Some ref ->
  exists block,
    heap !! ref = Some block /\
    handleCheck i id heap st = Some (<[ref := toggledBlock id block]> heap, st) /\
    RoutineWf (<[ref := toggledBlock id block]> heap) st /\
    forall (j : nat) (x : string),
      isChecked (<[ref := toggledBlock id block]> heap) st j x =
        if decide (j = i /\ x = id) then negb <$> isChecked heap st j x
        else isChecked heap st j x.
Proof.
  intros [Hnd Hblocks] Hi.
  destruct (Hblocks ref) as (block & Hblock & Hndb);
    [eapply list_elem_of_lookup_2; eassumption |].
  destruct (toggledBlock_spec id block Hndb) as [Hnd' Hmem].
  exists block. split; [exact Hblock |]. split; [| split].
  - unfold handleCheck, toggledBlock. rewrite Hi, Hblock.
    now destruct (indexOf id block).
  - split; [exact Hnd |]. intros r Hr.
    destruct (decide (r = ref)) as [-> | Hne].
    + exists (toggledBlock id block). now rewrite lookup_insert_eq.
    + rewrite lookup_insert_ne by congruence. now apply Hblocks.
  - intros j x. destruct (st !! j) as [r |] eqn:Hj.
    + destruct (decide (r = ref)) as [-> | Hne].
      * assert (j = i) by exact (NoDup_lookup st j i ref Hnd Hj Hi). subst j.
        rewrite (isChecked_at _ st i ref (toggledBlock id block) x Hi)
          by apply lookup_insert_eq.
        rewrite (isChecked_at heap st i ref block x Hi Hblock).
        destruct (decide (i = i /\ x = id)) as [[_ ->] | Hno]; simpl; f_equal.
        -- rewrite <- bool_decide_not. apply bool_decide_ext.
           rewrite Hmem. tauto.
        -- assert (x <> id) by tauto.
           apply bool_decide_ext. rewrite Hmem. tauto.
      * assert (j <> i) by (intros ->; congruence).
        destruct (decide (j = i /\ x = id)) as [[? _] | _]; [contradiction |].
        unfold isChecked. rewrite Hj. simpl.
        now rewrite lookup_insert_ne by congruence.
    + assert (j <> i) by (intros ->; congruence).
      destruct (decide (j = i /\ x = id)) as [[? _] | _]; [contradiction |].
      unfold isChecked. now rewrite Hj.
Qed.

(** X4. On a check state whose blocks are distinct arrays without
    repeated ids, [handleCheck] for a block of the template flips the mark
    of the one activity it is called for, leaves every other mark in every
    block as it was and keeps the state well-formed; for a block index
    outside the state it fails with the [TypeError] and changes nothing. *)
Theorem handleCheck_flips_one_mark (i : nat) (id : string)
    (heap : ArrayHeap) (st : list nat) :
  RoutineWf heap st ->
  ((i < length st)%nat ->
   exists heap',
     handleCheck i id heap st = Some (heap', st) /\
     RoutineWf heap' st /\
     forall (j : nat) (x : string),
       isChecked heap' st j x =
         if decide (j = i /\ x = id) then negb <$> isChecked heap st j x
         else isChecked heap st j x) /\
  ((length st <= i)%nat -> handleCheck i id heap st = None).
Proof.
  intros Hwf. split.
  - intros Hlt. destruct (lookup_lt_is_Some_2 st i Hlt) as [ref Hi].
    destruct (handleCheck_step i id heap st ref Hwf Hi)
      as (block & _ & Hcall & Hwf' & Hmarks).
    eauto.
  - intros Hge. unfold handleCheck. now rewrite lookup_ge_None_2.
Qed.

(** X5. Calling [handleCheck] twice for the same activity brings every
    mark back to what it was (the id may have moved to the end of its
    block's array). *)
Theorem handleCheck_twice_restores (i : nat) (id : string)
    (heap : ArrayHeap) (st : list nat) :
  RoutineWf heap st -> (i < length st)%nat ->
  exists heap1 heap2,
    handleCheck i id heap st = Some (heap1, st) /\
    handleCheck i id heap1 st = Some (heap2, st) /\
    forall (j : nat) (x : string),
      isChecked heap2 st j x = isChecked heap st j x.
Proof.
  intros Hwf Hlt. destruct (lookup_lt_is_Some_2 st i Hlt) as [ref Hi].
  destruct (handleCheck_step i id heap st ref Hwf Hi)
    as (block & _ & Hcall1 & Hwf1 & Hmarks1).
  destruct (handleCheck_step i id _ st ref Hwf1 Hi)
    as (block1 & _ & Hcall2 & _ & Hmarks2).
  eexists _, _. split; [exact Hcall1 |]. split; [exact Hcall2 |].
  intros j x. rewrite Hmarks2, Hmarks1.
  destruct (decide (j = i /\ x = id)); [| reflexivity].
  destruct (isChecked heap st j x) as [[|] |]; reflexivity.
Qed.

Lemma allocBlocks_refs (blocks : list (list string)) (next : nat) :
  snd (allocBlocks blocks next) = seq next (length blocks).
Proof.
  revert next. induction blocks as [| b blocks IH]; intros next; simpl.
  - reflexivity.
  - now rewrite IH.
Qed.

Lemma allocBlocks_below (blocks : list (list string)) (next r : nat) :
  (r < next)%nat -> fst (allocBlocks blocks next) !! r = None.
Proof.
  revert next. induction blocks as [| b blocks IH]; intros next Hr; simpl.
  - apply lookup_empty.
  - rewrite lookup_insert_ne by lia. apply IH. lia.
Qed.

Lemma allocBlocks_lookup (blocks : list (list string)) (next k : nat) :
  fst (allocBlocks blocks next) !! (next + k)%nat = blocks !! k.
Proof.
  revert next k. induction blocks as [| b blocks IH]; intros next k; simpl.
  - apply lookup_empty.
  - destruct k as [| k]; simpl.
    + rewrite Nat.add_0_r. apply lookup_insert_eq.
    + rewrite lookup_insert_ne by lia.
      replace (next + S k)%nat with (S next + k)%nat by lia. apply IH.
Qed.

Lemma initialCheckedState_wf (routines : list (string * string * list string)) :
  Forall (fun r => NoDup (snd r)) routines ->
  RoutineWf (fst (initialCheckedState routines)) (snd (initialCheckedState routines)).
Proof.
  intros Hnd. unfold initialCheckedState. rewrite allocBlocks_refs. split.
  - apply NoDup_seq.
  - intros ref Href. apply elem_of_seq in Href as [_ Href].
    rewrite length_map in Href. simpl in Href.
    destruct (lookup_lt_is_Some_2 routines ref Href) as [[[cat tm] ids] Hr].
    exists ids. split.
    + rewrite <- (Nat.add_0_l ref) at 1. rewrite allocBlocks_lookup.
      rewrite list_lookup_fmap, Hr. reflexivity.
    + rewrite Forall_forall in Hnd.
      apply (Hnd (cat, tm, ids)). eapply list_elem_of_lookup_2; eassumption.
Qed.

Lemma dailyRoutines_distinct : Forall (fun r => NoDup (snd r)) dailyRoutines.
Proof. apply (bool_decide_unpack _). vm_compute. exact I. Qed.

(** X6. At mount the check state has one array per block of the
    template, and an activity reads as checked exactly when it belongs to
    the block: every activity of the template starts checked. The state is
    well-formed when no block lists an id twice, as is the case for the
    template of the component. *)
Theorem initial_state_all_checked (routines : list (string * string * list string)) :
  let heap := fst (initialCheckedState routines) in
  let st := snd (initialCheckedState routines) in
  length st = length routines /\
  (forall (i : nat) (cat tm : string) (ids : list string) (x : string),
      routines !! i = Some (cat, tm, ids) ->
      isChecked heap st i x = Some (bool_decide (x ∈ ids))) /\
  (Forall (fun r => NoDup (snd r)) routines -> RoutineWf heap st) /\
  RoutineWf (fst (initialCheckedState dailyRoutines))
            (snd (initialCheckedState dailyRoutines)).
Proof.
  intros heap st. unfold heap, st, initialCheckedState.
  rewrite allocBlocks_refs, length_seq, length_map.
  split; [reflexivity |]. split; [| split].
  - intros i cat tm ids x Hi.
    apply (isChecked_at _ _ i i ids x).
    + apply lookup_seq. split; [reflexivity |].
      eapply lookup_lt_Some; eassumption.
    + rewrite <- (Nat.add_0_l i) at 1. rewrite allocBlocks_lookup.
      rewrite list_lookup_fmap, Hi. reflexivity.
  - intros Hnd. pose proof (initialCheckedState_wf routines Hnd) as Hwf.
    unfold initialCheckedState in Hwf.
    now rewrite allocBlocks_refs, length_map in Hwf.
  - pose proof (initialCheckedState_wf dailyRoutines dailyRoutines_distinct) as Hwf.
    unfold initialCheckedState in Hwf. exact Hwf.
Qed.

Lemma initial_state_all_checked_witness :
  isChecked (fst (initialCheckedState dailyRoutines))
            (snd (initialCheckedState dailyRoutines)) 1 "s3" = Some true.
Proof.
  destruct (initial_state_all_checked dailyRoutines) as (_ & Hmarks & _).
  rewrite (Hmarks 1%nat "SIANG" "09:00 - 13:00" ["s1"; "s2"; "s3"; "s4"; "s5"] "s3")
    by reflexivity.
  reflexivity.
Defined.

Lemma handleCheck_flips_one_mark_witness :
  exists heap',
    handleCheck 1 "s3" (fst (initialCheckedState dailyRoutines))
      (snd (initialCheckedState dailyRoutines))
    = Some (heap', snd (initialCheckedState dailyRoutines)) /\
    isChecked heap' (snd (initialCheckedState dailyRoutines)) 1 "s3" = Some false /\
    isChecked heap' (snd (initialCheckedState dailyRoutines)) 1 "s4" = Some true.
Proof.
  destruct (handleCheck_flips_one_mark 1 "s3" _ _
              (initialCheckedState_wf dailyRoutines dailyRoutines_distinct))
    as [Hin _].
  destruct Hin as (heap' & Hcall & _ & Hmarks); [simpl; lia |].
  exists heap'. split; [exact Hcall |]. split.
  - rewrite Hmarks. reflexivity.
  - rewrite Hmarks. reflexivity.
Defined.

Lemma handleCheck_twice_restores_witness :
  exists heap1 heap2,
    handleCheck 0 "p2" (fst (initialCheckedState dailyRoutines))
      (snd (initialCheckedState dailyRoutines))
    = Some (heap1, snd (initialCheckedState dailyRoutines)) /\
    handleCheck 0 "p2" heap1 (snd (initialCheckedState dailyRoutines))
    = Some (heap2, snd (initialCheckedState dailyRoutines)) /\
    isChecked heap2 (snd (initialCheckedState dailyRoutines)) 0 "p2" = Some true.
Proof.
  destruct (handleCheck_twice_restores 0 "p2" _ _
              (initialCheckedState_wf dailyRoutines dailyRoutines_distinct))
    as (heap1 & heap2 & H1 & H2 & Hmarks); [simpl; lia |].
  exists heap1, heap2. split; [exact H1 |]. split; [exact H2 |].
  rewrite Hmarks. reflexivity.
Defined.

(* --------------------------------------------------------------------- *)
(** ** The focus timer                                                     *)
(* --------------------------------------------------------------------- *)

(** Committing new cells on top of a settled timer settles again: the
    cells stay as set, except that a timer set to zero is switched off. *)
Lemma commitFocus_setCells (s : Focus) (p : bool) (t : Z) (a : bool) :
  FocusInv s ->
  0 <= t <= (if p then 25 * 60 else 5 * 60) ->
  let s' := commitFocus (setCells p t a s) in
  FocusInv s' /\
  isPomodoro s' = p /\ time s' = t /\ isActive s' = a && negb (t =? 0).
Proof.
  intros [Hb Hi Hz Hd] Ht.
  destruct s as [p0 t0 a0 i0 d0 l0]. unfold sessionLength in Hb.
  simpl in Hb, Hi, Hz, Hd. subst d0.
  unfold commitFocus, commitFocusOnce, focusEffect, setCells; simpl.
  destruct a; destruct (Z.ltb_spec 0 t); destruct (Z.eqb_spec t 0);
    try lia; simpl;
    repeat (case_decide; simpl); simplify_eq/=.
  all: try (destruct (Z.ltb_spec 0 0); [lia |]);
       try (destruct (Z.ltb_spec 0 t); try lia);
       try (destruct (Z.eqb_spec t 0); try lia); simpl.
  all: split; [split |]; simpl; unfold sessionLength; simpl;
       try lia; try reflexivity; try tauto; try (intros; lia);
       try (destruct p; lia).
Qed.

Lemma FocusInv_init : FocusInv (commitFocus initFocus).
Proof.
  split; vm_compute; try reflexivity; try discriminate.
  split; discriminate.
Qed.

Lemma commitFocus_settled (s : Focus) : FocusInv s -> commitFocus s = s.
Proof.
  intros [_ _ _ Hd]. unfold commitFocus, commitFocusOnce.
  destruct (decide (focusDeps s = Some (isActive s, time s, isPomodoro s)));
    [| contradiction].
  destruct (decide (focusDeps s = Some (isActive s, time s, isPomodoro s)));
    [reflexivity | contradiction].
Qed.

Lemma FocusInv_step (s : Focus) (e : FocusEvent) :
  FocusInv s -> FocusInv (focusStep s e).
Proof.
  intros HI. pose proof HI as [Hb Hi Hz Hd]. unfold sessionLength in Hb.
  destruct e; unfold focusStep.
  - apply (commitFocus_setCells s (isPomodoro s) (time s) (negb (isActive s)) HI).
    exact Hb.
  - apply (commitFocus_setCells s (isPomodoro s)
             (if isPomodoro s then 25 * 60 else 5 * 60) false HI).
    destruct (isPomodoro s); lia.
  - apply (commitFocus_setCells s (negb (isPomodoro s))
             (if isPomodoro s then 5 * 60 else 25 * 60) false HI).
    destruct (isPomodoro s); simpl; lia.
  - unfold tick. destruct (interval s) eqn:Hint.
    + apply (commitFocus_setCells s (isPomodoro s) (time s - 1) (isActive s) HI).
      symmetry in Hi. apply andb_true_iff in Hi as [_ Hpos].
      apply Z.ltb_lt in Hpos. lia.
    + now rewrite commitFocus_settled.
Qed.

Lemma FocusInv_run (es : list FocusEvent) : FocusInv (focusRun es).
Proof.
  unfold focusRun. generalize FocusInv_init.
  generalize (commitFocus initFocus).
  induction es as [| e es IH]; intros s Hs; simpl.
  - exact Hs.
  - apply IH, FocusInv_step, Hs.
Qed.

(** X7. Whatever the user clicks and whenever the interval fires, the
    remaining time stays between 0 and the length of the session of the
    current mode (1500 or 300 seconds), the interval is registered exactly
    while the timer is active with time left, and a timer at zero is never
    active. *)
Theorem focus_timer_invariant (es : list FocusEvent) :
  let s := focusRun es in
  0 <= time s <= (if isPomodoro s then 1500 else 300) /\
  (interval s = true <-> isActive s = true /\ 0 < time s) /\
  (time s = 0 -> isActive s = false).
Proof.
  intros s. destruct (FocusInv_run es) as [Hb Hi Hz _]. fold s in Hb, Hi, Hz.
  unfold sessionLength in Hb.
  split; [destruct (isPomodoro s); lia |]. split; [| exact Hz].
  rewrite Hi, andb_true_iff, Z.ltb_lt. tauto.
Qed.

Lemma focus_timer_invariant_witness :
  time (focusRun [ClickStartPause; IntervalFires; IntervalFires; ClickSwitchMode]) = 300 /\
  isActive (focusRun (ClickStartPause :: repeat IntervalFires 1500)) = false.
Proof.
  split; [reflexivity |].
  destruct (focus_timer_invariant (ClickStartPause :: repeat IntervalFires 1500))
    as (_ & _ & Hz).
  apply Hz. vm_compute. reflexivity.
Defined.

Lemma focus_tick_active (s : Focus) :
  FocusInv s -> isActive s = true ->
  let s' := focusStep s IntervalFires in
  FocusInv s' /\ time s' = time s - 1 /\ isPomodoro s' = isPomodoro s /\
  isActive s' = negb (time s - 1 =? 0).
Proof.
  intros HI Ha. pose proof HI as [Hb Hi Hz _].
  assert (Hpos : 0 < time s).
  { destruct (Z.eq_dec (time s) 0) as [H0 | H0]; [| lia].
    rewrite (Hz H0) in Ha. discriminate. }
  assert (Hint : interval s = true).
  { rewrite Hi, Ha. simpl. now apply Z.ltb_lt. }
  cbv zeta. unfold focusStep, tick. rewrite Hint.
  destruct (commitFocus_setCells s (isPomodoro s) (time s - 1) (isActive s) HI)
    as (HI' & Hp & Ht & Hact).
  { unfold sessionLength in Hb. lia. }
  split; [exact HI' |]. split; [exact Ht |]. split; [exact Hp |].
  rewrite Hact, Ha. reflexivity.
Qed.

Lemma focus_ticks_active (k : nat) (s : Focus) :
  FocusInv s -> isActive s = true -> (k <= Z.to_nat (time s))%nat ->
  let s' := fold_left focusStep (repeat IntervalFires k) s in
  FocusInv s' /\ time s' = time s - Z.of_nat k /\
  isPomodoro s' = isPomodoro s /\ isActive s' = negb (time s' =? 0).
Proof.
  revert s. induction k as [| k IH]; intros s HI Ha Hk; cbn [repeat fold_left];
    cbv zeta.
  - split; [exact HI |]. split; [lia |]. split; [reflexivity |].
    rewrite Ha. destruct (Z.eqb_spec (time s) 0) as [H0 | _]; [| reflexivity].
    rewrite (focus_zero s HI H0) in Ha. discriminate.
  - destruct (focus_tick_active s HI Ha) as (HI' & Ht & Hp & Hact).
    destruct (Z.eqb_spec (time s - 1) 0) as [H0 | H0]; simpl in Hact.
    + assert (k = 0%nat) by lia. subst k. cbn [repeat fold_left].
      split; [exact HI' |]. split; [lia |]. split; [exact Hp |].
      rewrite Hact, Ht. now rewrite (proj2 (Z.eqb_eq _ _) H0).
    + destruct (IH (focusStep s IntervalFires) HI' Hact) as (HI2 & Ht2 & Hp2 & Ha2);
        [lia |].
      split; [exact HI2 |]. split; [lia |]. split; [congruence | exact Ha2].
Qed.

(** X8. The clock runs only while the timer is started: an interval
    that fires while the timer is paused or finished changes nothing. Once
    started, every firing takes one second off, the mode stays the same,
    and with the last second the timer switches itself off and drops its
    interval, so a session of [n] seconds ends after exactly [n] firings. *)
Theorem focus_countdown (es : list FocusEvent) (k : nat) :
  let s := focusRun es in
  (isActive s = false -> focusStep s IntervalFires = s) /\
  (isActive s = true -> (k <= Z.to_nat (time s))%nat ->
   let s' := fold_left focusStep (repeat IntervalFires k) s in
   time s' = time s - Z.of_nat k /\
   isPomodoro s' = isPomodoro s /\
   isActive s' = negb (time s' =? 0) /\
   interval s' = negb (time s' =? 0)).
Proof.
  intros s. pose proof (FocusInv_run es) as HI. fold s in HI. split.
  - intros Ha. unfold focusStep, tick.
    rewrite (focus_interval s HI), Ha. simpl.
    now apply commitFocus_settled.
  - intros Ha Hk s'.
    destruct (focus_ticks_active k s HI Ha Hk) as (HI' & Ht & Hp & Hact).
    fold s' in HI', Ht, Hp, Hact.
    repeat split; try assumption.
    rewrite (focus_interval s' HI'), Hact.
    destruct (Z.eqb_spec (time s') 0) as [H0 | H0]; simpl; [reflexivity |].
    apply Z.ltb_lt. pose proof (focus_bounds s' HI'). lia.
Qed.

Lemma focus_countdown_witness :
  let s := focusRun [ClickSwitchMode; ClickStartPause] in
  time (fold_left focusStep (repeat IntervalFires 300) s) = 0 /\
  isActive (fold_left focusStep (repeat IntervalFires 300) s) = false.
Proof.
  intros s.
  destruct (focus_countdown [ClickSwitchMode; ClickStartPause] 300) as [_ Hrun].
  destruct Hrun as (Ht & _ & Ha & _).
  - reflexivity.
  - vm_compute. lia.
  - fold s in Ht, Ha. split.
    + rewrite Ht. reflexivity.
    + rewrite Ha, Ht. reflexivity.
Defined.

Lemma padStart2_check :
  forallb (fun k => String.eqb (padStart2 (Z.of_nat k)) (twoDigits (Z.of_nat k)))
          (seq 0 100) = true.
Proof. vm_compute. reflexivity. Qed.

Lemma padStart2_twoDigits (n : Z) :
  0 <= n < 100 -> padStart2 n = twoDigits n.
Proof.
  intros Hn. pose proof padStart2_check as Hall.
  rewrite forallb_forall in Hall.
  specialize (Hall (Z.to_nat n)).
  rewrite Z2Nat.id in Hall by lia.
  apply String.eqb_eq, Hall. apply in_seq. lia.
Qed.

Lemma digitChar_inj (a b : Z) :
  0 <= a < 10 -> 0 <= b < 10 -> digitChar a = digitChar b -> a = b.
Proof.
  intros Ha Hb Heq. unfold digitChar in Heq.
  apply pretty_N_char_inj in Heq; lia.
Qed.

Lemma twoDigits_inj (a b : Z) :
  0 <= a < 100 -> 0 <= b < 100 -> twoDigits a = twoDigits b -> a = b.
Proof.
  intros Ha Hb Heq. unfold twoDigits in Heq.
  injection Heq as H1 H2.
  apply digitChar_inj in H1; [| split; [apply Z.div_pos | apply Z.div_lt_upper_bound]; lia ..].
  apply digitChar_inj in H2; [| apply Z.mod_pos_bound; lia ..].
  rewrite (Z.div_mod a 10), (Z.div_mod b 10) by lia. lia.
Qed.

(** X9. For every time below 100 minutes, and so for every time the
    timer can show, [formatTime] gives the five characters [MM:SS], the
    minutes and seconds in two decimal digits each; different times read
    differently. *)
Theorem formatTime_clock_face (seconds : Z) :
  0 <= seconds < 6000 ->
  formatTime seconds =
    twoDigits (seconds / 60) +:+ ":" +:+ twoDigits (seconds mod 60) /\
  String.length (formatTime seconds) = 5%nat /\
  forall other : Z,
    0 <= other < 6000 -> formatTime other = formatTime seconds ->
    other = seconds.
Proof.
  assert (Hshape : forall s, 0 <= s < 6000 ->
            formatTime s = twoDigits (s / 60) +:+ ":" +:+ twoDigits (s mod 60)).
  { intros s Hs. unfold formatTime.
    rewrite Z.rem_mod_nonneg by lia.
    rewrite !padStart2_twoDigits; [reflexivity | |].
    - pose proof (Z.mod_pos_bound s 60). lia.
    - split; [apply Z.div_pos; lia | apply Z.div_lt_upper_bound; lia]. }
  intros Hs. split; [now apply Hshape |]. split.
  - rewrite Hshape by exact Hs. reflexivity.
  - intros other Ho Heq. rewrite !Hshape in Heq by assumption.
    unfold twoDigits in Heq. cbn in Heq.
    injection Heq as Hm1 Hm2 Hs1 Hs2.
    assert (Hmin : other / 60 = seconds / 60).
    { apply twoDigits_inj;
        [split; [apply Z.div_pos | apply Z.div_lt_upper_bound]; lia ..|].
      unfold twoDigits. now rewrite Hm1, Hm2. }
    assert (Hsec : other mod 60 = seconds mod 60).
    { pose proof (Z.mod_pos_bound other 60).
      pose proof (Z.mod_pos_bound seconds 60).
      apply twoDigits_inj; [lia .. |].
      unfold twoDigits. now rewrite Hs1, Hs2. }
    rewrite (Z.div_mod other 60), (Z.div_mod seconds 60) by lia. lia.
Qed.

Lemma formatTime_clock_face_witness :
  formatTime 1500 = "25:00" /\ formatTime 61 = "01:01" /\
  String.length (formatTime 299) = 5%nat.
Proof.
  split; [reflexivity |]. split; [reflexivity |].
  destruct (formatTime_clock_face 299) as (_ & Hlen & _); [lia | exact Hlen].
Defined.

(* --------------------------------------------------------------------- *)
(** ** The dashboard and the badge                                         *)
(* --------------------------------------------------------------------- *)

Lemma fold_max_streak (hs : list Habit) (start : Z) :
  let m := fold_left (fun max habit => Z.max max (streak habit)) hs start in
  start <= m /\
  (forall h, h ∈ hs -> streak h <= m) /\
  (m = start \/ exists h, h ∈ hs /\ streak h = m).
Proof.
  revert start. induction hs as [| h hs IH]; intros start; simpl.
  - split; [lia |]. split; [| now left].
    intros h Hh. now apply not_elem_of_nil in Hh.
  - destruct (IH (Z.max start (streak h))) as (Hle & Hub & Hatt).
    split; [lia |]. split.
    + intros h' Hh'. apply elem_of_cons in Hh' as [-> | Hin]; [lia | now apply Hub].
    + destruct Hatt as [Heq | (h' & Hin & Heq)].
      * destruct (Z.max_spec start (streak h)) as [[_ Hm] | [_ Hm]].
        -- right. exists h. split; [left | congruence].
        -- left. congruence.
      * right. exists h'. split; [now right | exact Heq].
Qed.

(** X10. The longest streak shown on the dashboard is never negative, is
    at least the streak of every habit, and is either 0 or the streak of
    one of the habits. *)
Theorem longestStreak_is_maximum (hs : list Habit) :
  0 <= longestStreak hs /\
  (forall h, h ∈ hs -> streak h <= longestStreak hs) /\
  (longestStreak hs = 0 \/ exists h, h ∈ hs /\ streak h = longestStreak hs).
Proof. apply (fold_max_streak hs 0). Qed.

Lemma longestStreak_is_maximum_witness :
  streak (habitAt 5 "2026-03-01" false)
    <= longestStreak [habitAt 2 "2026-03-01" true; habitAt 5 "2026-03-01" false].
Proof.
  destruct (longestStreak_is_maximum
              [habitAt 2 "2026-03-01" true; habitAt 5 "2026-03-01" false])
    as (_ & Hub & _).
  apply Hub. right. left.
Defined.

Lemma filter_split_length {A : Type} (keep : A -> bool) (l : list A) :
  (length (List.filter keep l) + length (List.filter (fun x => negb (keep x)) l)
   = length l)%nat.
Proof.
  induction l as [| x l IH]; simpl; [reflexivity |].
  destruct (keep x); simpl; lia.
Qed.

(** X11. On the dashboard the count of completed tasks never exceeds the
    total, the count of habits checked today never exceeds the number of
    habits, and the list of top priorities has as many entries as there are
    uncompleted tasks, up to three. *)
Theorem dashboard_counters (ts : list Task) (hs : list Habit) :
  (dashCompletedTasks ts <= dashTotalTasks ts)%nat /\
  (todayHabits hs <= totalHabits hs)%nat /\
  length (top3Priorities ts) =
    Nat.min 3 (dashTotalTasks ts - dashCompletedTasks ts).
Proof.
  unfold dashCompletedTasks, dashTotalTasks, todayHabits, totalHabits.
  pose proof (filter_split_length (fun t => completed t) ts) as Hts.
  pose proof (filter_split_length (fun h => checkedToday h) hs) as Hhs.
  cbv beta in Hts, Hhs.
  split; [lia |]. split; [lia |].
  unfold top3Priorities. rewrite length_take.
  rewrite (Permutation_length (js_sort_Permutation urgentFirst _)). lia.
Qed.

Lemma getBadge_monotone (a b : Z) :
  a <= b -> badgeRank (getBadge a) <= badgeRank (getBadge b).
Proof.
  intros Hab. unfold getBadge.
  repeat (match goal with
          | |- context [?x <=? ?y] => destruct (Z.leb_spec x y)
          end); simpl; lia.
Qed.

Lemma getBadge_step (a : Z) :
  badgeRank (getBadge (a + 1)) <= badgeRank (getBadge a) + 1.
Proof.
  unfold getBadge.
  repeat (match goal with
          | |- context [?x <=? ?y] => destruct (Z.leb_spec x y)
          end); simpl; lia.
Qed.

(** X12. A toggle moves the badge of a habit by at most one tier:
    checking never lowers it, unchecking never raises it. The tiers are
    seedling, fire (from 3), star (from 7) and crown (from 30). *)
Theorem toggle_moves_badge_one_tier (today : string) (h : Habit) :
  let before := badgeRank (getBadge (streak h)) in
  let after := badgeRank (getBadge (streak (toggled today h))) in
  (checkedToday h = false -> before <= after <= before + 1) /\
  (checkedToday h = true -> before - 1 <= after <= before).
Proof.
  intros before after. unfold before, after. split; intros Hc.
  - rewrite (toggled_streak_check today h Hc).
    destruct (String.eqb _ _); [lia |].
    pose proof (getBadge_monotone (streak h) (streak h + 1)).
    pose proof (getBadge_step (streak h)). lia.
  - rewrite (toggled_streak_uncheck today h Hc).
    destruct (String.eqb _ _); [| lia].
    destruct (Z.max_spec 0 (streak h - 1)) as [[Hlt ->] | [Hge ->]].
    + pose proof (getBadge_monotone (streak h - 1) (streak h)).
      pose proof (getBadge_step (streak h - 1)).
      replace (streak h - 1 + 1) with (streak h) in * by lia. lia.
    + assert (Hs : streak h <= 0 \/ streak h = 1) by lia.
      destruct Hs as [Hs | Hs].
      * pose proof (getBadge_monotone (streak h) 0 Hs).
        change (badgeRank (getBadge 0)) with 0 in *.
        assert (0 <= badgeRank (getBadge (streak h)))
          by (destruct (getBadge (streak h)); simpl; lia).
        lia.
      * rewrite Hs. simpl. lia.
Qed.

Lemma toggle_moves_badge_one_tier_witness :
  getBadge (streak (toggled "2026-03-02" (habitAt 29 "2026-03-01" false)))
    = BadgeCrown /\
  getBadge (streak (habitAt 29 "2026-03-01" false)) = BadgeStar /\
  2 <= badgeRank (getBadge (streak (toggled "2026-03-02" (habitAt 29 "2026-03-01" false)))).
Proof.
  split; [reflexivity |]. split; [reflexivity |].
  destruct (toggle_moves_badge_one_tier "2026-03-02" (habitAt 29 "2026-03-01" false))
    as [Hcheck _].
  apply Hcheck. reflexivity.
Defined.

(* --------------------------------------------------------------------- *)
(** ** The forms                                                           *)
(* --------------------------------------------------------------------- *)

Lemma js_or_num (n fallback : Z) :
  fallback = 0 -> js_or (VNum n) (VNum fallback) = VNum n.
Proof.
  intros ->. unfold js_or. simpl.
  destruct (Z.eqb_spec n 0) as [-> | _]; reflexivity.
Qed.

Lemma js_or_bool (b : bool) : js_or (VBool b) (VBool false) = VBool b.
Proof. now destruct b. Qed.

Lemma js_or_str (s fallback : string) :
  js_or (VStr s) (VStr fallback) =
    VStr (if String.eqb s "" then fallback else s).
Proof. unfold js_or. simpl. now destruct (String.eqb s ""). Qed.

(** X13. In the edit flow of the habit form the update sent for the
    habit carries its current streak and check mark, and its current
    [lastChecked] unless that is empty: editing the name, category or
    target never changes the progress. The update is addressed to the
    habit's id and holds no [id] field. *)
Theorem habit_edit_keeps_progress (h : Habit) (name category : string)
    (targetInput : JsVal) (clock : JsDate) (today : string) :
  let data := habitFormData name category targetInput (habitObj h) clock in
  handleSave (Some h) today data = CallUpdate (habit_id h) data /\
  data !! "streak" = Some (VNum (streak h)) /\
  data !! "checkedToday" = Some (VBool (checkedToday h)) /\
  data !! "lastChecked" =
    Some (VStr (if String.eqb (lastChecked h) "" then isoDay clock
                else lastChecked h)) /\
  data !! "id" = None.
Proof.
  intros data. unfold data, habitFormData.
  split; [reflexivity |].
  replace (get (habitObj h) "streak") with (VNum (streak h)) by reflexivity.
  replace (get (habitObj h) "lastChecked") with (VStr (lastChecked h)) by reflexivity.
  replace (get (habitObj h) "checkedToday") with (VBool (checkedToday h))
    by reflexivity.
  rewrite js_or_num, js_or_bool, js_or_str by reflexivity.
  repeat split; reflexivity.
Qed.

(** X14. Submitting the edit form of a habit without touching its inputs
    writes back exactly the fields the habit has: the inputs start from the
    habit's name, category and target, and the update equals the habit's
    object without its [id] (for a habit whose name, category and
    [lastChecked] are not empty and whose target is not 0). *)
Theorem habit_edit_unchanged_is_identity (h : Habit) (clock : JsDate) :
  habit_name h <> "" -> habit_category h <> "" ->
  lastChecked h <> "" -> target h <> 0 ->
  let inputs := formInputs false (habitObj h) clock in
  in_name inputs = VStr (habit_name h) /\
  in_category inputs = VStr (habit_category h) /\
  in_target inputs = VNum (target h) /\
  habitFormData (habit_name h) (habit_category h) (VNum (target h))
    (habitObj h) clock = delete "id" (habitObj h).
Proof.
  intros Hn Hc Hl Ht inputs. unfold inputs, formInputs; simpl.
  replace (get (habitObj h) "name") with (VStr (habit_name h)) by reflexivity.
  replace (get (habitObj h) "category") with (VStr (habit_category h))
    by reflexivity.
  replace (get (habitObj h) "target") with (VNum (target h)) by reflexivity.
  apply String.eqb_neq in Hn, Hc, Hl.
  rewrite !js_or_str, Hn, Hc.
  split; [reflexivity |]. split; [reflexivity |]. split.
  - unfold js_or. simpl. apply Z.eqb_neq in Ht. now rewrite Ht.
  - unfold habitFormData.
    replace (get (habitObj h) "streak") with (VNum (streak h)) by reflexivity.
    replace (get (habitObj h) "lastChecked") with (VStr (lastChecked h))
      by reflexivity.
    replace (get (habitObj h) "checkedToday") with (VBool (checkedToday h))
      by reflexivity.
    rewrite js_or_num, js_or_bool, js_or_str, Hl by reflexivity.
    reflexivity.
Qed.

Lemma habit_edit_unchanged_is_identity_witness :
  habitFormData "Minum 2 liter air" "Kesehatan" (VNum 7)
    (habitObj (habitAt 5 "2026-03-01" true)) (clockAt 0 "2026-03-02T00:00:00.000Z")
  = delete "id" (habitObj (habitAt 5 "2026-03-01" true)).
Proof.
  apply (habit_edit_unchanged_is_identity (habitAt 5 "2026-03-01" true)
           (clockAt 0 "2026-03-02T00:00:00.000Z")); discriminate.
Defined.

(** X15. The task form submits a task that is not completed and has no
    subtasks when it was opened empty (the add flow), and the completion
    flag and the subtasks of the task it was opened with otherwise; it
    never submits an [id] or a [createdAt]. *)
Theorem task_form_payload (name category deadline priority : string)
    (initialData : Obj) :
  let data := taskFormData name category deadline priority initialData in
  (initialData !! "completed" = None -> initialData !! "subtasks" = None ->
   data !! "completed" = Some (VBool false) /\
   data !! "subtasks" = Some (VSubtasks [])) /\
  (forall b, initialData !! "completed" = Some (VBool b) ->
             data !! "completed" = Some (VBool b)) /\
  (forall l, initialData !! "subtasks" = Some (VSubtasks l) ->
             data !! "subtasks" = Some (VSubtasks l)) /\
  data !! "id" = None /\ data !! "createdAt" = None.
Proof.
  intros data. unfold data, taskFormData, get.
  split; [| split; [| split]].
  - intros -> ->. split; reflexivity.
  - intros b ->. simpl. rewrite js_or_bool. reflexivity.
  - intros l ->. reflexivity.
  - split; reflexivity.
Qed.

Lemma task_form_payload_witness :
  taskFormData "Buy milk" "Pribadi" "2026-03-09" "Penting - Mendesak" ∅
    !! "completed" = Some (VBool false).
Proof.
  destruct (task_form_payload "Buy milk" "Pribadi" "2026-03-09"
              "Penting - Mendesak" ∅) as [Hadd _].
  apply Hadd; reflexivity.
Defined.

(* --------------------------------------------------------------------- *)
(** ** More on seeding and on the hook                                     *)
(* --------------------------------------------------------------------- *)

(** X16. The seeding effect keeps no record of having seeded: when it
    runs again while the mirror of a collection is still loaded and empty
    (the snapshot with the first default record has not arrived, and some
    other dependency changed), it adds the default record a second time. *)
Theorem seeding_repeats_until_echo (appId : string) (lt : LoadTime)
    (st1 st2 : AppState) (wrT1 wrH1 wrT2 wrH2 : WriteResult) (w : World)
    (u : string) (c : Coll) :
  app_userId st1 = Some u -> app_userId st2 = Some u ->
  sessionReady st1 = true -> sessionReady st2 = true ->
  coll_loading st1 c = false -> coll_items st1 c = [] ->
  coll_loading st2 c = false -> coll_items st2 c = [] ->
  addedTo (collectionPath appId u (coll_name c))
    (remote (seedingEffect appId lt st2 wrT2 wrH2
               (seedingEffect appId lt st1 wrT1 wrH1 w))) =
  (addedTo (collectionPath appId u (coll_name c)) (remote w)
   ++ [coll_default lt c; coll_default lt c])%list.
Proof.
  intros Hu1 Hu2 Hr1 Hr2 Hl1 Hi1 Hl2 Hi2.
  rewrite !addedTo_seedingEffect.
  rewrite (seedRequests_fires appId lt st1 u c) by assumption.
  rewrite (seedRequests_fires appId lt st2 u c) by assumption.
  cbn [addedTo]. rewrite String.eqb_refl.
  now rewrite <- app_assoc.
Qed.

Lemma seeding_repeats_until_echo_witness :
  addedTo "artifacts/default-app-id/users/u1/tasks"
    (remote (seedingEffect "default-app-id" sampleLoadTime sampleAppState
               WriteOk WriteOk
               (seedingEffect "default-app-id" sampleLoadTime
                  {| app_db := Some {| instance := 0 |}; app_userId := Some "u1";
                     isAuthReady := true; tasks := []; tasksLoading := false;
                     habits := []; habitsLoading := true |}
                  WriteOk WriteOk initWorld)))
  = [initialTask sampleLoadTime; initialTask sampleLoadTime].
Proof.
  apply (seeding_repeats_until_echo "default-app-id" sampleLoadTime
           {| app_db := Some {| instance := 0 |}; app_userId := Some "u1";
              isAuthReady := true; tasks := []; tasksLoading := false;
              habits := []; habitsLoading := true |}
           sampleAppState WriteOk WriteOk WriteOk WriteOk initWorld "u1" CTasks);
    reflexivity.
Defined.

(** X17. A mounted hook never goes back to loading and never drops its
    items by itself: a commit, whether it rebinds to another user or
    collection or not, leaves the items and the error as they are and
    leaves a cleared loading flag cleared, and so do all events but an
    unmount. After a rebind the mirror goes on showing the items of the
    previous subscription until the first snapshot of the new one. *)
Theorem rebind_keeps_mirror (appId : string) (w : World) (d0 : Deps) :
  lastDeps w = Some d0 ->
  (forall d : Deps,
      data (commit appId d w) = data w /\
      error (commit appId d w) = error w /\
      (loading w = false -> loading (commit appId d w) = false)) /\
  (forall e : Event,
      e <> EvUnmount -> loading w = false -> loading (step appId w e) = false).
Proof.
  intros Hd.
  assert (Hcommit : forall d,
             data (commit appId d w) = data w /\
             error (commit appId d w) = error w /\
             (loading w = false -> loading (commit appId d w) = false)).
  { intros d. unfold commit. rewrite Hd.
    destruct (decide (d0 = d)); [auto |].
    unfold effectBody, runCleanup.
    destruct (cleanup w), (dep_db d), (dep_userId d) as [u |]; simpl; auto;
      destruct (negb (String.eqb u "")); simpl; auto. }
  split; [exact Hcommit |].
  intros e Hne Hl. destruct e as [d | | lid docs | lid msg]; simpl.
  - now apply Hcommit.
  - contradiction.
  - destruct (listeners w !! lid); [reflexivity | exact Hl].
  - destruct (listeners w !! lid); [reflexivity | exact Hl].
Qed.

Lemma rebind_keeps_mirror_witness :
  let w := run "default-app-id"
             [EvCommit (depsFor (Some "u1"));
              EvSnapshot 0%nat [("t1", {[ "name" := VStr "Buy milk" ]})]]
             initWorld in
  data (commit "default-app-id" (depsFor (Some "u2")) w) = data w /\
  length (data w) = 1%nat.
Proof.
  intros w.
  destruct (rebind_keeps_mirror "default-app-id" w (depsFor (Some "u1")) eq_refl)
    as [Hcommit _].
  destruct (Hcommit (depsFor (Some "u2"))) as (Hdata & _).
  split; [exact Hdata | reflexivity].
Defined.

(** X18. A snapshot replaces the mirror wholesale: the items are
    exactly the documents of the snapshot (sorted or not), each under the
    id of its document unless the document stores an [id] field of its own,
    which then wins; loading and error are cleared. *)
Theorem snapshot_replaces_mirror (sub : Subscription)
    (docs : list (string * Obj)) (w : World) :
  let w' := onNext sub docs w in
  Permutation (data w') (map withId docs) /\
  loading w' = false /\ error w' = None /\
  (forall item, item ∈ data w' ->
     exists docId d, (docId, d) ∈ docs /\ item = withId (docId, d) /\
       item !! "id" = Some (default (VStr docId) (d !! "id")) /\
       forall f, f <> "id" -> item !! f = d !! f).
Proof.
  intros w'.
  assert (Hperm : Permutation (data w') (map withId docs)).
  { unfold w', onNext; simpl.
    destruct (sub_sortField sub) as [f |]; [| reflexivity].
    destruct (negb (String.eqb f "")); [apply js_sort_Permutation | reflexivity]. }
  split; [exact Hperm |]. split; [reflexivity |]. split; [reflexivity |].
  intros item Hitem. rewrite Hperm in Hitem.
  apply list_elem_of_In, in_map_iff in Hitem as ([docId d] & <- & Hin).
  exists docId, d. split; [now apply list_elem_of_In |]. split; [reflexivity |].
  unfold withId; simpl. split.
  - rewrite lookup_union. rewrite lookup_singleton_eq.
    destruct (d !! "id"); reflexivity.
  - intros f Hf. rewrite lookup_union, lookup_singleton_ne by congruence.
    destruct (d !! f); reflexivity.
Qed.

Lemma snapshot_replaces_mirror_witness :
  data (onNext {| sub_path := "artifacts/default-app-id/users/u1/tasks";
                  sub_collectionName := "tasks"; sub_sortField := None |}
          [("t1", {[ "name" := VStr "Buy milk" ]})] initWorld)
  = [ {[ "id" := VStr "t1"; "name" := VStr "Buy milk" ]} ].
Proof.
  destruct (snapshot_replaces_mirror
              {| sub_path := "artifacts/default-app-id/users/u1/tasks";
                 sub_collectionName := "tasks"; sub_sortField := None |}
              [("t1", {[ "name" := VStr "Buy milk" ]})] initWorld)
    as (Hperm & _).
  apply Permutation_sym, Permutation_length_1_inv in Hperm.
  exact Hperm.
Defined.

(* --------------------------------------------------------------------- *)
(** ** The handlers of the second variant                                  *)
(* --------------------------------------------------------------------- *)

Lemma handleAddTask_env (title : string) (clock : JsDate) (newId : string)
    (wr : WriteResult) (st : PlannerState) :
  let st' := handleAddTask title clock newId wr st in
  dbInstance st' = dbInstance st /\ userId st' = userId st /\
  projectId st' = projectId st.
Proof.
  unfold handleAddTask.
  destruct (getUserCollectionRef st (userId st) "tasks"); [| easy].
  destruct (String.eqb (userId st) "" || String.eqb title ""); [easy |].
  now destruct wr.
Qed.

Lemma handleToggleTask_env (id : string) (currentStatus : bool)
    (wr : WriteResult) (st : PlannerState) :
  let st' := handleToggleTask id currentStatus wr st in
  dbInstance st' = dbInstance st /\ userId st' = userId st /\
  projectId st' = projectId st.
Proof.
  unfold handleToggleTask.
  destruct (getUserCollectionRef st (userId st) "tasks") as [ref |]; [| easy].
  destruct (String.eqb (userId st) "" || String.eqb id ""); [easy |].
  destruct wr; [| easy].
  now destruct (updateDocStore ref id _ (store st)).
Qed.

Lemma plannerStep_env (st : PlannerState) (c : PlannerCall) :
  dbInstance (plannerStep st c) = dbInstance st /\
  userId (plannerStep st c) = userId st /\
  projectId (plannerStep st c) = projectId st.
Proof.
  destruct c; simpl.
  - apply handleAddTask_env.
  - apply handleToggleTask_env.
  - apply handleSaveReflection_env.
Qed.

Lemma plannerStep_error_sticky (st : PlannerState) (c : PlannerCall) :
  is_Some (appError st) -> is_Some (appError (plannerStep st c)).
Proof.
  intros Herr. destruct c as [title clock newId wr | id b wr | content d1 d2 wr];
    simpl.
  - unfold handleAddTask.
    destruct (getUserCollectionRef st (userId st) "tasks"); [| exact Herr].
    destruct (String.eqb (userId st) "" || String.eqb title ""); [exact Herr |].
    destruct wr; simpl; [exact Herr | eauto].
  - unfold handleToggleTask.
    destruct (getUserCollectionRef st (userId st) "tasks") as [ref |];
      [| exact Herr].
    destruct (String.eqb (userId st) "" || String.eqb id ""); [exact Herr |].
    destruct wr; simpl; [| eauto].
    destruct (updateDocStore ref id _ (store st)); simpl; [exact Herr | eauto].
  - unfold handleSaveReflection.
    destruct (getUserCollectionRef st (userId st) "reflections"); [| exact Herr].
    destruct (String.eqb (userId st) "" || String.eqb content ""); [exact Herr |].
    destruct wr; simpl; [exact Herr | eauto].
Qed.

(** X19. No handler ever clears the error cell: once a write has been
    rejected, the cell stays set through all later calls of the handlers,
    whatever they do, and [renderContent] shows the error panel in place of
    every view. A rejected add that got past the guards sets it. *)
Theorem error_panel_is_sticky (calls : list PlannerCall) (st : PlannerState) :
  (is_Some (appError st) ->
   exists msg,
     appError (plannerRun calls st) = Some msg /\
     forall authReady loadingMessage currentView,
       renderContent (plannerRun calls st) authReady loadingMessage currentView
       = ScreenError msg) /\
  (forall title clock newId reason ref,
      getUserCollectionRef st (userId st) "tasks" = Some ref ->
      userId st <> "" -> title <> "" ->
      appError (handleAddTask title clock newId (WriteFail reason) st)
      = Some "Gagal menambah tugas.").
Proof.
  split.
  - intros Herr.
    assert (Hrun : is_Some (appError (plannerRun calls st))).
    { revert st Herr. induction calls as [| c calls IH]; intros st Herr; simpl.
      - exact Herr.
      - apply IH, plannerStep_error_sticky, Herr. }
    destruct Hrun as [msg Hmsg]. exists msg. split; [exact Hmsg |].
    intros authReady loadingMessage currentView.
    unfold renderContent. now rewrite Hmsg.
  - intros title clock newId reason ref Href Hu Ht.
    unfold handleAddTask. rewrite Href.
    apply String.eqb_neq in Hu, Ht. now rewrite Hu, Ht.
Qed.

Lemma error_panel_is_sticky_witness :
  renderContent
    (plannerRun
       [DoToggleTask "t1" false WriteOk;
        DoSaveReflection "X" (clockAt 0 "2026-03-02T00:00:00.000Z")
          (clockAt 0 "2026-03-02T00:00:00.000Z") WriteOk]
       (handleAddTask "Buy milk" (clockAt 0 "2026-03-02T00:00:00.000Z") "t1"
          (WriteFail "offline") (plannerAt ∅)))
    true None "TaskManager"
  = ScreenError "Gagal mengubah status tugas.".
Proof.
  destruct (error_panel_is_sticky
              [DoToggleTask "t1" false WriteOk;
               DoSaveReflection "X" (clockAt 0 "2026-03-02T00:00:00.000Z")
                 (clockAt 0 "2026-03-02T00:00:00.000Z") WriteOk]
              (handleAddTask "Buy milk" (clockAt 0 "2026-03-02T00:00:00.000Z") "t1"
                 (WriteFail "offline") (plannerAt ∅))) as [Hsticky _].
  destruct Hsticky as (msg & Hmsg & Hscreen); [eexists; reflexivity |].
  rewrite Hscreen. f_equal.
  vm_compute in Hmsg. injection Hmsg as Hmsg. symmetry. exact Hmsg.
Defined.

Lemma plannerStep_refs (st : PlannerState) (c : PlannerCall) (name : string) :
  getUserCollectionRef (plannerStep st c) (userId (plannerStep st c)) name =
  getUserCollectionRef st (userId st) name.
Proof.
  destruct (plannerStep_env st c) as (Hdb & Hu & Hp).
  rewrite Hu. now apply getUserCollectionRef_env.
Qed.

Lemma plannerStep_store (st : PlannerState) (c : PlannerCall)
    (path id : string) :
  (is_Some (store st !! (path, id)) ->
   is_Some (store (plannerStep st c) !! (path, id))) /\
  (getUserCollectionRef st (userId st) "tasks" <> Some path ->
   getUserCollectionRef st (userId st) "reflections" <> Some path ->
   store (plannerStep st c) !! (path, id) = store st !! (path, id)).
Proof.
  destruct c as [title clock newId wr | tid b wr | content d1 d2 wr]; simpl.
  - unfold handleAddTask.
    destruct (getUserCollectionRef st (userId st) "tasks") as [ref |]; [| easy].
    destruct (String.eqb (userId st) "" || String.eqb title ""); [easy |].
    destruct wr; simpl; [| easy]. unfold setDocPlain. split.
    + intros Hsome. rewrite lookup_insert_is_Some'. tauto.
    + intros Hne _. rewrite lookup_insert_ne by congruence. reflexivity.
  - unfold handleToggleTask.
    destruct (getUserCollectionRef st (userId st) "tasks") as [ref |]; [| easy].
    destruct (String.eqb (userId st) "" || String.eqb tid ""); [easy |].
    destruct wr; simpl; [| easy]. unfold updateDocStore.
    destruct (store st !! (ref, tid)); simpl; [| easy]. split.
    + intros Hsome. rewrite lookup_insert_is_Some'. tauto.
    + intros Hne _. rewrite lookup_insert_ne by congruence. reflexivity.
  - unfold handleSaveReflection.
    destruct (getUserCollectionRef st (userId st) "reflections") as [ref |];
      [| easy].
    destruct (String.eqb (userId st) "" || String.eqb content ""); [easy |].
    destruct wr; simpl; [| easy]. unfold setDocMerge. split.
    + intros Hsome. rewrite lookup_insert_is_Some'. tauto.
    + intros _ Hne. rewrite lookup_insert_ne by congruence. reflexivity.
Qed.

(** X20. The handlers write only into the signed-in user's own [tasks]
    and [reflections] collections and never delete: after any calls, every
    document under any other path (another user's data, the public data,
    the user's habits and routines) is exactly as before, and every document
    that existed still exists. The user id and the store handle are not
    touched. *)
Theorem handlers_stay_in_own_collections (calls : list PlannerCall)
    (st : PlannerState) :
  let st' := plannerRun calls st in
  userId st' = userId st /\ dbInstance st' = dbInstance st /\
  (forall path id : string,
      is_Some (store st !! (path, id)) -> is_Some (store st' !! (path, id))) /\
  (forall path id : string,
      getUserCollectionRef st (userId st) "tasks" <> Some path ->
      getUserCollectionRef st (userId st) "reflections" <> Some path ->
      store st' !! (path, id) = store st !! (path, id)).
Proof.
  revert st. induction calls as [| c calls IH]; intros st; simpl.
  - repeat split; auto.
  - destruct (IH (plannerStep st c)) as (Hu & Hdb & Hkeep & Hframe).
    destruct (plannerStep_env st c) as (Hdb1 & Hu1 & _).
    split; [congruence |]. split; [congruence |]. split.
    + intros path id Hsome. apply Hkeep.
      now apply (plannerStep_store st c path id).
    + intros path id Ht Hr.
      rewrite Hframe by (rewrite plannerStep_refs; assumption).
      now apply (plannerStep_store st c path id).
Qed.

Lemma handlers_stay_in_own_collections_witness :
  let s0 : Store :=
    {[ ("artifacts/genz-planner/users/u2/tasks", "t9") :=
         ({[ "title" := VStr "Tugas orang lain" ]} : Obj) ]} in
  store (plannerRun
           [DoAddTask "Buy milk" (clockAt 0 "2026-03-02T00:00:00.000Z") "t1" WriteOk;
            DoToggleTask "t1" false WriteOk]
           (plannerAt s0))
    !! ("artifacts/genz-planner/users/u2/tasks", "t9")
  = Some ({[ "title" := VStr "Tugas orang lain" ]} : Obj).
Proof.
  intros s0.
  destruct (handlers_stay_in_own_collections
              [DoAddTask "Buy milk" (clockAt 0 "2026-03-02T00:00:00.000Z") "t1" WriteOk;
               DoToggleTask "t1" false WriteOk]
              (plannerAt s0)) as (_ & _ & _ & Hframe).
  rewrite Hframe; [reflexivity | discriminate | discriminate].
Defined.

Lemma handleToggleTask_committed (id : string) (b : bool) (st : PlannerState)
    (ref : string) (doc : Obj) :
  getUserCollectionRef st (userId st) "tasks" = Some ref ->
  userId st <> "" -> id <> "" ->
  store st !! (ref, id) = Some doc ->
  handleToggleTask id b WriteOk st =
    withStore (<[(ref, id) := {[ "completed" := VBool (negb b) ]} ∪ doc]> (store st)) st.
Proof.
  intros Href Hu Hid Hdoc. apply String.eqb_neq in Hu, Hid.
  unfold handleToggleTask, updateDocStore.
  now rewrite Href, Hu, Hid, Hdoc.
Qed.

Lemma toggled_twice_doc (b : bool) (doc : Obj) :
  doc !! "completed" = Some (VBool b) ->
  ({[ "completed" := VBool (negb (negb b)) ]} : Obj)
    ∪ ({[ "completed" := VBool (negb b) ]} ∪ doc) = doc.
Proof.
  intros Hb. apply map_eq. intros f. rewrite !lookup_union.
  destruct (decide (f = "completed")) as [-> | Hne].
  - rewrite !lookup_singleton_eq, Hb, negb_involutive. reflexivity.
  - rewrite !lookup_singleton_ne by congruence.
    destruct (doc !! f); reflexivity.
Qed.

(** X21. Toggling a task twice, each time with the status it then has,
    leaves its document exactly as it was; the first toggle changes the
    [completed] field and no other. *)
Theorem toggle_task_round_trip (id : string) (b : bool) (st : PlannerState)
    (ref : string) (doc : Obj) :
  getUserCollectionRef st (userId st) "tasks" = Some ref ->
  userId st <> "" -> id <> "" ->
  store st !! (ref, id) = Some doc ->
  doc !! "completed" = Some (VBool b) ->
  let st1 := handleToggleTask id b WriteOk st in
  let st2 := handleToggleTask id (negb b) WriteOk st1 in
  fieldOf (store st1) ref id "completed" = Some (VBool (negb b)) /\
  (forall f, f <> "completed" -> fieldOf (store st1) ref id f = doc !! f) /\
  store st2 = store st /\ appError st2 = appError st.
Proof.
  intros Href Hu Hid Hdoc Hb st1 st2.
  pose proof (handleToggleTask_committed id b st ref doc Href Hu Hid Hdoc) as Hst1.
  fold st1 in Hst1.
  assert (Hst2 : st2 = withStore (store st) st).
  { unfold st2. rewrite Hst1.
    rewrite (handleToggleTask_committed id (negb b) _ ref
               ({[ "completed" := VBool (negb b) ]} ∪ doc));
      try assumption.
    - cbn [store withStore]. rewrite insert_insert_eq.
      rewrite (toggled_twice_doc b doc Hb).
      now rewrite (insert_id (store st) (ref, id) doc Hdoc).
    - cbn [store withStore]. apply lookup_insert_eq. }
  split; [| split; [| split]].
  - rewrite Hst1. unfold fieldOf. cbn [store withStore].
    rewrite lookup_insert_eq. simpl.
    rewrite lookup_union, lookup_singleton_eq. now destruct (doc !! "completed").
  - intros f Hf. rewrite Hst1. unfold fieldOf. cbn [store withStore].
    rewrite lookup_insert_eq. simpl.
    rewrite lookup_union, lookup_singleton_ne by congruence.
    now destruct (doc !! f).
  - now rewrite Hst2.
  - now rewrite Hst2.
Qed.

Lemma toggle_task_round_trip_witness :
  let st := handleAddTask "Buy milk" (clockAt 0 "2026-03-02T00:00:00.000Z") "t1"
              WriteOk (plannerAt ∅) in
  store (handleToggleTask "t1" true WriteOk
           (handleToggleTask "t1" false WriteOk st)) = store st.
Proof.
  intros st.
  destruct (toggle_task_round_trip "t1" false st
              "artifacts/genz-planner/users/u1/tasks"
              {[ "title" := VStr "Buy milk"; "completed" := VBool false;
                 "createdAt" := VDate 0; "category" := VStr "Uncategorized" ]}
              eq_refl ltac:(discriminate) ltac:(discriminate) eq_refl eq_refl)
    as (_ & _ & Hstore & _).
  exact Hstore.
Defined.

Lemma filter_length_Permutation {A : Type} (keep : A -> bool) (l l' : list A) :
  Permutation l l' ->
  length (List.filter keep l) = length (List.filter keep l').
Proof.
  induction 1 as [| x l l' _ IH | x y l | l l' l'' _ IH1 _ IH2]; simpl.
  - reflexivity.
  - destruct (keep x); simpl; now rewrite IH.
  - destruct (keep x), (keep y); reflexivity.
  - congruence.
Qed.

Lemma length_pendingTasks (ts : list Task) :
  length (pendingTasks ts) = length (List.filter (fun t => negb (completed t)) ts).
Proof. apply Permutation_length, js_sort_Permutation. Qed.

Lemma length_completedTasks (ts : list Task) :
  length (completedTasks ts) = length (List.filter (fun t => completed t) ts).
Proof. apply Permutation_length, js_sort_Permutation. Qed.

(** The snapshot after a document has been put under a fresh id of the
    user's task collection. *)
Lemma tasksDocs_insert_fresh (st : PlannerState) (ref id : string) (doc : Obj) :
  getUserCollectionRef st (userId st) "tasks" = Some ref ->
  store st !! (ref, id) = None ->
  Permutation (tasksDocs (withStore (<[(ref, id) := doc]> (store st)) st))
              ((id, doc) :: tasksDocs st).
Proof.
  intros Href Hfresh. unfold tasksDocs.
  change (getUserCollectionRef (withStore _ st) (userId (withStore _ st)) "tasks")
    with (getUserCollectionRef st (userId st) "tasks").
  rewrite Href. cbn [store withStore].
  rewrite (map_to_list_insert (store st) (ref, id) doc Hfresh).
  rewrite filter_cons_True by reflexivity.
  reflexivity.
Qed.

(** X22. Adding a task and then completing it, as the views count it:
    after the add the snapshot lists one more pending task and as many
    completed ones as before; after the toggle of the new task the pending
    count is back where it was and the completed count is one higher. *)
Theorem add_then_complete_moves_one_task (now : Z) (st : PlannerState)
    (ref title newId : string) (clock : JsDate) :
  getUserCollectionRef st (userId st) "tasks" = Some ref ->
  userId st <> "" -> title <> "" -> newId <> "" ->
  store st !! (ref, newId) = None ->
  let st1 := handleAddTask title clock newId WriteOk st in
  let st2 := handleToggleTask newId false WriteOk st1 in
  length (pendingTasks (fetchedTasks now st1))
    = S (length (pendingTasks (fetchedTasks now st))) /\
  length (completedTasks (fetchedTasks now st1))
    = length (completedTasks (fetchedTasks now st)) /\
  length (pendingTasks (fetchedTasks now st2))
    = length (pendingTasks (fetchedTasks now st)) /\
  length (completedTasks (fetchedTasks now st2))
    = S (length (completedTasks (fetchedTasks now st))).
Proof.
  intros Href Hu Ht Hid Hfresh st1 st2.
  set (fields := ({[ "title" := VStr title; "completed" := VBool false;
                     "createdAt" := VDate (getTime clock);
                     "category" := VStr "Uncategorized" ]} : Obj)).
  assert (Hst1 : st1 = withStore (<[(ref, newId) := fields]> (store st)) st).
  { unfold st1, handleAddTask, setDocPlain. rewrite Href.
    pose proof Hu as Hu'. pose proof Ht as Ht'.
    apply String.eqb_neq in Hu', Ht'. now rewrite Hu', Ht'. }
  assert (Hst2 : st2 = withStore
            (<[(ref, newId) := {[ "completed" := VBool true ]} ∪ fields]> (store st)) st).
  { unfold st2. rewrite Hst1.
    rewrite (handleToggleTask_committed newId false _ ref fields);
      try assumption.
    - cbn [store withStore]. now rewrite insert_insert_eq.
    - cbn [store withStore]. apply lookup_insert_eq. }
  pose proof (tasksDocs_insert_fresh st ref newId fields Href Hfresh) as Hp1.
  pose proof (tasksDocs_insert_fresh st ref newId
                ({[ "completed" := VBool true ]} ∪ fields) Href Hfresh) as Hp2.
  rewrite <- Hst1 in Hp1. rewrite <- Hst2 in Hp2.
  rewrite !length_pendingTasks, !length_completedTasks.
  unfold fetchedTasks.
  rewrite (filter_length_Permutation _ _ _ (Permutation_map (taskOfDoc now) Hp1)).
  rewrite (filter_length_Permutation (fun t => completed t) _ _
             (Permutation_map (taskOfDoc now) Hp1)).
  rewrite (filter_length_Permutation _ _ _ (Permutation_map (taskOfDoc now) Hp2)).
  rewrite (filter_length_Permutation (fun t => completed t) _ _
             (Permutation_map (taskOfDoc now) Hp2)).
  repeat split; reflexivity.
Qed.

Lemma add_then_complete_moves_one_task_witness :
  let st := plannerAt ∅ in
  let st1 := handleAddTask "Buy milk" (clockAt 0 "2026-03-02T00:00:00.000Z") "t1"
               WriteOk st in
  length (pendingTasks (fetchedTasks 0 st1)) = 1%nat /\
  length (completedTasks (fetchedTasks 0 (handleToggleTask "t1" false WriteOk st1)))
    = 1%nat.
Proof.
  intros st st1.
  destruct (add_then_complete_moves_one_task 0 st
              "artifacts/genz-planner/users/u1/tasks" "Buy milk" "t1"
              (clockAt 0 "2026-03-02T00:00:00.000Z")
              eq_refl ltac:(discriminate) ltac:(discriminate)
              ltac:(discriminate) eq_refl)
    as (Hp1 & _ & _ & Hc2).
  split; [exact Hp1 | exact Hc2].
Defined.

(* --------------------------------------------------------------------- *)
(** ** The session hook                                                    *)
(* --------------------------------------------------------------------- *)

Lemma firebaseStep_db (s : FirebaseHook) (e : FirebaseEvent) :
  fb_db (firebaseStep s e) = fb_db s.
Proof.
  destruct e as [[uid |] | p [uid | err]]; simpl.
  - now destruct (fb_listening s).
  - now destruct (fb_listening s).
  - destruct (bool_decide (p ∈ fb_pending s)); [| reflexivity]. now destruct p.
  - destruct (bool_decide (p ∈ fb_pending s)); [| reflexivity]. now destruct p.
Qed.

Lemma firebaseRun_db (es : list FirebaseEvent) (s : FirebaseHook) :
  fb_db (firebaseRun es s) = fb_db s.
Proof.
  revert s. induction es as [| e es IH]; intros s; simpl; [reflexivity |].
  unfold firebaseRun in IH. now rewrite IH, firebaseStep_db.
Qed.

(** With no listener and no pending sign-in nothing can happen. *)
Lemma firebaseRun_dead (es : list FirebaseEvent) (s : FirebaseHook) :
  fb_listening s = false -> fb_pending s = [] -> firebaseRun es s = s.
Proof.
  intros Hl Hp. induction es as [| e es IH]; simpl; [reflexivity |].
  assert (Hstep : firebaseStep s e = s).
  { destruct e as [user | p result]; simpl.
    - now rewrite Hl.
    - rewrite Hp. reflexivity. }
  unfold firebaseRun in IH. now rewrite Hstep.
Qed.

(** X23. A user id or the ready flag never comes without the store
    handle: in every state of the session hook, a set user id or a set
    [isAuthReady] implies a set [db]. When the configuration is empty or
    the initialisation throws, nothing is ever set: there is one line on
    the error console, no listener and no sign-in, and [App] shows its
    spinner whatever happens afterwards. *)
Theorem session_needs_store_handle (configEmpty : bool) (init : option Firestore)
    (token : option string) (currentUser : bool) (es : list FirebaseEvent) :
  let s := firebaseRun es (mountFirebase configEmpty init token currentUser) in
  (is_Some (fb_userId s) \/ fb_isAuthReady s = true -> is_Some (fb_db s)) /\
  (configEmpty = true \/ init = None ->
   fb_db s = None /\ fb_userId s = None /\ fb_isAuthReady s = false /\
   showsSpinner s = true /\ length (fb_console s) = 1%nat).
Proof.
  intros s.
  assert (Hdead : configEmpty = true \/ init = None ->
            s = mountFirebase configEmpty init token currentUser /\
            fb_db s = None /\ fb_userId s = None /\ fb_isAuthReady s = false /\
            showsSpinner s = true /\ length (fb_console s) = 1%nat).
  { intros Hbad.
    assert (Hs : s = mountFirebase configEmpty init token currentUser).
    { unfold s. apply firebaseRun_dead; unfold mountFirebase;
        destruct Hbad as [-> | ->]; try reflexivity;
        destruct configEmpty; reflexivity. }
    split; [exact Hs |]. rewrite Hs. unfold mountFirebase, showsSpinner.
    destruct Hbad as [-> | ->]; [now repeat split |].
    destruct configEmpty; now repeat split. }
  split.
  - intros Hset. unfold s. rewrite firebaseRun_db.
    destruct configEmpty eqn:Hc.
    + destruct Hdead as (_ & _ & Hu & Hr & _); [now left |].
      fold s in Hset. rewrite Hu, Hr in Hset.
      destruct Hset as [[x Hx] | Hx]; discriminate.
    + destruct init as [d |].
      * unfold mountFirebase. simpl. eauto.
      * destruct Hdead as (_ & _ & Hu & Hr & _); [now right |].
        fold s in Hset. rewrite Hu, Hr in Hset.
        destruct Hset as [[x Hx] | Hx]; discriminate.
  - intros Hbad. now destruct (Hdead Hbad) as (_ & H).
Qed.

Lemma session_needs_store_handle_witness :
  showsSpinner
    (firebaseRun [AuthChanged (Some "u1"); Settled MountAnonSignIn (inl "u1")]
       (mountFirebase true (Some {| instance := 0 |}) None false)) = true.
Proof.
  destruct (session_needs_store_handle true (Some {| instance := 0 |}) None false
              [AuthChanged (Some "u1"); Settled MountAnonSignIn (inl "u1")])
    as [_ Hdead].
  destruct Hdead as (_ & _ & _ & Hspin & _); [now left | exact Hspin].
Defined.

Lemma firebaseStep_stuck (s : FirebaseHook) (e : FirebaseEvent) :
  reportsUser e -> fb_pending s = [] -> fb_isAuthReady s = false ->
  fb_pending (firebaseStep s e) = [] /\ fb_isAuthReady (firebaseStep s e) = false.
Proof.
  intros He Hp Hr. destruct e as [[uid |] | p result]; simpl.
  - destruct (fb_listening s); simpl; auto.
  - contradiction.
  - rewrite Hp. simpl. auto.
Qed.

(** X24. When the hook mounts without a token while a user is already
    signed in, it starts no sign-in, and [isAuthReady] is set only when a
    sign-in settles: as long as the auth listener keeps reporting a user,
    [isAuthReady] stays false and [App] keeps showing its spinner, although
    the user id arrives. *)
Theorem ready_flag_needs_a_sign_in (dbInstance : Firestore)
    (es : list FirebaseEvent) (uid : string) :
  Forall reportsUser es ->
  let s := firebaseRun es (mountFirebase false (Some dbInstance) None true) in
  fb_isAuthReady s = false /\ showsSpinner s = true /\
  fb_userId (firebaseStep s (AuthChanged (Some uid))) = Some uid /\
  fb_isAuthReady (firebaseStep s (AuthChanged (Some uid))) = false.
Proof.
  intros Hes s.
  assert (Hinv : fb_pending s = [] /\ fb_isAuthReady s = false /\
                 fb_listening s = true).
  { unfold s. generalize (mountFirebase false (Some dbInstance) None true)
      (eq_refl : fb_pending (mountFirebase false (Some dbInstance) None true) = [])
      (eq_refl : fb_isAuthReady (mountFirebase false (Some dbInstance) None true) = false)
      (eq_refl : fb_listening (mountFirebase false (Some dbInstance) None true) = true).
    induction Hes as [| e es He _ IH]; intros s0 Hp Hr Hl; simpl; [auto |].
    destruct (firebaseStep_stuck s0 e He Hp Hr) as [Hp' Hr'].
    apply IH; try assumption.
    destruct e as [[u |] | p result]; simpl.
    - now rewrite Hl.
    - contradiction.
    - rewrite Hp. simpl. exact Hl. }
  destruct Hinv as (Hp & Hr & Hl).
  unfold showsSpinner. rewrite Hr. simpl. rewrite Hl. simpl. auto.
Qed.

Lemma ready_flag_needs_a_sign_in_witness :
  fb_isAuthReady
    (firebaseRun [AuthChanged (Some "u1"); AuthChanged (Some "u1")]
       (mountFirebase false (Some {| instance := 0 |}) None true)) = false.
Proof.
  destruct (ready_flag_needs_a_sign_in {| instance := 0 |}
              [AuthChanged (Some "u1"); AuthChanged (Some "u1")] "u1")
    as [Hr _].
  - repeat constructor.
  - exact Hr.
Defined.

(* --------------------------------------------------------------------- *)
(** ** The theme                                                           *)
(* --------------------------------------------------------------------- *)

Lemma toggleTheme_valid (s : ThemeState) :
  let s' := toggleTheme s in
  (theme s' = "dark" \/ theme s' = "light") /\ storedTheme s' = Some (theme s').
Proof.
  unfold toggleTheme; simpl. destruct (String.eqb (theme s) "dark"); auto.
Qed.

(** X25. After the first toggle, whatever theme was stored or preferred
    at mount, the theme is "dark" or "light" and the stored theme is the
    one shown; from then on two toggles bring back the same state. *)
Theorem theme_toggle_round_trip (stored : option string) (prefersLight : bool)
    (n : nat) :
  let s := Nat.iter (S n) toggleTheme (initTheme stored prefersLight) in
  (theme s = "dark" \/ theme s = "light") /\
  storedTheme s = Some (theme s) /\
  toggleTheme (toggleTheme s) = s.
Proof.
  intros s. unfold s. simpl.
  destruct (toggleTheme_valid (Nat.iter n toggleTheme (initTheme stored prefersLight)))
    as [Hvalid Hstored].
  split; [exact Hvalid |]. split; [exact Hstored |].
  destruct (toggleTheme (Nat.iter n toggleTheme (initTheme stored prefersLight)))
    as [t st]. simpl in *. subst st.
  destruct Hvalid as [-> | ->]; reflexivity.
Qed.
